(** * OpenRegister container command API: a shallow embedding

    The development follows three source files:
    - [scripts/ai_code_fixing.py]    file handlers and the PHPCS post-processor,
    - [scripts/container-api.py]     the command server (version 2.0.0),
    - [scripts/container-api-ai.py]  the AI code fixing server (version 3.0.0).

    Python [str] values are Rocq strings (characters are code points below
    256), Python [int] values are [Z], dictionaries are association lists in
    insertion order, and everything that reaches the container or the model
    service goes through an explicit environment whose world is threaded as
    state, together with the list of calls made.

    The file has four parts: the embedding of the three sources, two test
    doubles of the container, the notions and named inputs of the
    statements, and the properties with their proofs. *)

From Stdlib Require Import String Ascii List ZArith Bool Arith Lia.
From Stdlib Require Import SpecFloat DecimalString ZifyNat.
Import ListNotations.

Local Open Scope list_scope.
Local Open Scope string_scope.
Set Warnings "-register-all".

(** ** Python string primitives *)

Module PyStr.

(** [s.startswith(p)] *)
Fixpoint startswith (s p : string) {struct p} : bool :=
  match p with
  | EmptyString => true
  | String a p' =>
      match s with
      | EmptyString => false
      | String b s' => Ascii.eqb b a && startswith s' p'
      end
  end.

(** [sub in s] *)
Fixpoint contains (sub s : string) : bool :=
  startswith s sub ||
  match s with
  | EmptyString => false
  | String _ s' => contains sub s'
  end.

(** [s[n:]] and [s[:n]] *)
Fixpoint drop (n : nat) (s : string) : string :=
  match n, s with
  | O, _ => s
  | S _, EmptyString => EmptyString
  | S k, String _ s' => drop k s'
  end.

Fixpoint take (n : nat) (s : string) : string :=
  match n, s with
  | O, _ => EmptyString
  | S _, EmptyString => EmptyString
  | S k, String c s' => String c (take k s')
  end.

(** [s.find(sep)]: offset of the leftmost occurrence. *)
Fixpoint find (sep s : string) : option nat :=
  if startswith s sep then Some O
  else match s with
       | EmptyString => None
       | String _ s' => option_map S (find sep s')
       end.

(** [s.partition(sep)], with [None] when [sep] does not occur. *)
Definition partition (sep s : string) : option (string * string) :=
  match find sep s with
  | Some i => Some (take i s, drop (i + String.length sep) s)
  | None => None
  end.

(** [s.split(sep)] for a non-empty separator: cut at the leftmost
    occurrence and go on with what follows it.  The fuel is the length of
    the string, which bounds the number of cuts. *)
Fixpoint split_fuel (fuel : nat) (sep s : string) : list string :=
  match fuel with
  | O => [s]
  | S f =>
      match partition sep s with
      | None => [s]
      | Some (a, b) => a :: split_fuel f sep b
      end
  end.

Definition split (sep s : string) : list string :=
  split_fuel (String.length s) sep s.

(** [str.isspace] on one character: the code points below 256 that Python
    counts as whitespace (the same set [\s] matches in a [str] pattern). *)
Definition isspace (c : ascii) : bool :=
  let n := nat_of_ascii c in
  (((9 <=? n) && (n <=? 13)) || ((28 <=? n) && (n <=? 32))
   || (n =? 133) || (n =? 160))%nat.

(** [\d] in a [str] pattern, below 256. *)
Definition isdigit (c : ascii) : bool :=
  let n := nat_of_ascii c in ((48 <=? n) && (n <=? 57))%nat.

(** [s.lstrip()], [s.rstrip()], [s.strip()] *)
Fixpoint lstrip (s : string) : string :=
  match s with
  | EmptyString => EmptyString
  | String c s' => if isspace c then lstrip s' else s
  end.

Fixpoint rstrip (s : string) : string :=
  match s with
  | EmptyString => EmptyString
  | String c s' =>
      match rstrip s' with
      | EmptyString => if isspace c then EmptyString else String c EmptyString
      | r => String c r
      end
  end.

Definition strip (s : string) : string := rstrip (lstrip s).

(** [s.lstrip(chars)] for a one-character set. *)
Fixpoint lstrip_char (c : ascii) (s : string) : string :=
  match s with
  | EmptyString => EmptyString
  | String a s' => if Ascii.eqb a c then lstrip_char c s' else s
  end.

(** The value of a run of decimal digits. *)
Definition digit_value (c : ascii) : Z := Z.of_nat (nat_of_ascii c) - 48.

Fixpoint int_of_digits_from (acc : Z) (s : string) : Z :=
  match s with
  | EmptyString => acc
  | String c s' => int_of_digits_from (10 * acc + digit_value c) s'
  end.

Definition int_of_digits (s : string) : Z := int_of_digits_from 0 s.

(** [str(n)] for an integer. *)
Definition str_of_int (n : Z) : string := NilZero.string_of_int (Z.to_int n).

(** The number of characters of [s] equal to [c]. *)
Fixpoint count_char (c : ascii) (s : string) : nat :=
  match s with
  | EmptyString => O
  | String a s' => (if Ascii.eqb a c then 1 else 0) + count_char c s'
  end.

Definition newline : string := String (ascii_of_nat 10) EmptyString.

End PyStr.

(** ** The fragment of [re] the post-processors use

    The patterns of [container-api.py] are sequences of literal characters
    and greedy one-or-more repetitions of a character class, one of which is
    a capturing group.  [match_here] is the backtracking matcher anchored at
    the head of the string, [search] is [re.search]: the leftmost position
    where the pattern matches. *)

Module Re.

Inductive item : Type :=
| Lit (c : ascii)
| Plus (cls : ascii -> bool) (group : bool).

Definition pattern := list item.

Definition lits (s : string) : pattern := map Lit (list_ascii_of_string s).

(** Length of the longest run of [cls] characters at the head of [s]. *)
Fixpoint run (cls : ascii -> bool) (s : string) : nat :=
  match s with
  | EmptyString => O
  | String c s' => if cls c then S (run cls s') else O
  end.

(** Greedy repetition: try [n] characters, then [n - 1], down to one. *)
Fixpoint longest_first {A : Type} (n : nat) (k : nat -> option A) : option A :=
  match n with
  | O => None
  | S m => match k n with
           | Some r => Some r
           | None => longest_first m k
           end
  end.

(** The groups captured by a match of [pat] at the head of [s]. *)
Fixpoint match_here (pat : pattern) (s : string) : option (list string) :=
  match pat with
  | [] => Some []
  | Lit c :: pat' =>
      match s with
      | EmptyString => None
      | String a s' => if Ascii.eqb a c then match_here pat' s' else None
      end
  | Plus cls group :: pat' =>
      longest_first (run cls s)
        (fun n => match match_here pat' (PyStr.drop n s) with
                  | Some gs => Some (if group then PyStr.take n s :: gs else gs)
                  | None => None
                  end)
  end.

Fixpoint search (pat : pattern) (s : string) : option (list string) :=
  match match_here pat s with
  | Some gs => Some gs
  | None => match s with
            | EmptyString => None
            | String _ s' => search pat s'
            end
  end.

End Re.

(** ** JSON values and dictionaries *)

Inductive Json : Type :=
| JNull
| JBool (b : bool)
| JInt (n : Z)
| JFloat (f : spec_float)
| JStr (s : string)
| JList (l : list Json)
| JDict (d : list (string * Json)).

(** A Python [dict] with string keys, in insertion order. *)
Definition Dict := list (string * Json).

Module PyDict.

(** [d.get(k)] *)
Fixpoint get (k : string) (d : Dict) : option Json :=
  match d with
  | [] => None
  | (k', v) :: d' => if String.eqb k' k then Some v else get k d'
  end.

(** [k in d] *)
Definition mem (k : string) (d : Dict) : bool :=
  match get k d with Some _ => true | None => false end.

(** [d[k] = v]: an existing key keeps its place, a new one goes last. *)
Fixpoint set (k : string) (v : Json) (d : Dict) : Dict :=
  match d with
  | [] => [(k, v)]
  | (k', v') :: d' =>
      if String.eqb k' k then (k', v) :: d' else (k', v') :: set k v d'
  end.

(** [d.update(extra)], also the meaning of [{..., **extra}]. *)
Definition update (d extra : Dict) : Dict :=
  fold_left (fun acc kv => set (fst kv) (snd kv) acc) extra d.

End PyDict.

(** Python truthiness of a decoded JSON value. *)
Definition truthy (v : Json) : bool :=
  match v with
  | JNull => false
  | JBool b => b
  | JInt n => negb (n =? 0)%Z
  | JFloat (S754_zero _) => false
  | JFloat _ => true
  | JStr s => negb (String.eqb s "")
  | JList l => match l with [] => false | _ => true end
  | JDict d => match d with [] => false | _ => true end
  end.

Definition jlen (s : string) : Json := JInt (Z.of_nat (String.length s)).

(** ** Exceptions, the target, and the monad of handlers *)

(** Only the classes that some [except] clause tells apart. *)
Inductive exn_class : Type := TimeoutExpired | JSONDecodeError | OtherException.

(** An exception with the text [str(e)] gives. *)
Record exn : Type := Exn { exn_is : exn_class; exn_str : string }.

Inductive result (A : Type) : Type :=
| Return (a : A)
| Raise (e : exn).
Arguments Return {A} a.
Arguments Raise {A} e.

(** [int(s)] on a run of decimal digits.  CPython refuses a text of more
    than 4300 digits, the default of [sys.set_int_max_str_digits], with a
    [ValueError]. *)
Definition int_max_str_digits : nat := 4300.

Definition py_int (s : string) : result Z :=
  if (int_max_str_digits <? String.length s)%nat
  then Raise (Exn OtherException
                ("Exceeds the limit (4300 digits) for integer string conversion: value has "
                 ++ PyStr.str_of_int (Z.of_nat (String.length s))
                 ++ " digits; use sys.set_int_max_str_digits() to increase the limit"))
  else Return (PyStr.int_of_digits s).

(** [int(match.group(1)) if match else 0] *)
Definition int_group1_or_0 (m : option (list string)) : result Z :=
  match m with
  | Some (g :: _) => py_int g
  | _ => Return 0%Z
  end.

(** [subprocess.CompletedProcess] with [capture_output=True, text=True]. *)
Record CompletedProcess : Type := Completed {
  returncode : Z;
  stdout : string;
  stderr : string
}.

(** What [requests.post(...)] hands back to [_handle_ai_fix]: the status
    code and the outcome of [response.json().get('response', '')], which is
    the value of the field [response] of the reply (a string, or any other
    JSON value, [null] included), the empty string when the reply has no such
    field, or the exception that [json()] or [get] raises. *)
Record ModelResponse : Type := {
  model_status_code : Z;
  model_json_response : result Json
}.

(** Everything the source takes from outside: the container behind
    [docker exec], the model service, the clocks and the library decoders.
    [phpcs_issues] and [phpcs_issues_detailed] stand for the loops of
    [process_phpcs_result] and [process_phpcs_detailed] that walk the decoded
    PHPCS report: each gives the list [issues_by_file] with the two totals,
    or the exception the walk raises on a report of another shape. *)
Record Env : Type := {
  World : Type;
  subprocess_run : list string -> Z -> World -> result CompletedProcess * World;
  requests_post : string -> string -> Z -> World -> result ModelResponse * World;
  utcnow_isoformat : World -> string;
  now_strftime : World -> string;
  json_loads : string -> result Json;
  json_dumps_indent2 : Json -> string;
  phpcs_issues : Json -> result (list Json * Json * Json);
  phpcs_issues_detailed : Json -> result (list Json * Json * Json)
}.

(** A call that left the server. *)
Inductive Call : Type :=
| DockerExec (args : list string) (timeout : Z)
| ModelPost (url prompt : string) (timeout : Z).

Section Monad.

Variable E : Env.

(** The state of one request: the world and the calls made so far. *)
Record St : Type := { world : World E; calls : list Call }.

Definition M (A : Type) : Type := St -> result A * St.

Definition ret {A} (a : A) : M A := fun st => (Return a, st).

Definition raise {A} (e : exn) : M A := fun st => (Raise e, st).

Definition bind {A B} (m : M A) (k : A -> M B) : M B :=
  fun st => match m st with
            | (Return a, st') => k a st'
            | (Raise e, st') => (Raise e, st')
            end.

(** [try: m  except Exception as e: h(e)] *)
Definition try_except {A} (m : M A) (h : exn -> M A) : M A :=
  fun st => match m st with
            | (Return a, st') => (Return a, st')
            | (Raise e, st') => h e st'
            end.

Definition lift {A} (r : result A) : M A := fun st => (r, st).

(** [subprocess.run(args, capture_output=True, text=True, timeout=t)] *)
Definition run (args : list string) (t : Z) : M CompletedProcess :=
  fun st =>
    let (r, w) := subprocess_run E args t (world st) in
    (r, {| world := w; calls := (calls st ++ [DockerExec args t])%list |}).

(** [requests.post(url, json={... 'prompt': prompt ...}, timeout=t)] *)
Definition post (url prompt : string) (t : Z) : M ModelResponse :=
  fun st =>
    let (r, w) := requests_post E url prompt t (world st) in
    (r, {| world := w; calls := (calls st ++ [ModelPost url prompt t])%list |}).

(** [datetime.utcnow().isoformat() + "Z"] *)
Definition utcnow_z : M string :=
  fun st => (Return (utcnow_isoformat E (world st) ++ "Z"), st).

(** [datetime.now().strftime('%Y%m%d_%H%M%S')] *)
Definition now_stamp : M string :=
  fun st => (Return (now_strftime E (world st)), st).

End Monad.

Arguments ret {E A} a.
Arguments raise {E A} e.
Arguments bind {E A B} m k.
Arguments try_except {E A} m h.
Arguments lift {E A} r.
Arguments world {E} s.
Arguments calls {E} s.

Declare Scope py_scope.
Delimit Scope py_scope with py.
Notation "x <- m ;; k" := (bind m (fun x => k))
  (at level 100, m at next level, right associativity) : py_scope.

(** The number of [docker exec] invocations in a trace. *)
Definition docker_calls (cs : list Call) : nat :=
  List.length (filter (fun c => match c with DockerExec _ _ => true | _ => false end) cs).

Definition CONTAINER_NAME : string := "master-nextcloud-1".
Definition APP_PATH : string := "/var/www/html/apps-extra/openregister".

(** [['docker', 'exec', CONTAINER_NAME, 'bash', '-c', script]] *)
Definition docker_bash (script : string) : list string :=
  ["docker"; "exec"; CONTAINER_NAME; "bash"; "-c"; script].

(** The double quote character, for the scripts that contain one. *)
Definition dq : string := String (ascii_of_nat 34) EmptyString.

(** The fields the handlers read from a decoded request body: each is
    absent or present, [file] and [content] as strings (the annotations of
    the source), [issues] as any JSON value. *)
Record Fields : Type := {
  file : option string;
  issues : option Json;
  content : option string
}.

(** A POST request: the path, the value of the [Content-Length] header
    (0 when there is none) and what [json.loads] makes of the body. *)
Record Request : Type := {
  path : string;
  content_length : Z;
  body : result Fields
}.

Record HttpResponse : Type := {
  status_code : Z;
  payload : Dict
}.

(** The answer to a GET on the command server, whose handler for an unknown
    path ends the headers and writes no body: [None] is the empty body. *)
Record GetResponse : Type := {
  get_status_code : Z;
  get_payload : option Dict
}.

(** ** [scripts/ai_code_fixing.py] *)

Module AiCodeFixing.
Section WithEnv.

Variable E : Env.
Local Open Scope py_scope.

Definition PostProcessor : Type := CompletedProcess -> M E Dict.

Definition process_phpcs_result : PostProcessor := fun result =>
  try_except
    (json_result <- run E
        ["docker"; "exec"; "master-nextcloud-1"; "bash"; "-c";
         "cd /var/www/html/apps-extra/openregister && "
         ++ "./vendor/bin/phpcs --report=json --standard=PSR12 lib/ 2>&1"] 60 ;;
     phpcs_data <- lift (json_loads E (stdout json_result)) ;;
     walked <- lift (phpcs_issues E phpcs_data) ;;
     let '(issues_by_file, total_errors, total_warnings) := walked in
     ret [("phpcs_issues", JList issues_by_file);
          ("totals", JDict [("files_with_issues", JInt (Z.of_nat (List.length issues_by_file)));
                            ("total_errors", total_errors);
                            ("total_warnings", total_warnings)]);
          ("ready_for_ai_fixing", JBool (0 <? Z.of_nat (List.length issues_by_file))%Z)])
    (fun e =>
       ret [("phpcs_issues", JList []);
            ("error", JStr ("Failed to parse PHPCS output: " ++ exn_str e))]).

(** One entry of [AI_COMMANDS]. *)
Record AiCommand : Type := {
  ai_name : string;
  ai_command : option string;
  ai_timeout : Z;
  ai_description : string;
  ai_post_processor : option PostProcessor;
  ai_handler : option string
}.

Definition AI_COMMANDS : list (string * AiCommand) :=
  [("phpcs-detailed",
    {| ai_name := "phpcs-detailed";
       ai_command := Some "./vendor/bin/phpcs --report=json --standard=PSR12 lib/";
       ai_timeout := 60;
       ai_description := "Run PHPCS and get detailed issues per file for AI fixing";
       ai_post_processor := Some process_phpcs_result;
       ai_handler := None |});
   ("read-file",
    {| ai_name := "read-file";
       ai_command := None;
       ai_timeout := 10;
       ai_description := "Read a file from the container (use POST body: {"
                         ++ dq ++ "file" ++ dq ++ ": " ++ dq ++ "path/to/file.php" ++ dq ++ "})";
       ai_post_processor := None;
       ai_handler := Some "read_file_handler" |});
   ("write-file",
    {| ai_name := "write-file";
       ai_command := None;
       ai_timeout := 10;
       ai_description := "Write content to a file (use POST body: {"
                         ++ dq ++ "file" ++ dq ++ ": " ++ dq ++ "path" ++ dq ++ ", "
                         ++ dq ++ "content" ++ dq ++ ": " ++ dq ++ "..." ++ dq ++ "})";
       ai_post_processor := None;
       ai_handler := Some "write_file_handler" |});
   ("backup-file",
    {| ai_name := "backup-file";
       ai_command := None;
       ai_timeout := 10;
       ai_description := "Create a backup of a file before AI fixes";
       ai_post_processor := None;
       ai_handler := Some "backup_file_handler" |})].

(** ['..' in file_path or file_path.startswith('/')] *)
Definition path_is_unsafe (file_path : string) : bool :=
  PyStr.contains ".." file_path || PyStr.startswith file_path "/".

Definition read_file_handler (request_body : Fields) : M E Dict :=
  match file request_body with
  | None => ret [("error", JStr "Missing 'file' parameter in request body")]
  | Some file_path =>
      if path_is_unsafe file_path
      then ret [("error", JStr "Invalid file path")]
      else
        try_except
          (result <- run E
              ["docker"; "exec"; "master-nextcloud-1"; "bash"; "-c";
               "cat /var/www/html/apps-extra/openregister/" ++ file_path] 10 ;;
           if negb (returncode result =? 0)%Z
           then ret [("error", JStr "File not found or not readable");
                     ("stderr", JStr (stderr result))]
           else ret [("file", JStr file_path);
                     ("content", JStr (stdout result));
                     ("size", jlen (stdout result));
                     ("lines", JInt (Z.of_nat (List.length
                                  (PyStr.split PyStr.newline (stdout result)))))])
          (fun e => ret [("error", JStr (exn_str e))])
  end.

Definition write_file_handler (request_body : Fields) : M E Dict :=
  match file request_body, content request_body with
  | Some file_path, Some content =>
      if path_is_unsafe file_path
      then ret [("error", JStr "Invalid file path")]
      else
        try_except
          (result <- run E
              ["docker"; "exec"; "master-nextcloud-1"; "bash"; "-c";
               "cat > /var/www/html/apps-extra/openregister/" ++ file_path
               ++ " << 'EOF'" ++ PyStr.newline ++ content ++ PyStr.newline ++ "EOF"] 10 ;;
           if negb (returncode result =? 0)%Z
           then ret [("error", JStr "Failed to write file");
                     ("stderr", JStr (stderr result))]
           else ret [("file", JStr file_path);
                     ("bytes_written", jlen content);
                     ("lines_written", JInt (Z.of_nat (List.length
                                          (PyStr.split PyStr.newline content))));
                     ("status", JStr "success")])
          (fun e => ret [("error", JStr (exn_str e))])
  | _, _ => ret [("error", JStr "Missing 'file' or 'content' parameter")]
  end.

Definition backup_file_handler (request_body : Fields) : M E Dict :=
  match file request_body with
  | None => ret [("error", JStr "Missing 'file' parameter")]
  | Some file_path =>
      if path_is_unsafe file_path
      then ret [("error", JStr "Invalid file path")]
      else
        try_except
          (timestamp <- now_stamp E ;;
           let backup_path := file_path ++ ".backup_" ++ timestamp in
           result <- run E
              ["docker"; "exec"; "master-nextcloud-1"; "bash"; "-c";
               "cp /var/www/html/apps-extra/openregister/" ++ file_path ++ " "
               ++ "/var/www/html/apps-extra/openregister/" ++ backup_path] 10 ;;
           if negb (returncode result =? 0)%Z
           then ret [("error", JStr "Failed to create backup");
                     ("stderr", JStr (stderr result))]
           else ret [("original_file", JStr file_path);
                     ("backup_file", JStr backup_path);
                     ("timestamp", JStr timestamp);
                     ("status", JStr "success")])
          (fun e => ret [("error", JStr (exn_str e))])
  end.

End WithEnv.
End AiCodeFixing.

(** ** [scripts/container-api.py] *)

Module ContainerAPI.
Section WithEnv.

Variable E : Env.
Local Open Scope py_scope.

Definition PostProcessor : Type := CompletedProcess -> M E Dict.

Record CommandConfig : Type := {
  name : string;
  command : string;
  timeout : Z;
  description : string;
  post_processor : option PostProcessor
}.

Definition process_phpqa_result : PostProcessor := fun result =>
  try_except
    (json_result <- run E
        (docker_bash ("cat " ++ APP_PATH ++ "/phpqa/phpqa.json 2>/dev/null || echo "
                      ++ dq ++ "{}" ++ dq)) 10 ;;
     phpqa_json <- lift (json_loads E (stdout json_result)) ;;
     ret [("phpqa_report", phpqa_json);
          ("report_files", JDict [("json", JStr "phpqa/phpqa.json");
                                  ("html", JStr "phpqa/phpqa-offline.html");
                                  ("metrics", JStr "phpqa/phpmetrics/")])])
    (fun e =>
       ret [("phpqa_report",
             JDict [("error", JStr ("Failed to parse phpqa.json: " ++ exn_str e))])]).

(** [r'(\d+)\s+file'] *)
Definition files_pattern : Re.pattern :=
  ([Re.Plus PyStr.isdigit true; Re.Plus PyStr.isspace false] ++ Re.lits "file")%list.

(** The body of the loop of [process_cs_fix_result]; [int] may raise. *)
Definition cs_fix_step (files_fixed : Z) (line : string) : result Z :=
  if PyStr.contains "Fixed" line || PyStr.contains "fixed" line
  then match Re.search files_pattern line with
       | Some (g :: _) => py_int g
       | _ => Return files_fixed
       end
  else Return files_fixed.

(** [for line in output_lines: ...], left at the first exception. *)
Fixpoint cs_fix_loop (files_fixed : Z) (output_lines : list string) : result Z :=
  match output_lines with
  | [] => Return files_fixed
  | line :: rest =>
      match cs_fix_step files_fixed line with
      | Return v => cs_fix_loop v rest
      | Raise e => Raise e
      end
  end.

Definition cs_fix_count (output : string) : result Z :=
  cs_fix_loop 0%Z (PyStr.split PyStr.newline output).

Definition process_cs_fix_result : PostProcessor := fun result =>
  files_fixed <- lift (cs_fix_count (stdout result)) ;;
  ret [("files_fixed", JInt files_fixed);
       ("message", JStr (if (0 <? files_fixed)%Z
                         then "Fixed " ++ PyStr.str_of_int files_fixed ++ " file(s)"
                         else "No files needed fixing"))].

(** [r'Tests:\s+(\d+)'], [r'Assertions:\s+(\d+)'], [r'Failures:\s+(\d+)'] *)
Definition metric_pattern (label : string) : Re.pattern :=
  (Re.lits label ++ [Re.Plus PyStr.isspace false; Re.Plus PyStr.isdigit true])%list.

Definition test_metric (label output : string) : result Z :=
  int_group1_or_0 (Re.search (metric_pattern label) output).

Definition process_test_result : PostProcessor := fun result =>
  let output := stdout result in
  tests_run <- lift (test_metric "Tests:" output) ;;
  assertions <- lift (test_metric "Assertions:" output) ;;
  failures <- lift (test_metric "Failures:" output) ;;
  ret [("tests_run", JInt tests_run);
       ("assertions", JInt assertions);
       ("failures", JInt failures);
       ("success", JBool (returncode result =? 0)%Z)].

Definition base_commands : list (string * CommandConfig) :=
  [("phpqa", {| name := "phpqa"; command := "composer phpqa"; timeout := 300;
       description := "Run full PHPQA analysis suite (PHPCS, PHPMD, PHPStan, Psalm, PHPMetrics)";
       post_processor := Some process_phpqa_result |});
   ("cs-fix", {| name := "cs-fix"; command := "composer cs:fix"; timeout := 120;
       description := "Auto-fix code style issues with PHP CS Fixer";
       post_processor := Some process_cs_fix_result |});
   ("cs-check", {| name := "cs-check"; command := "composer cs:check"; timeout := 60;
       description := "Check code style without fixing (dry-run)";
       post_processor := None |});
   ("phpstan", {| name := "phpstan"; command := "composer phpstan"; timeout := 120;
       description := "Run PHPStan static analysis";
       post_processor := None |});
   ("psalm", {| name := "psalm"; command := "composer psalm"; timeout := 120;
       description := "Run Psalm static analysis";
       post_processor := None |});
   ("test-unit", {| name := "test-unit"; command := "composer test:unit"; timeout := 180;
       description := "Run PHPUnit unit tests";
       post_processor := Some process_test_result |});
   ("test-integration", {| name := "test-integration"; command := "composer test:integration";
       timeout := 300;
       description := "Run integration tests";
       post_processor := Some process_test_result |});
   ("composer-install", {| name := "composer-install"; command := "composer install";
       timeout := 180;
       description := "Install composer dependencies";
       post_processor := None |});
   ("composer-update", {| name := "composer-update"; command := "composer update";
       timeout := 300;
       description := "Update composer dependencies";
       post_processor := None |});
   ("npm-install", {| name := "npm-install"; command := "npm install"; timeout := 180;
       description := "Install npm dependencies";
       post_processor := None |});
   ("build-js", {| name := "build-js"; command := "npm run build"; timeout := 120;
       description := "Build JavaScript/Vue assets";
       post_processor := None |});
   ("watch-js", {| name := "watch-js"; command := "npm run watch"; timeout := 3600;
       description := "Watch and rebuild JavaScript on changes";
       post_processor := None |})].

(** [COMMANDS[k] = v] on the registry. *)
Fixpoint registry_set (k : string) (v : CommandConfig)
    (cmds : list (string * CommandConfig)) : list (string * CommandConfig) :=
  match cmds with
  | [] => [(k, v)]
  | (k', v') :: rest =>
      if String.eqb k' k then (k', v) :: rest else (k', v') :: registry_set k v rest
  end.

(** The merge loop: the entries of [AI_COMMANDS] without a ['handler']. *)
Definition merge_ai_command (cmds : list (string * CommandConfig))
    (entry : string * AiCodeFixing.AiCommand E) : list (string * CommandConfig) :=
  let (cmd_name, cmd_data) := entry in
  match AiCodeFixing.ai_handler E cmd_data, AiCodeFixing.ai_command E cmd_data with
  | None, Some cmd =>
      registry_set cmd_name
        {| name := AiCodeFixing.ai_name E cmd_data;
           command := cmd;
           timeout := AiCodeFixing.ai_timeout E cmd_data;
           description := AiCodeFixing.ai_description E cmd_data;
           post_processor := AiCodeFixing.ai_post_processor E cmd_data |} cmds
  | _, _ => cmds
  end.

Definition COMMANDS : list (string * CommandConfig) :=
  fold_left merge_ai_command (AiCodeFixing.AI_COMMANDS E) base_commands.

(** [COMMANDS[command_name]], [None] when [command_name not in COMMANDS]. *)
Fixpoint lookup (k : string) (cmds : list (string * CommandConfig)) : option CommandConfig :=
  match cmds with
  | [] => None
  | (k', v) :: rest => if String.eqb k' k then Some v else lookup k rest
  end.

Definition file_operations : list string := ["read-file"; "write-file"; "backup-file"].

Definition is_file_operation (command_name : string) : bool :=
  existsb (String.eqb command_name) file_operations.

(** The base response of [_execute_command]. *)
Definition base_response (cmd_config : CommandConfig) (timestamp : string)
    (result : CompletedProcess) : Dict :=
  [("timestamp", JStr timestamp);
   ("command", JStr (name cmd_config));
   ("full_command", JStr (command cmd_config));
   ("status", JStr (if (returncode result =? 0)%Z then "success" else "completed_with_errors"));
   ("exit_code", JInt (returncode result));
   ("output", JStr (stdout result));
   ("container", JStr CONTAINER_NAME)].

Definition _execute_command (cmd_config : CommandConfig) : M E HttpResponse :=
  try_except
    (result <- run E
        (docker_bash ("cd " ++ APP_PATH ++ " && " ++ command cmd_config ++ " 2>&1"))
        (timeout cmd_config) ;;
     timestamp <- utcnow_z E ;;
     let response_data := base_response cmd_config timestamp result in
     response_data <-
       match post_processor cmd_config with
       | Some pp =>
           try_except
             (extra_data <- pp result ;;
              ret (PyDict.update response_data extra_data))
             (fun e => ret (PyDict.set "post_processor_error" (JStr (exn_str e))
                                       response_data))
       | None => ret response_data
       end ;;
     ret {| status_code := 200; payload := response_data |})
    (fun e =>
       match exn_is e with
       | TimeoutExpired =>
           ret {| status_code := 408;
                  payload := [("error", JStr ("Request timeout after "
                                              ++ PyStr.str_of_int (timeout cmd_config)
                                              ++ " seconds"));
                              ("command", JStr (name cmd_config))] |}
       | _ =>
           ret {| status_code := 500;
                  payload := [("error", JStr (exn_str e));
                              ("command", JStr (name cmd_config))] |}
       end).

Definition _handle_file_operation (operation : string) (req : Request) : M E HttpResponse :=
  try_except
    (if (content_length req =? 0)%Z
     then ret {| status_code := 400; payload := [("error", JStr "Request body required")] |}
     else
       request_data <- lift (body req) ;;
       result <-
         (if String.eqb operation "read-file"
          then AiCodeFixing.read_file_handler E request_data
          else if String.eqb operation "write-file"
          then AiCodeFixing.write_file_handler E request_data
          else if String.eqb operation "backup-file"
          then AiCodeFixing.backup_file_handler E request_data
          else ret [("error", JStr "Unknown operation")]) ;;
       timestamp <- utcnow_z E ;;
       let response_data :=
         PyDict.update [("timestamp", JStr timestamp);
                        ("operation", JStr operation);
                        ("container", JStr CONTAINER_NAME)] result in
       ret {| status_code := if negb (PyDict.mem "error" result) then 200 else 400;
              payload := response_data |})
    (fun e =>
       match exn_is e with
       | JSONDecodeError =>
           ret {| status_code := 400;
                  payload := [("error", JStr "Invalid JSON in request body")] |}
       | _ => ret {| status_code := 500; payload := [("error", JStr (exn_str e))] |}
       end).

Definition do_POST (req : Request) : M E HttpResponse :=
  let command_name := PyStr.lstrip_char "/" (path req) in
  if is_file_operation command_name
  then _handle_file_operation command_name req
  else
    match lookup command_name COMMANDS with
    | Some cmd_config => _execute_command cmd_config
    | None =>
        ret {| status_code := 404;
               payload :=
                 [("error", JStr ("Unknown command: " ++ command_name));
                  ("available_commands",
                   JList (map JStr (map fst COMMANDS ++ file_operations)%list))] |}
    end.

Definition do_GET (path : string) : GetResponse :=
  if String.eqb path "/"
  then
    let endpoints :=
      fold_left (fun endpoints entry =>
                   PyDict.set ("POST /" ++ fst entry) (JStr (description (snd entry)))
                              endpoints)
                COMMANDS [] in
    {| get_status_code := 200;
       get_payload :=
         Some [("service", JStr "OpenRegister Container API");
               ("version", JStr "2.0.0");
               ("status", JStr "running");
               ("container", JStr CONTAINER_NAME);
               ("app_path", JStr APP_PATH);
               ("endpoints", JDict endpoints);
               ("usage", JStr "POST /<command_name> to execute a command")] |}
  else {| get_status_code := 404; get_payload := None |}.

End WithEnv.
End ContainerAPI.

(** ** [base64.b64encode(content.encode('utf-8'))] *)

Module Base64.

(** [s.encode('utf-8')] for a string of this development, whose characters
    are code points below 256: one byte for a code point below 128, two
    bytes from 128 up.  The larger code points, which take three or four
    bytes, and the lone surrogates, on which [encode] raises, are outside the
    model. *)
Fixpoint utf8 (s : string) : list nat :=
  match s with
  | EmptyString => []
  | String c s' =>
      let n := nat_of_ascii c in
      if (n <? 128)%nat then n :: utf8 s'
      else (192 + n / 64)%nat :: (128 + n mod 64)%nat :: utf8 s'
  end.

Definition alphabet : string :=
  "ABCDEFGHIJKLMNOPQRSTUVWXYZabcdefghijklmnopqrstuvwxyz0123456789+/".

Definition sextet (n : nat) : string :=
  match String.get n alphabet with
  | Some c => String c EmptyString
  | None => EmptyString
  end.

Fixpoint b64encode (bs : list nat) : string :=
  match bs with
  | [] => EmptyString
  | [a] => sextet (a / 4) ++ sextet (a mod 4 * 16) ++ "=="
  | [a; b] =>
      sextet (a / 4) ++ sextet (a mod 4 * 16 + b / 16) ++ sextet (b mod 16 * 4) ++ "="
  | a :: b :: c :: rest =>
      sextet (a / 4) ++ sextet (a mod 4 * 16 + b / 16)
      ++ sextet (b mod 16 * 4 + c / 64) ++ sextet (c mod 64) ++ b64encode rest
  end.

End Base64.

(** ** [scripts/container-api-ai.py] *)

Module ContainerAPIAI.
Section WithEnv.

Variable E : Env.
Local Open Scope py_scope.

Definition OLLAMA_URL : string := "http://localhost:11434".

Definition PostProcessor : Type := CompletedProcess -> M E Dict.

Definition process_phpcs_detailed : PostProcessor := fun result =>
  try_except
    (phpcs_data <- lift (json_loads E (stdout result)) ;;
     walked <- lift (phpcs_issues_detailed E phpcs_data) ;;
     let '(issues_by_file, total_errors, total_warnings) := walked in
     ret [("phpcs_issues", JList issues_by_file);
          ("totals", JDict [("files_with_issues", JInt (Z.of_nat (List.length issues_by_file)));
                            ("total_errors", total_errors);
                            ("total_warnings", total_warnings)])])
    (fun e => ret [("error", JStr ("Failed to parse PHPCS: " ++ exn_str e))]).

(** One entry of [COMMANDS]; [post_processor] is [None] when the entry has
    no such key. *)
Record CommandEntry : Type := {
  command : string;
  timeout : Z;
  description : string;
  post_processor : option PostProcessor
}.

Definition COMMANDS : list (string * CommandEntry) :=
  [("phpcs-detailed",
    {| command := "./vendor/bin/phpcs --report=json --standard=PSR12 lib/";
       timeout := 60;
       description := "Get detailed PHPCS issues for AI fixing";
       post_processor := Some process_phpcs_detailed |});
   ("phpqa",
    {| command := "composer phpqa"; timeout := 300;
       description := "Run full PHPQA suite";
       post_processor := None |});
   ("cs-fix",
    {| command := "composer cs:fix"; timeout := 120;
       description := "Auto-fix code style";
       post_processor := None |})].

Fixpoint lookup (k : string) (cmds : list (string * CommandEntry)) : option CommandEntry :=
  match cmds with
  | [] => None
  | (k', v) :: rest => if String.eqb k' k then Some v else lookup k rest
  end.

Definition _send_json (data : Dict) : HttpResponse :=
  {| status_code := 200; payload := data |}.

Definition _send_error (code : Z) (message : string) : HttpResponse :=
  {| status_code := code; payload := [("error", JStr message)] |}.

Definition _execute_command (cmd_name : string) : M E HttpResponse :=
  match lookup cmd_name COMMANDS with
  | None => raise (Exn OtherException ("'" ++ cmd_name ++ "'"))
  | Some cmd_config =>
      try_except
        (result <- run E
            (docker_bash ("cd " ++ APP_PATH ++ " && " ++ command cmd_config ++ " 2>&1"))
            (timeout cmd_config) ;;
         timestamp <- utcnow_z E ;;
         let response :=
           [("timestamp", JStr timestamp);
            ("command", JStr cmd_name);
            ("status", JStr (if (returncode result =? 0)%Z
                             then "success" else "completed_with_errors"));
            ("exit_code", JInt (returncode result));
            ("output", JStr (stdout result))] in
         response <-
           match post_processor cmd_config with
           | Some pp => extra <- pp result ;; ret (PyDict.update response extra)
           | None => ret response
           end ;;
         ret (_send_json response))
        (fun e =>
           match exn_is e with
           | TimeoutExpired => ret (_send_error 408 "Timeout")
           | _ => ret (_send_error 500 (exn_str e))
           end)
  end.

(** [not file_path or '..' in file_path] *)
Definition path_is_invalid (file_path : option string) : bool :=
  match file_path with
  | None => true
  | Some p => String.eqb p "" || PyStr.contains ".." p
  end.

Definition _read_file (file_path : option string) : M E Dict :=
  match file_path with
  | Some p =>
      if path_is_invalid file_path
      then ret [("error", JStr "Invalid file path")]
      else
        result <- run E (docker_bash ("cat " ++ APP_PATH ++ "/" ++ p)) 10 ;;
        if negb (returncode result =? 0)%Z
        then ret [("error", JStr "File not found")]
        else ret [("file", JStr p);
                  ("content", JStr (stdout result));
                  ("size", jlen (stdout result));
                  ("lines", JInt (Z.of_nat (List.length
                               (PyStr.split PyStr.newline (stdout result)))))]
  | None => ret [("error", JStr "Invalid file path")]
  end.

Definition _write_file (file_path content : option string) : M E Dict :=
  match file_path with
  | Some p =>
      if path_is_invalid file_path
      then ret [("error", JStr "Invalid file path")]
      else
        match content with
        | None => raise (Exn OtherException "'NoneType' object has no attribute 'encode'")
        | Some c =>
            let encoded := Base64.b64encode (Base64.utf8 c) in
            result <- run E
                (docker_bash ("echo " ++ dq ++ encoded ++ dq ++ " | base64 -d > "
                              ++ APP_PATH ++ "/" ++ p)) 10 ;;
            if negb (returncode result =? 0)%Z
            then ret [("error", JStr "Failed to write file")]
            else ret [("file", JStr p);
                      ("bytes_written", jlen c);
                      ("status", JStr "success")]
        end
  | None => ret [("error", JStr "Invalid file path")]
  end.

Definition _backup_file (file_path : option string) : M E Dict :=
  match file_path with
  | Some p =>
      if path_is_invalid file_path
      then ret [("error", JStr "Invalid file path")]
      else
        timestamp <- now_stamp E ;;
        let backup_path := p ++ ".backup_" ++ timestamp in
        result <- run E
            (docker_bash ("cp " ++ APP_PATH ++ "/" ++ p ++ " "
                          ++ APP_PATH ++ "/" ++ backup_path)) 10 ;;
        if negb (returncode result =? 0)%Z
        then ret [("error", JStr "Failed to create backup")]
        else ret [("original", JStr p);
                  ("backup", JStr backup_path);
                  ("timestamp", JStr timestamp)]
  | None => ret [("error", JStr "Invalid file path")]
  end.

Definition _handle_file_operation (operation : string) (req : Request) : M E HttpResponse :=
  try_except
    (body <- lift (body req) ;;
     result <-
       (if String.eqb operation "read-file"
        then _read_file (file body)
        else if String.eqb operation "write-file"
        then _write_file (file body) (content body)
        else if String.eqb operation "backup-file"
        then _backup_file (file body)
        else raise (Exn OtherException
                      "local variable 'result' referenced before assignment")) ;;
     ret (_send_json result))
    (fun e => ret (_send_error 500 (exn_str e))).

(** The extraction of the code block, lines 293-296 of the source. *)
Definition extract_fixed_code (fixed_code : string) : string :=
  if PyStr.contains "```php" fixed_code
  then PyStr.strip (hd "" (PyStr.split "```" (nth 1 (PyStr.split "```php" fixed_code) "")))
  else if PyStr.contains "```" fixed_code
  then PyStr.strip (hd "" (PyStr.split "```" (nth 1 (PyStr.split "```" fixed_code) "")))
  else fixed_code.

(** [all([file_path, issues, content])] *)
Definition all_present (body : Fields) : bool :=
  match file body, issues body, content body with
  | Some f, Some i, Some c => negb (String.eqb f "") && truthy i && negb (String.eqb c "")
  | _, _, _ => false
  end.

Definition build_prompt (issues : Json) (content : string) : string :=
  "Fix this PHP code according to PSR-12 standards." ++ PyStr.newline
  ++ PyStr.newline
  ++ "Issues found:" ++ PyStr.newline
  ++ json_dumps_indent2 E issues ++ PyStr.newline
  ++ PyStr.newline
  ++ "Current code:" ++ PyStr.newline
  ++ "```php" ++ PyStr.newline
  ++ content ++ PyStr.newline
  ++ "```" ++ PyStr.newline
  ++ PyStr.newline
  ++ "Provide ONLY the fixed PHP code, no explanations.".

(** [sub == v] for a string [sub] and a decoded JSON value [v]. *)
Definition is_str (sub : string) (v : Json) : bool :=
  match v with
  | JStr s => String.eqb sub s
  | _ => false
  end.

(** Lines 293-296 on the value of the field, whatever its type: a string
    goes through [extract_fixed_code]; on a list [in] looks for an element
    equal to the fence and on an object for such a key, neither has a
    [split], and without a fence either is kept as it is; on any other value
    [in] raises. *)
Definition extract_from_reply (fixed_code : Json) : result Json :=
  match fixed_code with
  | JStr s => Return (JStr (extract_fixed_code s))
  | JList l =>
      if existsb (is_str "```php") l || existsb (is_str "```") l
      then Raise (Exn OtherException "'list' object has no attribute 'split'")
      else Return (JList l)
  | JDict d =>
      if PyDict.mem "```php" d || PyDict.mem "```" d
      then Raise (Exn OtherException "'dict' object has no attribute 'split'")
      else Return (JDict d)
  | JNull => Raise (Exn OtherException "argument of type 'NoneType' is not iterable")
  | JBool _ => Raise (Exn OtherException "argument of type 'bool' is not iterable")
  | JInt _ => Raise (Exn OtherException "argument of type 'int' is not iterable")
  | JFloat _ => Raise (Exn OtherException "argument of type 'float' is not iterable")
  end.

(** [len(fixed_code)] for the values that get that far; a decoded object
    has no key twice. *)
Definition py_len (v : Json) : Z :=
  match v with
  | JStr s => Z.of_nat (String.length s)
  | JList l => Z.of_nat (List.length l)
  | JDict d => Z.of_nat (List.length d)
  | _ => 0%Z
  end.

(** [body.get(k)] gives [None] for a missing key; past the check of
    [all_present] the three values are there. *)
Definition _handle_ai_fix (req : Request) : M E HttpResponse :=
  try_except
    (body <- lift (body req) ;;
     if negb (all_present body)
     then ret (_send_error 400 "Missing required fields")
     else
       match file body, issues body, content body with
       | Some file_path, Some issues, Some content =>
           let prompt := build_prompt issues content in
           response <- post E (OLLAMA_URL ++ "/api/generate") prompt 60 ;;
           if negb (model_status_code response =? 200)%Z
           then ret (_send_error 500 "Ollama API error")
           else
             fixed_code <- lift (model_json_response response) ;;
             fixed_code <- lift (extract_from_reply fixed_code) ;;
             ret (_send_json [("file", JStr file_path);
                              ("original_size", jlen content);
                              ("fixed_size", JInt (py_len fixed_code));
                              ("fixed_code", fixed_code);
                              ("status", JStr "success")])
       | _, _, _ => ret (_send_error 400 "Missing required fields")
       end)
    (fun e => ret (_send_error 500 (exn_str e))).

Definition file_operations : list string := ["read-file"; "write-file"; "backup-file"].

Definition do_POST (req : Request) : M E HttpResponse :=
  let path := PyStr.lstrip_char "/" (path req) in
  if existsb (String.eqb path) file_operations
  then _handle_file_operation path req
  else if String.eqb path "ai-fix-code"
  then _handle_ai_fix req
  else
    match lookup path COMMANDS with
    | Some _ => _execute_command path
    | None => ret (_send_error 404 ("Unknown endpoint: " ++ path))
    end.

Definition do_GET (path : string) : HttpResponse :=
  if String.eqb path "/"
  then
    let endpoints :=
      fold_left (fun endpoints kv =>
                   PyDict.set ("POST /" ++ fst kv) (JStr (description (snd kv))) endpoints)
                COMMANDS [] in
    let endpoints :=
      PyDict.update endpoints
        [("POST /read-file", JStr "Read a file (body: {file: 'path'})");
         ("POST /write-file", JStr "Write a file (body: {file: 'path', content: '...'})");
         ("POST /backup-file", JStr "Backup a file (body: {file: 'path'})");
         ("POST /ai-fix-code", JStr "Fix code with AI (body: {file, issues, content})")] in
    _send_json [("service", JStr "OpenRegister AI Code Fixing API");
                ("version", JStr "3.0.0");
                ("status", JStr "running");
                ("ollama_url", JStr OLLAMA_URL);
                ("endpoints", JDict endpoints)]
  else _send_error 404 "Not found".

End WithEnv.
End ContainerAPIAI.

(** ** Test doubles for the target

    Two concrete environments for the runs at named inputs below: one that
    answers every [docker exec] from a table, and one that keeps a file
    store and understands the scripts of the file handlers. *)

Module Double.

Fixpoint answer {A : Type} (k : string) (table : list (string * A)) : option A :=
  match table with
  | [] => None
  | (k', v) :: rest => if String.eqb k' k then Some v else answer k rest
  end.

(** The script handed to [bash -c]. *)
Definition script_of (args : list string) : string := last args "".

(** The walk over a decoded PHPCS report, for the reports without a
    ['files'] entry: [phpcs_data.get('files', {})] is then empty and the loop
    body never runs; a value that is not a dictionary has no [get]. *)
Definition walk_no_files (phpcs_data : Json) : result (list Json * Json * Json) :=
  match phpcs_data with
  | JDict d =>
      if PyDict.mem "files" d
      then Raise (Exn OtherException "report with files: outside this double")
      else Return ([], JInt 0, JInt 0)
  | _ => Raise (Exn OtherException "object has no attribute 'get'")
  end.

(** [json.dumps(j, indent=2)] for the values made of [null], booleans,
    integers, lists, objects and strings of plain characters (a float and a
    string that needs an escape are outside this double).  [pad] is the
    indentation of the enclosing level. *)
Fixpoint dumps (pad : string) (j : Json) {struct j} : string :=
  let inner := pad ++ "  " in
  match j with
  | JNull => "null"
  | JBool b => if b then "true" else "false"
  | JInt n => PyStr.str_of_int n
  | JFloat _ => "NaN"
  | JStr s => dq ++ s ++ dq
  | JList [] => "[]"
  | JList (x :: xs) =>
      "[" ++ PyStr.newline ++ inner ++ dumps inner x
      ++ (fix items (l : list Json) : string :=
            match l with
            | [] => ""
            | y :: ys => "," ++ PyStr.newline ++ inner ++ dumps inner y ++ items ys
            end) xs
      ++ PyStr.newline ++ pad ++ "]"
  | JDict [] => "{}"
  | JDict ((k, v) :: kvs) =>
      "{" ++ PyStr.newline ++ inner ++ dq ++ k ++ dq ++ ": " ++ dumps inner v
      ++ (fix items (l : list (string * Json)) : string :=
            match l with
            | [] => ""
            | (k', v') :: r =>
                "," ++ PyStr.newline ++ inner ++ dq ++ k' ++ dq ++ ": " ++ dumps inner v'
                ++ items r
            end) kvs
      ++ PyStr.newline ++ pad ++ "}"
  end.

Definition dumps_indent2 (j : Json) : string := dumps "" j.

(** [runs] maps scripts to the outcome of running them (exit status 127
    for a script that is not listed), [docs] maps texts to their JSON
    decoding (any other text is rejected), [model] is the reply of the model
    service and [dumps] stands for [json.dumps(_, indent=2)]. *)
Definition scripted (runs : list (string * result CompletedProcess))
    (docs : list (string * Json)) (model : result ModelResponse)
    (dumps : Json -> string) : Env :=
  {| World := unit;
     subprocess_run := fun args _ w =>
       (match answer (script_of args) runs with
        | Some r => r
        | None => Return (Completed 127 "" "")
        end, w);
     requests_post := fun _ _ _ w => (model, w);
     utcnow_isoformat := fun _ => "2025-01-01T00:00:00";
     now_strftime := fun _ => "20250101_000000";
     json_loads := fun s =>
       match answer s docs with
       | Some j => Return j
       | None => Raise (Exn JSONDecodeError "Expecting value: line 1 column 1 (char 0)")
       end;
     json_dumps_indent2 := dumps;
     phpcs_issues := walk_no_files;
     phpcs_issues_detailed := walk_no_files |}.

(** A container that knows one script. *)
Definition one_run (script : string) (r : CompletedProcess) : Env :=
  scripted [(script, Return r)] [] (Raise (Exn OtherException "no model"))
    dumps_indent2.

(** The state of a request that has made the calls [cs]; a fresh request
    has made none. *)
Definition after (E : Env) (w : World E) (cs : list Call) : St E :=
  {| world := w; calls := cs |}.

Definition start (E : Env) (w : World E) : St E := after E w [].

(** *** A container with a file store

    [subprocess.run(['docker', 'exec', _, 'bash', '-c', script], text=True)]
    for the script shapes of the write and read handlers:
    [cat > path << 'EOF'], [echo "..." | base64 -d > path] and [cat path].
    A here-document [<< 'EOF'] takes the following lines up to the first line
    that is exactly [EOF] (or the end of the script) and feeds them, each with
    its newline, to the command; the lines after the delimiter are further
    commands, and the exit status of the script is that of its last command.
    A here-document that the script ends before its delimiter gets a
    warning.  Messages of bash carry the number of the line of the command.
    The store holds files only, each known by the path it was written with
    ([./] and [//] are not resolved): every directory of a path is there, no
    file stands where a path needs a directory, every name is within the
    limits of the file system (255 bytes), and the paths that name a
    directory are those whose last segment is empty, [.] or [..].  As in Python, an argument with a NUL
    character is refused before anything runs, so is an argument of 128 KiB
    or more; the bytes on both sides are UTF-8, and the text the child prints
    comes back with [\r\n] and [\r] turned into [\n]. *)

Record Shell : Type := {
  fs : list (string * string);
  out : string;
  err : string;
  status : Z
}.

Inductive Mode : Type :=
| Command
| HereDoc (line : nat) (target : string) (acc : string).

Definition names_directory (p : string) : bool :=
  let name := last (PyStr.split "/" p) "" in
  String.eqb name "" || String.eqb name "." || String.eqb name "..".

(** A message of bash about the command of line [line], and its status. *)
Definition complain (line : nat) (what : string) (code : Z) (sh : Shell) : Shell :=
  {| fs := fs sh; out := out sh;
     err := err sh ++ "bash: line " ++ PyStr.str_of_int (Z.of_nat line) ++ ": " ++ what
            ++ PyStr.newline;
     status := code |}.

(** The redirection [> p] of the command of line [line], which prints [c]. *)
Definition write (line : nat) (p c : string) (sh : Shell) : Shell :=
  if names_directory p then complain line (p ++ ": Is a directory") 1 sh
  else {| fs := (p, c) :: fs sh; out := out sh; err := err sh; status := 0 |}.

(** [base64 -d] by the values RFC 4648 gives the characters, on the
    well-formed texts that [_write_file] sends, and the decoding of UTF-8 for
    code points below 256. *)
Definition sextet_of (c : ascii) : nat :=
  let n := nat_of_ascii c in
  if ((65 <=? n) && (n <=? 90))%nat then n - 65
  else if ((97 <=? n) && (n <=? 122))%nat then n - 71
  else if ((48 <=? n) && (n <=? 57))%nat then n + 4
  else if (n =? 43)%nat then 62
  else if (n =? 47)%nat then 63
  else 0.

Fixpoint b64decode (s : string) : list nat :=
  match s with
  | String c1 (String c2 (String c3 (String c4 rest))) =>
      let n1 := sextet_of c1 in
      let n2 := sextet_of c2 in
      let n3 := sextet_of c3 in
      let n4 := sextet_of c4 in
      if Ascii.eqb c3 "="
      then [n1 * 4 + n2 / 16]
      else if Ascii.eqb c4 "="
      then [n1 * 4 + n2 / 16; n2 mod 16 * 16 + n3 / 4]
      else (n1 * 4 + n2 / 16) :: (n2 mod 16 * 16 + n3 / 4) :: (n3 mod 4 * 64 + n4)
           :: b64decode rest
  | _ => []
  end.

Fixpoint utf8_decode (bs : list nat) : string :=
  match bs with
  | [] => EmptyString
  | b :: rest =>
      if (b <? 128)%nat then String (ascii_of_nat b) (utf8_decode rest)
      else match rest with
           | b' :: rest' =>
               String (ascii_of_nat ((b - 192) * 64 + (b' - 128))) (utf8_decode rest')
           | [] => EmptyString
           end
  end.

(** The first word of a command line. *)
Definition command_word (line : string) : string :=
  match PyStr.partition " " line with
  | Some (w, _) => w
  | None => line
  end.

Definition step_command (n : nat) (line : string) (sh : Shell) : Shell * Mode :=
  if String.eqb line "" then (sh, Command)
  else if PyStr.startswith line ("echo " ++ dq)
  then match PyStr.partition (dq ++ " | base64 -d > ") (PyStr.drop 6 line) with
       | Some (encoded, target) =>
           (write n target (utf8_decode (b64decode encoded)) sh, Command)
       | None => ({| fs := fs sh; out := out sh ++ PyStr.drop 5 line ++ PyStr.newline;
                     err := err sh; status := 0 |}, Command)
       end
  else if PyStr.startswith line "cat > "
  then match PyStr.partition " << 'EOF'" (PyStr.drop 6 line) with
       | Some (target, EmptyString) => (sh, HereDoc n target "")
       | _ => (complain n "redirection outside this double" 2 sh, Command)
       end
  else if PyStr.startswith line "cat "
  then match answer (PyStr.drop 4 line) (fs sh) with
       | Some c => ({| fs := fs sh; out := out sh ++ c; err := err sh; status := 0 |},
                    Command)
       | None => ({| fs := fs sh; out := out sh;
                     err := err sh ++ "cat: " ++ PyStr.drop 4 line
                            ++ (if names_directory (PyStr.drop 4 line)
                                then ": Is a directory"
                                else ": No such file or directory") ++ PyStr.newline;
                     status := 1 |}, Command)
       end
  else (complain n (command_word line ++ ": command not found") 127 sh, Command).

(** The warning about a here-document of line [at_line] that the end of the
    script, at line [line], delimits. *)
Definition warn_unfinished (line at_line : nat) (sh : Shell) : Shell :=
  {| fs := fs sh; out := out sh;
     err := err sh ++ "bash: line " ++ PyStr.str_of_int (Z.of_nat line)
            ++ ": warning: here-document at line " ++ PyStr.str_of_int (Z.of_nat at_line)
            ++ " delimited by end-of-file (wanted `EOF')" ++ PyStr.newline;
     status := status sh |}.

(** The lines of the script from line [n] on. *)
Fixpoint exec (n : nat) (lines : list string) (mode : Mode) (sh : Shell) : Shell :=
  match lines with
  | [] => match mode with
          | Command => sh
          | HereDoc at_line target acc =>
              write at_line target acc (warn_unfinished (n - 1) at_line sh)
          end
  | line :: rest =>
      match mode with
      | Command => let (sh', mode') := step_command n line sh in exec (S n) rest mode' sh'
      | HereDoc at_line target acc =>
          if String.eqb line "EOF"
          then exec (S n) rest Command (write at_line target acc sh)
          else exec (S n) rest (HereDoc at_line target (acc ++ line ++ PyStr.newline)) sh
      end
  end.

(** [\r\n] and [\r] become [\n] in what [text=True] reads. *)
Fixpoint universal_newlines (s : string) : string :=
  match s with
  | EmptyString => EmptyString
  | String c s' =>
      if Ascii.eqb c (ascii_of_nat 13)
      then match s' with
           | String c' s'' =>
               if Ascii.eqb c' (ascii_of_nat 10)
               then String (ascii_of_nat 10) (universal_newlines s'')
               else String (ascii_of_nat 10) (universal_newlines s')
           | EmptyString => String (ascii_of_nat 10) EmptyString
           end
      else String c (universal_newlines s')
  end.

(** The lines of a script: a newline at its end starts no further line. *)
Definition script_lines (script : string) : list string :=
  let lines := PyStr.split PyStr.newline script in
  if String.eqb (last lines "") "" then removelast lines else lines.

Definition bash_c (script : string) (files : list (string * string))
  : result CompletedProcess * list (string * string) :=
  let sh := exec 1 (script_lines script) Command
                 {| fs := files; out := ""; err := ""; status := 0 |} in
  (Return (Completed (status sh) (universal_newlines (out sh))
                     (universal_newlines (err sh))), fs sh).

(** What [subprocess.run] refuses before it starts the child. *)
Definition has_nul (arg : string) : bool :=
  PyStr.contains (String (ascii_of_nat 0) EmptyString) arg.

Definition too_long (arg : string) : bool :=
  (131072 <=? Z.of_nat (List.length (Base64.utf8 arg)))%Z.

Definition container : Env :=
  {| World := list (string * string);
     subprocess_run := fun args _ files =>
       if existsb has_nul args
       then (Raise (Exn OtherException "embedded null byte"), files)
       else if existsb too_long args
       then (Raise (Exn OtherException "[Errno 7] Argument list too long: 'docker'"), files)
       else match args with
            | ["docker"; "exec"; _; "bash"; "-c"; script] => bash_c script files
            | _ => (Raise (Exn OtherException "unsupported invocation"), files)
            end;
     requests_post := fun _ _ _ w =>
       (Raise (Exn OtherException "connection refused"), w);
     utcnow_isoformat := fun _ => "2025-01-01T00:00:00";
     now_strftime := fun _ => "20250101_000000";
     json_loads := fun _ =>
       Raise (Exn JSONDecodeError "Expecting value: line 1 column 1 (char 0)");
     json_dumps_indent2 := dumps_indent2;
     phpcs_issues := walk_no_files;
     phpcs_issues_detailed := walk_no_files |}.

End Double.

(** * Statements

    The notions the properties are stated with, then the named inputs of
    the runs. *)

Import PyStr.

(** ** Notions *)

(** [first_cut sep s a b]: [a] is the text of [s] before the leftmost
    occurrence of [sep] and [b] the text after it. *)
Definition first_cut (sep s a b : string) : Prop :=
  s = a ++ sep ++ b /\
  forall a' b', s = a' ++ sep ++ b' -> String.length a <= String.length a'.

(** No occurrence of [sep] in [s] starts before offset [n]. *)
Definition no_occurrence_before (sep s : string) (n : nat) : Prop :=
  forall a b, s = a ++ sep ++ b -> n <= String.length a.

(** [sep] does not occur in [s]. *)
Definition absent (sep s : string) : Prop := forall a b, s <> a ++ sep ++ b.

(** [a] is the text of [s] before the leftmost occurrence of [sep], and all
    of [s] when [sep] does not occur in it. *)
Definition text_before (sep s a : string) : Prop :=
  (exists b, first_cut sep s a b) \/ (absent sep s /\ a = s).

(** The code a reply [r] of the model stands for.  With a [```php] in [r]:
    the text after the leftmost one, up to the next [```php] and cut before
    its first [```], stripped.  Without [```php] but with a [```]: the text
    after the leftmost one up to the next [```], stripped.  Without any
    [```]: the reply itself. *)
Definition fixed_code_of (r x : string) : Prop :=
  (exists pre rest piece inner,
     first_cut "```php" r pre rest /\ text_before "```php" rest piece
     /\ text_before "```" piece inner /\ x = strip inner)
  \/ (absent "```php" r
      /\ exists pre rest inner,
           first_cut "```" r pre rest /\ text_before "```" rest inner /\ x = strip inner)
  \/ (absent "```" r /\ x = r).

(** The answer to an AI fix request for [file] with the content [content],
    when the fixed code is the text [x]. *)
Definition fix_answer (file content x : string) : HttpResponse :=
  {| status_code := 200;
     payload := [("file", JStr file);
                 ("original_size", JInt (Z.of_nat (String.length content)));
                 ("fixed_size", JInt (Z.of_nat (String.length x)));
                 ("fixed_code", JStr x);
                 ("status", JStr "success")] |}.

(** The text of a file made of the lines [ls], each ended by a newline. *)
Definition unlines (ls : list string) : string :=
  fold_right (fun l acc => l ++ newline ++ acc) "" ls.

(** The number of non-empty segments of [content.split('\n')]. *)
Definition nonempty_lines (content : string) : nat :=
  List.length (filter (fun l => negb (String.eqb l "")) (split newline content)).

(** What a successful read reports about the content it returns: the
    content, its length as [size], and [lines] many lines. *)
Definition reports_content (d : Dict) (content : string) (lines : nat) : Prop :=
  PyDict.get "content" d = Some (JStr content) /\
  PyDict.get "size" d = Some (JInt (Z.of_nat (String.length content))) /\
  PyDict.get "lines" d = Some (JInt (Z.of_nat lines)).

(** The status code of an answer. *)
Definition code_of (r : result HttpResponse) : option Z :=
  match r with
  | Return response => Some (status_code response)
  | Raise _ => None
  end.

(** The invocation [read_file_handler] makes for the path [p]. *)
Definition read_file_script (p : string) : list string :=
  ["docker"; "exec"; "master-nextcloud-1"; "bash"; "-c";
   "cat /var/www/html/apps-extra/openregister/" ++ p].

(** The invocation [_execute_command] makes for the command line [cmd]. *)
Definition command_script (cmd : string) : list string :=
  docker_bash ("cd " ++ APP_PATH ++ " && " ++ cmd ++ " 2>&1").

(** A 200 answer whose [status] follows the exit status [rc] alone and that
    carries [rc] and the output [out]. *)
Definition answers_with_status (r : result HttpResponse) (rc : Z) (out : string) : Prop :=
  exists body,
    r = Return {| status_code := 200; payload := body |} /\
    PyDict.get "status" body
      = Some (JStr (if (rc =? 0)%Z then "success" else "completed_with_errors")) /\
    PyDict.get "exit_code" body = Some (JInt rc) /\
    PyDict.get "output" body = Some (JStr out).

(** A post-processor keeps clear of the base fields when no result of it
    has a [status], [exit_code] or [output] key. *)
Definition keeps_base_fields (E : Env) (pp : CompletedProcess -> M E Dict) : Prop :=
  forall result st d st',
    pp result st = (Return d, st') ->
    PyDict.mem "status" d = false /\ PyDict.mem "exit_code" d = false
    /\ PyDict.mem "output" d = false.

(** A post-processor that never lets an exception out. *)
Definition never_raises (E : Env) (pp : CompletedProcess -> M E Dict) : Prop :=
  forall result st, exists d st', pp result st = (Return d, st').

(** Every character of [s] is in the class. *)
Fixpoint every (cls : ascii -> bool) (s : string) : bool :=
  match s with
  | EmptyString => true
  | String c s' => cls c && every cls s'
  end.

(** [s] starts with a character of the class. *)
Definition starts_in (cls : ascii -> bool) (s : string) : bool :=
  match s with
  | EmptyString => false
  | String c _ => cls c
  end.

(** A non-empty string of characters of the class. *)
Definition run_of (cls : ascii -> bool) (s : string) : Prop :=
  s <> "" /\ every cls s = true.

(** [s] starts with the label, some whitespace and some digits: a match of
    [label\s+(\d+)] at the head of [s]. *)
Definition has_metric (label s : string) : Prop :=
  exists ws ds rest,
    s = label ++ ws ++ ds ++ rest /\ run_of isspace ws /\ run_of isdigit ds.

(** [s] starts with some digits, some whitespace and [file]: a match of
    [(\d+)\s+file] at the head of [s]. *)
Definition has_file_count (s : string) : Prop :=
  exists ds ws rest,
    s = ds ++ ws ++ "file" ++ rest /\ run_of isdigit ds /\ run_of isspace ws.

(** ['Fixed' in line or 'fixed' in line] *)
Definition mentions_fixed (line : string) : bool :=
  contains "Fixed" line || contains "fixed" line.

(** A line that leaves the count of [process_cs_fix_result] as it is. *)
Definition silent (line : string) : Prop :=
  mentions_fixed line = false \/ forall k, ~ has_file_count (drop k line).

(** ** Named inputs *)

(** A POST to a command route: it has no body, and [json.loads] of the
    empty text would raise. *)
Definition post_command (name : string) : Request :=
  {| path := "/" ++ name; content_length := 0;
     body := Raise (Exn JSONDecodeError "Expecting value: line 1 column 1 (char 0)") |}.

(** A body with the [file] field only, and the read request that sends it. *)
Definition file_only (p : option string) : Fields :=
  {| file := p; issues := None; content := None |}.

Definition read_request (p : option string) : Request :=
  {| path := "/read-file"; content_length := 22; body := Return (file_only p) |}.

(** A file operation on [/etc/passwd]. *)
Definition passwd_request (operation : string) : Request :=
  {| path := "/" ++ operation; content_length := 40;
     body := Return {| file := Some "/etc/passwd"; issues := None; content := Some "x" |} |}.

Definition ai_fix_request (n : Z) (fields : Fields) : Request :=
  {| path := "/ai-fix-code"; content_length := n; body := Return fields |}.

(** A container whose [cat] of [notes.txt] prints the given text, and two
    texts: two lines, and two lines with a blank line between them. *)
Definition cat_notes : string := "cat /var/www/html/apps-extra/openregister/notes.txt".

Definition notes_env (text : string) : Env :=
  Double.one_run cat_notes (Completed 0 text "").

Definition two_lines : string := "a" ++ newline ++ "b" ++ newline.

Definition blank_line_text : string := "a" ++ newline ++ newline ++ "b" ++ newline.

(** A container without [missing.txt], and the answer of the command
    server to a failed read: status 400 and the three leading fields. *)
Definition missing_txt_env : Env :=
  Double.one_run "cat /var/www/html/apps-extra/openregister/missing.txt"
    (Completed 1 "" "cat: missing.txt: No such file or directory").

Definition read_answer (rest : Dict) : result HttpResponse :=
  Return {| status_code := 400;
            payload := ([("timestamp", JStr "2025-01-01T00:00:00Z");
                         ("operation", JStr "read-file");
                         ("container", JStr CONTAINER_NAME)] ++ rest)%list |}.

(** A model service that answers every prompt with [<?php], and three
    bodies for the AI fix route. *)
Definition fix_env : Env :=
  Double.scripted [] []
    (Return {| model_status_code := 200; model_json_response := Return (JStr "<?php") |})
    Double.dumps_indent2.

Definition only_file : Fields := file_only (Some "a.php").

Definition all_fields : Fields :=
  {| file := Some "a.php"; issues := Some (JList [JInt 1]); content := Some "<?php" |}.

Definition empty_issues : Fields :=
  {| file := Some "a.php"; issues := Some (JList []); content := Some "<?php" |}.

(** Two replies of the model: one with a [```php] fence, one with a plain
    fence. *)
Definition php_reply : string :=
  "Here is the fix:" ++ newline ++ "```php" ++ newline ++ "<?php echo 1;" ++ newline
  ++ "```" ++ newline ++ "Done.".

Definition plain_reply : string :=
  "```" ++ newline ++ "<?php echo 2;" ++ newline ++ "```".

(** A reply whose fence is never closed, a reply without a fence that has
    spaces around the code, and a model service that answers every prompt
    with a given text. *)
Definition unclosed_reply : string := "```php" ++ newline ++ "<?php echo 4;".

Definition spaced_reply : string := " <?php echo 3; ".

Definition reply_env (r : string) : Env :=
  Double.scripted [] []
    (Return {| model_status_code := 200; model_json_response := Return (JStr r) |})
    Double.dumps_indent2.

(** Containers for the command routes: PHPStan finds three errors and ends
    with exit status 1; the style fixer fixes two files; PHPCS prints nothing
    and ends with exit status 0, so that its report cannot be decoded. *)
Definition phpstan_env : Env :=
  Double.one_run "cd /var/www/html/apps-extra/openregister && composer phpstan 2>&1"
    (Completed 1 "Found 3 errors" "").

Definition cs_fix_env : Env :=
  Double.one_run "cd /var/www/html/apps-extra/openregister && composer cs:fix 2>&1"
    (Completed 0 "Fixed 2 files" "").

Definition silent_phpcs_env : Env :=
  Double.one_run
    ("cd /var/www/html/apps-extra/openregister && "
     ++ "./vendor/bin/phpcs --report=json --standard=PSR12 lib/ 2>&1")
    (Completed 0 "" "").

(** A run of the unit tests that reports a count of 4301 digits, one more
    than [int] takes, and the registry entry of [test-unit]. *)
Fixpoint repeat_char (c : ascii) (n : nat) : string :=
  match n with
  | O => EmptyString
  | S k => String c (repeat_char c k)
  end.

Definition huge_count_output : string := "Tests: " ++ repeat_char "9" 4301.

Definition huge_count_env : Env :=
  Double.one_run "cd /var/www/html/apps-extra/openregister && composer test:unit 2>&1"
    (Completed 0 huge_count_output "").

Definition test_unit (E : Env) : ContainerAPI.CommandConfig E :=
  {| ContainerAPI.name := "test-unit";
     ContainerAPI.command := "composer test:unit";
     ContainerAPI.timeout := 180;
     ContainerAPI.description := "Run PHPUnit unit tests";
     ContainerAPI.post_processor := Some (ContainerAPI.process_test_result E) |}.

Definition int_limit_message : string :=
  "Exceeds the limit (4300 digits) for integer string conversion: value has 4301 digits; "
  ++ "use sys.set_int_max_str_digits() to increase the limit".

(** Outputs of PHPUnit and of the style fixer. *)
Definition phpunit_output : string := "Tests: 12, Assertions: 30, Failures: 2.".

Definition fixer_output : string :=
  "Fixed 3 files" ++ newline ++ "Fixed 5 files" ++ newline ++ "done".

Definition two_fixed_lines : string := "Fixed 3 files" ++ newline ++ "Fixed 5 files".

(** Writes of [a.php]: the content [x], and a content with a line [EOF]. *)
Definition a_php : string := "/var/www/html/apps-extra/openregister/a.php".

Definition marker_text : string := "a" ++ newline ++ "EOF" ++ newline ++ "b".

Definition write_a (text : string) : Fields :=
  {| file := Some "a.php"; issues := None; content := Some text |}.

(** ** Notions of the further properties *)

(** The number of requests to the model service in a trace. *)
Definition model_calls (cs : list Call) : nat :=
  List.length (filter (fun c => match c with ModelPost _ _ _ => true | _ => false end) cs).

(** The calls a run added to the trace: at most [d] runs in the container
    and at most [m] requests to the model service. *)
Definition adds_calls {E : Env} (st st' : St E) (d m : nat) : Prop :=
  exists new, calls st' = (calls st ++ new)%list
              /\ (docker_calls new <= d)%nat /\ (model_calls new <= m)%nat.

(** A post-processor that runs at most one command in the container and
    never calls the model. *)
Definition one_run_at_most {E : Env} (pp : CompletedProcess -> M E Dict) : Prop :=
  forall result st, adds_calls st (snd (pp result st)) 1 0.

(** The calls the two servers are meant to make: [bash -c] in the one
    container with a timeout between 10 seconds and an hour, and a request
    to the local model service with a timeout of a minute. *)
Definition expected_call (c : Call) : Prop :=
  match c with
  | DockerExec args t =>
      (exists script, args = ["docker"; "exec"; "master-nextcloud-1"; "bash"; "-c"; script])
      /\ (10 <= t <= 3600)%Z
  | ModelPost url _ t => url = "http://localhost:11434/api/generate" /\ t = 60%Z
  end.

(** Every call a run added to the trace is an expected one. *)
Definition adds_only_expected {E : Env} (st st' : St E) : Prop :=
  exists new, calls st' = (calls st ++ new)%list /\ Forall expected_call new.

(** Whether the body of the answer to [GET /] advertises [POST /name]. *)
Definition advertised (body : option Dict) (name : string) : bool :=
  match body with
  | Some d =>
      match PyDict.get "endpoints" d with
      | Some (JDict endpoints) => PyDict.mem ("POST /" ++ name) endpoints
      | _ => false
      end
  | None => false
  end.

(** The envelope of the command server around the result of a file
    operation that has the one key [error]. *)
Definition error_envelope (timestamp operation message : string) : Dict :=
  [("timestamp", JStr timestamp); ("operation", JStr operation);
   ("container", JStr CONTAINER_NAME); ("error", JStr message)].

(** The envelope of the command server around the fields [rest] of a
    successful file operation, on the test doubles. *)
Definition file_answer (operation : string) (rest : Dict) : HttpResponse :=
  {| status_code := 200;
     payload := ([("timestamp", JStr "2025-01-01T00:00:00Z");
                  ("operation", JStr operation);
                  ("container", JStr CONTAINER_NAME)] ++ rest)%list |}.

(** The invocation the backup handlers make for the path [p] at the clock
    reading [stamp]. *)
Definition backup_script (p stamp : string) : list string :=
  docker_bash ("cp " ++ APP_PATH ++ "/" ++ p ++ " "
               ++ APP_PATH ++ "/" ++ p ++ ".backup_" ++ stamp).

(** The script of [_write_file] for the Base64 text [encoded]. *)
Definition base64_write_script (encoded p : string) : list string :=
  docker_bash ("echo " ++ dq ++ encoded ++ dq ++ " | base64 -d > " ++ APP_PATH ++ "/" ++ p).

(** The characters of a Base64 text (RFC 4648): letters, digits, [+], [/]
    and the padding [=]. *)
Definition is_base64_char (c : ascii) : bool :=
  let n := nat_of_ascii c in
  (((65 <=? n) && (n <=? 90)) || ((97 <=? n) && (n <=? 122)) || ((48 <=? n) && (n <=? 57))
   || (n =? 43) || (n =? 47) || (n =? 61))%nat.

(** The number of characters of [s] from 128 up, which UTF-8 encodes in two
    bytes (a string holds code points below 256). *)
Fixpoint two_byte_chars (s : string) : nat :=
  match s with
  | EmptyString => O
  | String c s' => (if (nat_of_ascii c <? 128)%nat then 0 else 1) + two_byte_chars s'
  end.

(** The characters of a path that the shell takes literally: letters,
    digits, [-], [.], [/] and [_]. *)
Definition plain_path_char (c : ascii) : bool :=
  let n := nat_of_ascii c in
  (((48 <=? n) && (n <=? 57)) || ((65 <=? n) && (n <=? 90)) || ((97 <=? n) && (n <=? 122))
   || (n =? 45) || (n =? 46) || (n =? 47) || (n =? 95))%nat.

(** The carriage return. *)
Definition CR : ascii := ascii_of_nat 13.

(** The part of the prompt that carries the submitted code. *)
Definition fenced (content : string) : string :=
  "```php" ++ newline ++ content ++ newline ++ "```".

(** [len(l) > 0] *)
Definition nonempty {A : Type} (l : list A) : bool :=
  match l with [] => false | _ :: _ => true end.

(** ** Named inputs of the further properties *)

(** A container whose run of [composer phpqa] exceeds its timeout. *)
Definition phpqa_script : string :=
  "cd /var/www/html/apps-extra/openregister && composer phpqa 2>&1".

Definition timeout_env : Env :=
  Double.scripted
    [(phpqa_script, Raise (Exn TimeoutExpired "Command timed out after 300 seconds"))] []
    (Raise (Exn OtherException "no model")) (fun _ => "null").

(** A PHPQA run whose report file holds the empty JSON object. *)
Definition phpqa_env : Env :=
  Double.scripted
    [("cd /var/www/html/apps-extra/openregister && composer phpqa 2>&1",
      Return (Completed 0 "done" ""));
     ("cat /var/www/html/apps-extra/openregister/phpqa/phpqa.json 2>/dev/null || echo "
      ++ dq ++ "{}" ++ dq, Return (Completed 0 "{}" ""))]
    [("{}", JDict [])] (Raise (Exn OtherException "no model")) (fun _ => "null").

(** The answer of the command server to [phpqa] on that run. *)
Definition phpqa_answer : HttpResponse :=
  {| status_code := 200;
     payload :=
       [("timestamp", JStr "2025-01-01T00:00:00Z");
        ("command", JStr "phpqa");
        ("full_command", JStr "composer phpqa");
        ("status", JStr "success");
        ("exit_code", JInt 0);
        ("output", JStr "done");
        ("container", JStr "master-nextcloud-1");
        ("phpqa_report", JDict []);
        ("report_files", JDict [("json", JStr "phpqa/phpqa.json");
                                ("html", JStr "phpqa/phpqa-offline.html");
                                ("metrics", JStr "phpqa/phpmetrics/")])] |}.

(** A target that cannot be reached: every [subprocess.run] and every
    request to the model raises [e]. *)
Definition unreachable_env (e : exn) : Env :=
  {| World := unit;
     subprocess_run := fun _ _ w => (Raise e, w);
     requests_post := fun _ _ _ w => (Raise e, w);
     utcnow_isoformat := fun _ => "2025-01-01T00:00:00";
     now_strftime := fun _ => "20250101_000000";
     json_loads := fun _ =>
       Raise (Exn JSONDecodeError "Expecting value: line 1 column 1 (char 0)");
     json_dumps_indent2 := fun _ => "null";
     phpcs_issues := Double.walk_no_files;
     phpcs_issues_detailed := Double.walk_no_files |}.

Definition no_docker : exn :=
  Exn OtherException "[Errno 2] No such file or directory: 'docker'".

(** A write request with the Content-Length [n] and the decoded body [b]. *)
Definition write_request (n : Z) (b : result Fields) : Request :=
  {| path := "/write-file"; content_length := n; body := b |}.

(** What [json.loads] raises on a body that is not JSON. *)
Definition not_json : exn := Exn JSONDecodeError "Expecting value: line 1 column 1 (char 0)".

(** A file operation with a body of 40 bytes that decodes to [fields]. *)
Definition file_request (operation : string) (fields : Fields) : Request :=
  {| path := "/" ++ operation; content_length := 40; body := Return fields |}.

(** The body of a write of the content [c] to the path [p]. *)
Definition write_fields (p c : string) : Fields :=
  {| file := Some p; issues := None; content := Some c |}.

(** A write that tries to leave the application directory. *)
Definition traversal_fields : Fields :=
  {| file := Some "lib/../../config/config.php"; issues := None; content := Some "x" |}.

(** A body for [lib/a.php], and a container that can copy it. *)
Definition lib_a_php : Fields :=
  {| file := Some "lib/a.php"; issues := None; content := Some "<?php" |}.

Definition backup_env : Env :=
  Double.one_run
    ("cp /var/www/html/apps-extra/openregister/lib/a.php "
     ++ "/var/www/html/apps-extra/openregister/lib/a.php.backup_20250101_000000")
    (Completed 0 "" "").

(** * Properties *)

(** ** Facts about the string primitives *)

Module PyStrFacts.
Import PyStr.

Lemma str_app_assoc (a b c : string) : (a ++ b) ++ c = a ++ (b ++ c).
Proof. induction a as [|x a IH]; simpl; [reflexivity | now rewrite IH]. Qed.

Lemma str_app_nil_r (a : string) : a ++ "" = a.
Proof. induction a as [|x a IH]; simpl; [reflexivity | now rewrite IH]. Qed.

Lemma str_length_app (a b : string) :
  String.length (a ++ b) = String.length a + String.length b.
Proof. induction a as [|x a IH]; simpl; [reflexivity | now rewrite IH]. Qed.

Lemma str_length_zero (s : string) : String.length s = 0 -> s = "".
Proof. destruct s; [reflexivity | discriminate]. Qed.

Lemma startswith_iff (s p : string) :
  startswith s p = true <-> exists r, s = p ++ r.
Proof.
  revert s; induction p as [|a p IH]; intros s; simpl.
  - split; [intros _; now exists s | reflexivity].
  - destruct s as [|b s].
    + split; [discriminate | intros [r Hr]; discriminate].
    + rewrite andb_true_iff, Ascii.eqb_eq, IH. split.
      * intros [-> [r ->]]. now exists r.
      * intros [r Hr]. injection Hr as -> ->. split; [reflexivity | now exists r].
Qed.

Lemma startswith_app (p r : string) : startswith (p ++ r) p = true.
Proof. apply startswith_iff. now exists r. Qed.

Lemma str_take_drop (n : nat) (s : string) : take n s ++ drop n s = s.
Proof.
  revert s; induction n as [|n IH]; intros [|c s]; simpl; try reflexivity.
  now rewrite IH.
Qed.

Lemma str_take_app (a b : string) : take (String.length a) (a ++ b) = a.
Proof. induction a as [|x a IH]; simpl; [now destruct b | now rewrite IH]. Qed.

Lemma str_drop_app (a b : string) : drop (String.length a) (a ++ b) = b.
Proof. induction a as [|x a IH]; simpl; [reflexivity | exact IH]. Qed.

Lemma str_drop_drop (n m : nat) (s : string) : drop n (drop m s) = drop (m + n) s.
Proof.
  revert s; induction m as [|m IH]; intros s; simpl; [reflexivity|].
  destruct s as [|c s]; [now destruct n | apply IH].
Qed.

Lemma str_length_take (n : nat) (s : string) :
  n <= String.length s -> String.length (take n s) = n.
Proof.
  revert s; induction n as [|n IH]; intros [|c s] H; simpl in *; try reflexivity; try lia.
  rewrite IH; lia.
Qed.

Lemma str_length_drop (n : nat) (s : string) :
  String.length (drop n s) = String.length s - n.
Proof.
  revert s; induction n as [|n IH]; intros [|c s]; simpl; try lia. apply IH.
Qed.

(** Two decompositions of one string with equally long heads agree. *)
Lemma app_inj_length (a b a' b' : string) :
  a ++ b = a' ++ b' -> String.length a = String.length a' -> a = a' /\ b = b'.
Proof.
  revert a'; induction a as [|x a IH]; intros [|x' a'] H L; simpl in *; try discriminate.
  - now split.
  - injection H as -> H. injection L as L. destruct (IH _ H L) as [-> ->]. now split.
Qed.

(** *** The leftmost occurrence *)

Lemma find_Some (sep s : string) (i : nat) :
  find sep s = Some i ->
  startswith (drop i s) sep = true /\ i <= String.length s /\
  forall j, j < i -> startswith (drop j s) sep = false.
Proof.
  revert i; induction s as [|c s IH]; intros i; simpl find.
  - destruct (startswith "" sep) eqn:Hs; [|discriminate].
    intros [= <-]. simpl. repeat split; trivial. intros j Hj; lia.
  - destruct (startswith (String c s) sep) eqn:Hs.
    + intros [= <-]. simpl drop. repeat split; trivial; [lia | intros j Hj; lia].
    + destruct (find sep s) as [k|] eqn:Hf; [|discriminate].
      simpl. intros [= <-]. destruct (IH k eq_refl) as (H1 & H2 & H3).
      repeat split; trivial; [lia|].
      intros [|j] Hj; simpl; [exact Hs | apply H3; lia].
Qed.

Lemma find_None (sep s : string) :
  find sep s = None -> forall j, startswith (drop j s) sep = false.
Proof.
  induction s as [|c s IH]; simpl find.
  - destruct (startswith "" sep) eqn:Hs; [discriminate|].
    intros _ [|j]; exact Hs.
  - destruct (startswith (String c s) sep) eqn:Hs; [discriminate|].
    destruct (find sep s) eqn:Hf; [discriminate|].
    intros _ [|j]; simpl; [exact Hs | now apply IH].
Qed.

Lemma contains_find (sep s : string) :
  contains sep s = match find sep s with Some _ => true | None => false end.
Proof.
  induction s as [|c s IH]; simpl.
  - now destruct (startswith "" sep).
  - destruct (startswith (String c s) sep); simpl; [reflexivity|].
    rewrite IH. now destruct (find sep s).
Qed.

Lemma partition_first_cut (sep s a b : string) :
  partition sep s = Some (a, b) -> first_cut sep s a b.
Proof.
  unfold partition. destruct (find sep s) as [i|] eqn:Hf; [|discriminate].
  intros [= <- <-]. destruct (find_Some _ _ _ Hf) as (H1 & H2 & H3).
  apply startswith_iff in H1 as [r Hr]. split.
  - rewrite <- (str_take_drop i s) at 1. f_equal.
    rewrite <- str_drop_drop, Hr. now rewrite str_drop_app.
  - intros a' b' Hs. rewrite str_length_take by exact H2.
    destruct (Nat.le_gt_cases i (String.length a')) as [|Hlt]; [assumption|].
    specialize (H3 _ Hlt). rewrite Hs, str_drop_app, startswith_app in H3. discriminate.
Qed.

Lemma first_cut_partition (sep s a b : string) :
  first_cut sep s a b -> partition sep s = Some (a, b).
Proof.
  intros [Hs Hmin]. unfold partition.
  destruct (find sep s) as [i|] eqn:Hf.
  - destruct (find_Some _ _ _ Hf) as (H1 & H2 & H3).
    assert (Hi : i = String.length a).
    { apply Nat.le_antisymm.
      - destruct (Nat.le_gt_cases i (String.length a)) as [|Hlt]; [assumption|].
        specialize (H3 _ Hlt). rewrite Hs, str_drop_app, startswith_app in H3. discriminate.
      - apply startswith_iff in H1 as [r Hr].
        specialize (Hmin (take i s) r).
        rewrite str_length_take in Hmin by exact H2. apply Hmin.
        rewrite <- Hr. symmetry. apply str_take_drop. }
    subst i. f_equal. f_equal.
    + rewrite Hs. apply str_take_app.
    + rewrite Hs at 1. rewrite <- str_drop_drop, str_drop_app. apply str_drop_app.
  - pose proof (find_None _ _ Hf (String.length a)) as H.
    rewrite Hs, str_drop_app, startswith_app in H. discriminate.
Qed.

Lemma first_cut_functional (sep s a b a' b' : string) :
  first_cut sep s a b -> first_cut sep s a' b' -> a = a' /\ b = b'.
Proof.
  intros H H'. apply first_cut_partition in H, H'. rewrite H in H'.
  injection H' as -> ->. now split.
Qed.

Lemma contains_false_no_cut (sep s a b : string) :
  contains sep s = false -> s <> a ++ sep ++ b.
Proof.
  rewrite contains_find. destruct (find sep s) eqn:Hf; [discriminate|].
  intros _ Hs. pose proof (find_None _ _ Hf (String.length a)) as H.
  rewrite Hs, str_drop_app, startswith_app in H. discriminate.
Qed.

Lemma contains_true_cut (sep s : string) :
  contains sep s = true -> exists a b, first_cut sep s a b.
Proof.
  rewrite contains_find. destruct (find sep s) as [i|] eqn:Hf; [|discriminate].
  intros _. exists (take i s), (drop (i + String.length sep) s).
  apply partition_first_cut. unfold partition. now rewrite Hf.
Qed.

(** The text before the leftmost occurrence holds no occurrence. *)
Lemma first_cut_head_clean (sep s a b : string) :
  sep <> "" -> first_cut sep s a b -> contains sep a = false.
Proof.
  intros Hsep [Hs Hmin]. destruct (contains sep a) eqn:Hc; [|reflexivity].
  destruct (contains_true_cut _ _ Hc) as (a1 & a2 & [Ha _]).
  specialize (Hmin a1 (a2 ++ sep ++ b)).
  assert (Hlen : String.length a <= String.length a1).
  { apply Hmin. rewrite Hs, Ha. now rewrite !str_app_assoc. }
  rewrite Ha, !str_length_app in Hlen.
  destruct sep; [contradiction | simpl in Hlen; lia].
Qed.

(** *** [split] *)

Lemma partition_shorter (sep s a b : string) :
  sep <> "" -> partition sep s = Some (a, b) -> String.length b < String.length s.
Proof.
  intros Hsep H. apply partition_first_cut in H as [-> _].
  rewrite !str_length_app. destruct sep; [contradiction | simpl; lia].
Qed.

Lemma partition_empty (sep : string) : sep <> "" -> partition sep "" = None.
Proof. intros H. destruct sep; [contradiction | reflexivity]. Qed.

Lemma split_fuel_enough (sep : string) (f1 f2 : nat) (s : string) :
  sep <> "" -> String.length s <= f1 -> String.length s <= f2 ->
  split_fuel f1 sep s = split_fuel f2 sep s.
Proof.
  intros Hsep. revert f2 s. induction f1 as [|f1 IH]; intros f2 s H1 H2.
  - apply Nat.le_0_r, str_length_zero in H1. subst s.
    destruct f2; simpl; [reflexivity | now rewrite partition_empty].
  - destruct f2 as [|f2].
    + apply Nat.le_0_r, str_length_zero in H2. subst s.
      simpl. now rewrite partition_empty.
    + simpl. destruct (partition sep s) as [[a b]|] eqn:Hp; [|reflexivity].
      pose proof (partition_shorter _ _ _ _ Hsep Hp). f_equal. apply IH; lia.
Qed.

Lemma split_eq (sep s : string) :
  sep <> "" ->
  split sep s = match partition sep s with
                | None => [s]
                | Some (a, b) => a :: split sep b
                end.
Proof.
  intros Hsep. unfold split. destruct s as [|c s].
  - simpl. now rewrite partition_empty.
  - simpl split_fuel. destruct (partition sep (String c s)) as [[a b]|] eqn:Hp; [|reflexivity].
    pose proof (partition_shorter _ _ _ _ Hsep Hp) as Hlt. simpl in Hlt.
    f_equal. apply split_fuel_enough; trivial; lia.
Qed.

Lemma split_no_sep (sep s : string) :
  sep <> "" -> contains sep s = false -> split sep s = [s].
Proof.
  intros Hsep Hc. rewrite split_eq by exact Hsep. unfold partition.
  rewrite contains_find in Hc. now destruct (find sep s).
Qed.

Lemma split_first_cut (sep s a b : string) :
  sep <> "" -> first_cut sep s a b -> split sep s = a :: split sep b.
Proof.
  intros Hsep H. rewrite split_eq by exact Hsep.
  now rewrite (first_cut_partition _ _ _ _ H).
Qed.

(** *** Counting newlines *)

Lemma count_char_app (c : ascii) (a b : string) :
  count_char c (a ++ b) = count_char c a + count_char c b.
Proof. induction a as [|x a IH]; simpl; [reflexivity | rewrite IH; lia]. Qed.

Lemma contains_char_count (c : ascii) (s : string) :
  contains (String c "") s = false -> count_char c s = 0.
Proof.
  induction s as [|x s IH]; simpl; [reflexivity|].
  destruct (Ascii.eqb x c); simpl; [discriminate | exact IH].
Qed.

Lemma length_split_char (c : ascii) (s : string) :
  List.length (split (String c "") s) = 1 + count_char c s.
Proof.
  assert (Hsep : String c "" <> "") by discriminate.
  remember (String.length s) as n eqn:Hn. revert s Hn.
  induction n as [n IH] using lt_wf_ind. intros s Hn.
  rewrite split_eq by exact Hsep.
  destruct (partition (String c "") s) as [[a b]|] eqn:Hp.
  - pose proof (partition_shorter _ _ _ _ Hsep Hp) as Hlt.
    apply partition_first_cut in Hp.
    pose proof (first_cut_head_clean _ _ _ _ Hsep Hp) as Ha.
    destruct Hp as [Hs _]. simpl List.length.
    rewrite (IH (String.length b)) by (subst; trivial).
    rewrite Hs, !count_char_app, (contains_char_count _ _ Ha). simpl.
    rewrite Ascii.eqb_refl. lia.
  - unfold partition in Hp. destruct (find (String c "") s) eqn:Hf; [discriminate|].
    assert (Hc : contains (String c "") s = false) by (rewrite contains_find; now rewrite Hf).
    rewrite (contains_char_count _ _ Hc). reflexivity.
Qed.

End PyStrFacts.

(** ** Reading a file: [size] and [lines] (C10) *)

Import PyStr PyStrFacts.

Lemma count_newline_unlines (ls : list string) :
  Forall (fun l => count_char (ascii_of_nat 10) l = 0) ls ->
  count_char (ascii_of_nat 10) (unlines ls) = List.length ls.
Proof.
  induction 1 as [|l ls Hl _ IH]; simpl; [reflexivity|].
  rewrite count_char_app, Hl. simpl. now rewrite IH.
Qed.

Lemma read_file_handler_reports (E : Env) (req : Fields) (st st' : St E) (d : Dict) :
  AiCodeFixing.read_file_handler E req st = (Return d, st') ->
  PyDict.mem "error" d = false ->
  exists content,
    reports_content d content (1 + count_char (ascii_of_nat 10) content).
Proof.
  unfold AiCodeFixing.read_file_handler.
  destruct (file req) as [p|]; [|intros [= <- _]; discriminate].
  destruct (AiCodeFixing.path_is_unsafe p); [intros [= <- _]; discriminate|].
  unfold try_except, bind, run, ret.
  destruct (subprocess_run E _ _ _) as [[r|e] w]; [|intros [= <- _]; discriminate].
  destruct (negb (returncode r =? 0)%Z); intros [= <- _]; [discriminate|].
  intros _. exists (stdout r). unfold reports_content, jlen. simpl.
  repeat split. now rewrite (length_split_char (ascii_of_nat 10)).
Qed.

Lemma _read_file_reports (E : Env) (p : option string) (st st' : St E) (d : Dict) :
  ContainerAPIAI._read_file E p st = (Return d, st') ->
  PyDict.mem "error" d = false ->
  exists content,
    reports_content d content (1 + count_char (ascii_of_nat 10) content).
Proof.
  unfold ContainerAPIAI._read_file.
  destruct p as [p|]; [|intros [= <- _]; discriminate].
  destruct (ContainerAPIAI.path_is_invalid (Some p)); [intros [= <- _]; discriminate|].
  unfold bind, run, ret.
  destruct (subprocess_run E _ _ _) as [[r|e] w]; [|discriminate].
  destruct (negb (returncode r =? 0)%Z); intros [= <- _]; [discriminate|].
  intros _. exists (stdout r). unfold reports_content, jlen. simpl.
  repeat split. now rewrite (length_split_char (ascii_of_nat 10)).
Qed.

(** C10, as amended.  A successful read, by [read_file_handler] or by
    [_read_file], returns the content with [size] its length and [lines] one
    plus its number of newline characters; so [lines] is at least 1, the
    empty content reports size 0 and 1 line, and a content made of [n] lines,
    each ended by a newline, reports [n + 1] lines. *)
Theorem C10_read_reports_size_and_lines (E : Env) (st st' : St E) (d : Dict) :
  (exists req, AiCodeFixing.read_file_handler E req st = (Return d, st')) \/
  (exists p, ContainerAPIAI._read_file E p st = (Return d, st')) ->
  PyDict.mem "error" d = false ->
  exists content lines,
    reports_content d content lines /\
    lines = 1 + count_char (ascii_of_nat 10) content /\
    1 <= lines /\
    (content = "" -> String.length content = 0 /\ lines = 1) /\
    (forall ls, Forall (fun l => count_char (ascii_of_nat 10) l = 0) ls ->
                content = unlines ls -> lines = List.length ls + 1).
Proof.
  intros Hrun Herr.
  assert (H : exists content,
             reports_content d content (1 + count_char (ascii_of_nat 10) content)).
  { destruct Hrun as [[req Hr] | [p Hr]].
    - eapply read_file_handler_reports; eassumption.
    - eapply _read_file_reports; eassumption. }
  destruct H as [content H]. exists content, (1 + count_char (ascii_of_nat 10) content).
  split; [exact H|]. split; [reflexivity|]. split; [lia|]. split.
  - intros ->. split; reflexivity.
  - intros ls Hls ->. rewrite count_newline_unlines by exact Hls. lia.
Qed.

Lemma C10_witness :
  exists content lines,
    reports_content
      [("file", JStr "notes.txt"); ("content", JStr two_lines);
       ("size", JInt 4); ("lines", JInt 3)] content lines /\
    lines = 1 + count_char (ascii_of_nat 10) content /\
    1 <= lines /\
    (content = "" -> String.length content = 0 /\ lines = 1) /\
    (forall ls, Forall (fun l => count_char (ascii_of_nat 10) l = 0) ls ->
                content = unlines ls -> lines = List.length ls + 1).
Proof.
  apply (C10_read_reports_size_and_lines (notes_env two_lines)
           (Double.start (notes_env two_lines) tt)
           (Double.after (notes_env two_lines) tt
              [DockerExec ["docker"; "exec"; "master-nextcloud-1"; "bash"; "-c";
                           cat_notes] 10])).
  - left. exists (file_only (Some "notes.txt")). reflexivity.
  - reflexivity.
Defined.

(** C10 as stated fails on a content with a blank line: the file
    [a, (blank), b], each line ended by a newline, has two non-empty lines and
    is reported with four lines, not three. *)
Lemma C10_blank_line_counterexample :
  fst (AiCodeFixing.read_file_handler (notes_env blank_line_text) (file_only (Some "notes.txt"))
         (Double.start (notes_env blank_line_text) tt))
  = Return [("file", JStr "notes.txt"); ("content", JStr blank_line_text);
            ("size", JInt 5); ("lines", JInt 4)]
  /\ blank_line_text = ("a" ++ newline ++ newline ++ "b") ++ newline
  /\ nonempty_lines blank_line_text = 2
  /\ Z.of_nat (nonempty_lines blank_line_text + 1) <> 4%Z.
Proof. repeat split. discriminate. Qed.

(** ** The path guard (C2) *)

Lemma docker_calls_snoc (cs : list Call) (args : list string) (t : Z) :
  docker_calls (cs ++ [DockerExec args t])%list = docker_calls cs + 1.
Proof.
  unfold docker_calls. rewrite filter_app, List.length_app. reflexivity.
Qed.

(** Every piece of [s.split(sep)] is a piece of [s]. *)
Lemma split_piece_contained (sep : string) :
  sep <> "" ->
  forall s x, In x (split sep s) -> exists a b, s = a ++ x ++ b.
Proof.
  intros Hsep s. remember (String.length s) as n eqn:Hn. revert s Hn.
  induction n as [n IH] using lt_wf_ind. intros s Hn x.
  rewrite split_eq by exact Hsep.
  destruct (partition sep s) as [[a b]|] eqn:Hp.
  - pose proof (partition_shorter _ _ _ _ Hsep Hp) as Hlt.
    apply partition_first_cut in Hp as [Hs _]. intros [<- | Hin].
    + exists "", (sep ++ b). exact Hs.
    + destruct (IH (String.length b) ltac:(subst; exact Hlt) b eq_refl x Hin)
        as (a1 & b1 & Hb).
      exists (a ++ sep ++ a1), b1. rewrite Hs, Hb. now rewrite !str_app_assoc.
  - intros [<- | []]. exists "", "". simpl. now rewrite str_app_nil_r.
Qed.

Lemma contains_infix (x a b : string) : contains x (a ++ x ++ b) = true.
Proof.
  destruct (contains x (a ++ x ++ b)) eqn:Hc; [reflexivity|].
  exfalso. exact (contains_false_no_cut _ _ a b Hc eq_refl).
Qed.

(** A path with a [..] segment contains the two dots the guard looks for. *)
Lemma dotdot_segment_contains (p : string) :
  In ".." (split "/" p) -> contains ".." p = true.
Proof.
  intros Hin. destruct (split_piece_contained "/" ltac:(discriminate) p ".." Hin)
    as (a & b & ->).
  apply contains_infix.
Qed.

(** The guard of [ai_code_fixing.py] stops every path with a [..] segment
    and every path that starts with [/]: the three handlers answer with an
    error and leave the request state, and so the list of calls, as it was. *)
Lemma path_guard_rejects (E : Env) (req : Fields) (p : string) (st : St E) :
  file req = Some p ->
  In ".." (split "/" p) \/ startswith p "/" = true ->
  (exists d, AiCodeFixing.read_file_handler E req st = (Return d, st)
             /\ PyDict.mem "error" d = true) /\
  (exists d, AiCodeFixing.write_file_handler E req st = (Return d, st)
             /\ PyDict.mem "error" d = true) /\
  (exists d, AiCodeFixing.backup_file_handler E req st = (Return d, st)
             /\ PyDict.mem "error" d = true).
Proof.
  intros Hfile Hbad.
  assert (Hunsafe : AiCodeFixing.path_is_unsafe p = true).
  { unfold AiCodeFixing.path_is_unsafe. apply orb_true_iff.
    destruct Hbad as [H | H]; [left; now apply dotdot_segment_contains | now right]. }
  unfold AiCodeFixing.read_file_handler, AiCodeFixing.write_file_handler,
    AiCodeFixing.backup_file_handler.
  rewrite Hfile, Hunsafe. repeat split.
  - eexists; split; reflexivity.
  - destruct (content req); eexists; split; reflexivity.
  - eexists; split; reflexivity.
Qed.

(** C2 at its failing input: on the AI code fixing server the path
    [/etc/passwd] passes the guard, and each of the three file operations
    asks the container to work on [APP_PATH//etc/passwd]. *)
Theorem C2_absolute_path_reaches_container (E : Env) (st : St E) :
  ContainerAPIAI.path_is_invalid (Some "/etc/passwd") = false
  /\ calls (snd (ContainerAPIAI.do_POST E (passwd_request "read-file") st))
     = (calls st ++ [DockerExec (docker_bash ("cat " ++ APP_PATH ++ "//etc/passwd")) 10])%list
  /\ calls (snd (ContainerAPIAI.do_POST E (passwd_request "write-file") st))
     = (calls st ++ [DockerExec (docker_bash ("echo " ++ dq ++ "eA==" ++ dq
                                              ++ " | base64 -d > "
                                              ++ APP_PATH ++ "//etc/passwd")) 10])%list
  /\ calls (snd (ContainerAPIAI.do_POST E (passwd_request "backup-file") st))
     = (calls st ++ [DockerExec (docker_bash ("cp " ++ APP_PATH ++ "//etc/passwd "
                                              ++ APP_PATH ++ "//etc/passwd.backup_"
                                              ++ now_strftime E (world st))) 10])%list
  /\ docker_calls (calls (snd (ContainerAPIAI.do_POST E (passwd_request "read-file") st)))
     = docker_calls (calls st) + 1.
Proof.
  split; [reflexivity|].
  assert (H : calls (snd (ContainerAPIAI.do_POST E (passwd_request "read-file") st))
              = (calls st ++ [DockerExec (docker_bash ("cat " ++ APP_PATH ++ "//etc/passwd")) 10])%list).
  { unfold ContainerAPIAI.do_POST, ContainerAPIAI._handle_file_operation,
      ContainerAPIAI._read_file, try_except, bind, lift, run, ret. simpl.
    destruct (subprocess_run E _ _ _) as [[r|e] w]; simpl; [|reflexivity].
    destruct (negb (returncode r =? 0)%Z); reflexivity. }
  split; [exact H|]. split; [|split].
  - unfold ContainerAPIAI.do_POST, ContainerAPIAI._handle_file_operation,
      ContainerAPIAI._write_file, try_except, bind, lift, run, ret. simpl.
    destruct (subprocess_run E _ _ _) as [[r|e] w]; simpl; [|reflexivity].
    destruct (negb (returncode r =? 0)%Z); reflexivity.
  - unfold ContainerAPIAI.do_POST, ContainerAPIAI._handle_file_operation,
      ContainerAPIAI._backup_file, try_except, bind, lift, run, ret, now_stamp. simpl.
    destruct (subprocess_run E _ _ _) as [[r|e] w]; simpl; [|reflexivity].
    destruct (negb (returncode r =? 0)%Z); reflexivity.
  - rewrite H. apply docker_calls_snoc.
Qed.

(** ** Unknown routes (C7) *)

Lemma lookup_Some_in (E : Env) (n : string) (cfg : ContainerAPI.CommandConfig E)
    (cmds : list (string * ContainerAPI.CommandConfig E)) :
  ContainerAPI.lookup E n cmds = Some cfg -> In n (map fst cmds).
Proof.
  induction cmds as [|[k v] cmds IH]; simpl; [discriminate|].
  destruct (String.eqb_spec k n) as [-> | _]; [now left | intros H; right; auto].
Qed.

Lemma lookup_None_not_in (E : Env) (n : string)
    (cmds : list (string * ContainerAPI.CommandConfig E)) :
  ContainerAPI.lookup E n cmds = None -> ~ In n (map fst cmds).
Proof.
  induction cmds as [|[k v] cmds IH]; simpl; [tauto|].
  destruct (String.eqb_spec k n) as [-> | Hne]; [discriminate|].
  intros H [Heq | Hin]; [now apply Hne | now apply IH].
Qed.

(** The command server lists, in its 404 answer, every registered command and
    the three file operations, and never the name that was asked for. *)
Lemma unknown_command_lists_all (E : Env) (req : Request) (st : St E) (asked : string) :
  lstrip_char "/" (path req) = asked ->
  ContainerAPI.is_file_operation asked = false ->
  ContainerAPI.lookup E asked (ContainerAPI.COMMANDS E) = None ->
  exists available,
    ContainerAPI.do_POST E req st
    = (Return {| status_code := 404;
                 payload := [("error", JStr ("Unknown command: " ++ asked));
                             ("available_commands", JList (map JStr available))] |}, st)
    /\ (forall n cfg, ContainerAPI.lookup E n (ContainerAPI.COMMANDS E) = Some cfg ->
                      In n available)
    /\ In "read-file" available /\ In "write-file" available /\ In "backup-file" available
    /\ ~ In asked available.
Proof.
  intros Hpath Hfile Hlook.
  exists (map fst (ContainerAPI.COMMANDS E) ++ ContainerAPI.file_operations)%list.
  split; [|split; [|split; [|split; [|split]]]].
  - unfold ContainerAPI.do_POST. rewrite Hpath, Hfile, Hlook. reflexivity.
  - intros n cfg H. apply in_or_app. left. eapply lookup_Some_in; eassumption.
  - apply in_or_app. right. simpl. tauto.
  - apply in_or_app. right. simpl. tauto.
  - apply in_or_app. right. simpl. tauto.
  - intros Hin. apply in_app_or in Hin as [Hin | Hin].
    + exact (lookup_None_not_in _ _ _ Hlook Hin).
    + unfold ContainerAPI.is_file_operation in Hfile.
      assert (existsb (String.eqb asked) ContainerAPI.file_operations = true) as Ht.
      { apply existsb_exists. exists asked. split; [exact Hin | apply String.eqb_refl]. }
      congruence.
Qed.

(** C7 at its failing input: the AI code fixing server answers an unknown
    route with 404 and an [error] text only; the body has no
    [available_commands]. *)
Theorem C7_ai_server_404_lists_nothing (E : Env) (st : St E) (n : Z) (b : result Fields) :
  ContainerAPIAI.do_POST E {| path := "/does-not-exist"; content_length := n; body := b |} st
  = (Return {| status_code := 404;
               payload := [("error", JStr "Unknown endpoint: does-not-exist")] |}, st)
  /\ PyDict.mem "available_commands"
       [("error", JStr "Unknown endpoint: does-not-exist")] = false.
Proof. split; reflexivity. Qed.

(** ** A read of a file that is not there (C8) *)

(** C8, as amended.  On the command server a read of a valid path that the
    container answers with a non-zero exit status gives HTTP 400 with the
    container's stderr in the body; 400 is the code of every error the read
    handler reports, the unsafe path and the missing [file] field included. *)
Theorem C8_read_failure_is_400 (E : Env) (st : St E) (n : Z) (req : Fields) :
  n <> 0%Z ->
  (forall p rc out err w',
     file req = Some p ->
     AiCodeFixing.path_is_unsafe p = false ->
     subprocess_run E (read_file_script p) 10 (world st)
     = (Return (Completed rc out err), w') ->
     rc <> 0%Z ->
     fst (ContainerAPI.do_POST E
            {| path := "/read-file"; content_length := n; body := Return req |} st)
     = Return {| status_code := 400;
                 payload := [("timestamp", JStr (utcnow_isoformat E w' ++ "Z"));
                             ("operation", JStr "read-file");
                             ("container", JStr CONTAINER_NAME);
                             ("error", JStr "File not found or not readable");
                             ("stderr", JStr err)] |})
  /\
  (forall p,
     file req = Some p ->
     AiCodeFixing.path_is_unsafe p = true ->
     fst (ContainerAPI.do_POST E
            {| path := "/read-file"; content_length := n; body := Return req |} st)
     = Return {| status_code := 400;
                 payload := [("timestamp", JStr (utcnow_isoformat E (world st) ++ "Z"));
                             ("operation", JStr "read-file");
                             ("container", JStr CONTAINER_NAME);
                             ("error", JStr "Invalid file path")] |})
  /\
  (file req = None ->
   fst (ContainerAPI.do_POST E
          {| path := "/read-file"; content_length := n; body := Return req |} st)
   = Return {| status_code := 400;
               payload := [("timestamp", JStr (utcnow_isoformat E (world st) ++ "Z"));
                           ("operation", JStr "read-file");
                           ("container", JStr CONTAINER_NAME);
                           ("error", JStr "Missing 'file' parameter in request body")] |}).
Proof.
  intros Hn. apply Z.eqb_neq in Hn.
  unfold ContainerAPI.do_POST. simpl.
  unfold ContainerAPI._handle_file_operation, try_except, bind, lift, ret. simpl.
  rewrite Hn. unfold AiCodeFixing.read_file_handler. split; [|split].
  - intros p rc out err w' Hfile Hsafe Hrun Hrc. rewrite Hfile, Hsafe.
    unfold try_except, bind, run, ret. unfold read_file_script in Hrun. rewrite Hrun. simpl.
    apply Z.eqb_neq in Hrc. rewrite Hrc. reflexivity.
  - intros p Hfile Hunsafe. rewrite Hfile, Hunsafe. reflexivity.
  - intros Hfile. rewrite Hfile. reflexivity.
Qed.

Lemma C8_witness :
  fst (ContainerAPI.do_POST missing_txt_env (read_request (Some "missing.txt")) (Double.start missing_txt_env tt))
  = read_answer [("error", JStr "File not found or not readable");
                 ("stderr", JStr "cat: missing.txt: No such file or directory")]
  /\ fst (ContainerAPI.do_POST missing_txt_env (read_request (Some "../secret"))
            (Double.start missing_txt_env tt))
     = read_answer [("error", JStr "Invalid file path")]
  /\ fst (ContainerAPI.do_POST missing_txt_env (read_request None)
            (Double.start missing_txt_env tt))
     = read_answer [("error", JStr "Missing 'file' parameter in request body")].
Proof.
  split; [|split].
  - apply (proj1 (C8_read_failure_is_400 missing_txt_env (Double.start missing_txt_env tt) 22
                    (file_only (Some "missing.txt")) ltac:(discriminate))
             "missing.txt" 1%Z "" "cat: missing.txt: No such file or directory" tt);
      first [reflexivity | discriminate].
  - apply (proj1 (proj2 (C8_read_failure_is_400 missing_txt_env
                           (Double.start missing_txt_env tt) 22
                           (file_only (Some "../secret")) ltac:(discriminate)))
             "../secret"); reflexivity.
  - apply (proj2 (proj2 (C8_read_failure_is_400 missing_txt_env
                           (Double.start missing_txt_env tt) 22
                           (file_only None) ltac:(discriminate)))).
    reflexivity.
Defined.

(** C8 as stated fails: the answer to a read of a missing file carries the
    status code 400, not 500. *)
Lemma C8_not_found_counterexample :
  code_of (fst (ContainerAPI.do_POST missing_txt_env (read_request (Some "missing.txt"))
                  (Double.start missing_txt_env tt))) = Some 400%Z
  /\ Some 400%Z <> Some 500%Z.
Proof. split; [reflexivity | discriminate]. Qed.

(** ** The fields of an AI fix request (C9) *)

(** C9, as amended.  A body that lacks [file], [issues] or [content] is
    answered with 400 and the text [Missing required fields], and so is a
    body where one of them is present but empty; a body where all three are
    present and non-empty goes on to the model service with the prompt built
    from [issues] and [content]. *)
Theorem C9_ai_fix_field_check (E : Env) (st : St E) (n : Z) (fields : Fields) :
  (file fields = None \/ issues fields = None \/ content fields = None \/
   file fields = Some "" \/ (exists i, issues fields = Some i /\ truthy i = false) \/
   content fields = Some "" ->
   ContainerAPIAI.do_POST E (ai_fix_request n fields) st
   = (Return {| status_code := 400;
                payload := [("error", JStr "Missing required fields")] |}, st))
  /\
  (forall f i c,
     file fields = Some f -> issues fields = Some i -> content fields = Some c ->
     f <> "" -> truthy i = true -> c <> "" ->
     calls (snd (ContainerAPIAI.do_POST E (ai_fix_request n fields) st))
     = (calls st ++ [ModelPost (ContainerAPIAI.OLLAMA_URL ++ "/api/generate")
                               (ContainerAPIAI.build_prompt E i c) 60])%list).
Proof.
  unfold ContainerAPIAI.do_POST, ai_fix_request. simpl.
  unfold ContainerAPIAI._handle_ai_fix, try_except, bind, lift, ret. simpl.
  unfold ContainerAPIAI.all_present. split.
  - intros H.
    destruct (file fields) as [f|], (issues fields) as [i|], (content fields) as [c|];
      try reflexivity.
    assert (Hfalse : negb (String.eqb f "") && truthy i && negb (String.eqb c "") = false).
    { destruct H as [H | [H | [H | [H | [H | H]]]]]; try discriminate.
      - injection H as ->. reflexivity.
      - destruct H as (i' & [= <-] & ->). now rewrite andb_false_r.
      - injection H as ->. now rewrite andb_false_r. }
    rewrite Hfalse. reflexivity.
  - intros f i c -> -> -> Hf Hi Hc.
    apply String.eqb_neq in Hf, Hc. rewrite Hf, Hi, Hc. simpl.
    unfold post. destruct (requests_post E _ _ _ _) as [[r|e] w]; simpl; [|reflexivity].
    destruct (negb (model_status_code r =? 200)%Z); simpl; [reflexivity|].
    destruct (model_json_response r) as [a|];
      [destruct (ContainerAPIAI.extract_from_reply a)|]; reflexivity.
Qed.

Lemma C9_witness :
  ContainerAPIAI.do_POST fix_env (ai_fix_request 17 only_file) (Double.start fix_env tt)
  = (Return {| status_code := 400;
               payload := [("error", JStr "Missing required fields")] |},
     Double.start fix_env tt)
  /\
  calls (snd (ContainerAPIAI.do_POST fix_env (ai_fix_request 60 all_fields)
                (Double.start fix_env tt)))
  = [ModelPost (ContainerAPIAI.OLLAMA_URL ++ "/api/generate")
               (ContainerAPIAI.build_prompt fix_env (JList [JInt 1]) "<?php") 60].
Proof.
  split.
  - apply (proj1 (C9_ai_fix_field_check fix_env (Double.start fix_env tt) 17 only_file)).
    right. left. reflexivity.
  - apply (proj2 (C9_ai_fix_field_check fix_env (Double.start fix_env tt) 60 all_fields)
             "a.php" (JList [JInt 1]) "<?php");
      first [reflexivity | discriminate].
Defined.

(** C9 as stated fails: with all three fields present but an empty list of
    issues the request does not reach the model service; it is answered 400
    and no call is made. *)
Lemma C9_empty_issues_counterexample :
  file empty_issues = Some "a.php"
  /\ issues empty_issues = Some (JList [])
  /\ content empty_issues = Some "<?php"
  /\ ContainerAPIAI.do_POST fix_env (ai_fix_request 60 empty_issues) (Double.start fix_env tt)
     = (Return {| status_code := 400;
                  payload := [("error", JStr "Missing required fields")] |},
        Double.start fix_env tt)
  /\ calls (Double.start fix_env tt) = [].
Proof. repeat split. Qed.

(** ** Extraction of the fenced code block (C4) *)

Lemma find_no_occurrence_before (sep s : string) (n : nat) :
  match find sep s with Some i => n <= i | None => True end ->
  no_occurrence_before sep s n.
Proof.
  intros H a b Hs. destruct (find sep s) as [i|] eqn:Hf.
  - destruct (find_Some _ _ _ Hf) as (_ & _ & Hmin).
    destruct (Nat.le_gt_cases i (String.length a)) as [|Hlt]; [lia|].
    specialize (Hmin _ Hlt). rewrite Hs, str_drop_app, startswith_app in Hmin. discriminate.
  - pose proof (find_None _ _ Hf (String.length a)) as Hn.
    rewrite Hs, str_drop_app, startswith_app in Hn. discriminate.
Qed.

Lemma contains_prefix_of_sep (a b s : string) :
  contains (a ++ b) s = true -> contains a s = true.
Proof.
  intros H. destruct (contains_true_cut _ _ H) as (x & y & [-> _]).
  rewrite str_app_assoc. apply contains_infix.
Qed.

Lemma hd_split (sep s : string) :
  sep <> "" ->
  hd "" (split sep s) = match partition sep s with
                        | Some (a, _) => a
                        | None => s
                        end.
Proof.
  intros Hsep. rewrite split_eq by exact Hsep.
  now destruct (partition sep s) as [[a b]|].
Qed.

Lemma nth1_cons (a : string) (l : list string) : nth 1 (a :: l) "" = hd "" l.
Proof. now destruct l. Qed.

(** A common prefix of two decompositions of one string. *)
Lemma app_eq_app_le (a b c d : string) :
  a ++ b = c ++ d -> String.length a <= String.length c ->
  exists x, c = a ++ x /\ b = x ++ d.
Proof.
  revert c; induction a as [|x a IH]; intros c H L; simpl in *.
  - exists c. now split.
  - destruct c as [|y c]; simpl in *; [lia|].
    injection H as -> H. destruct (IH c H ltac:(lia)) as (z & -> & ->).
    exists z. now split.
Qed.

Lemma extract_php_fence (r pre rest inner post : string) :
  first_cut "```php" r pre rest ->
  first_cut "```" rest inner post ->
  no_occurrence_before "```php" rest (String.length inner + 3) ->
  ContainerAPIAI.extract_fixed_code r = strip inner.
Proof.
  intros Hphp Hclose Hnext.
  assert (Hsep1 : "```php" <> "") by discriminate.
  assert (Hsep2 : "```" <> "") by discriminate.
  unfold ContainerAPIAI.extract_fixed_code.
  destruct Hphp as [Hr Hmin]. assert (Hphp : first_cut "```php" r pre rest) by now split.
  rewrite Hr at 1. rewrite contains_infix. f_equal.
  rewrite (split_first_cut _ _ _ _ Hsep1 Hphp), nth1_cons.
  rewrite (hd_split "```php" rest) by exact Hsep1.
  destruct (partition "```php" rest) as [[a1 b1]|] eqn:Hp.
  - apply partition_first_cut in Hp as [Hrest _].
    pose proof (Hnext _ _ Hrest) as Hlen.
    destruct Hclose as [Hrest' Hmin'].
    assert (Hx : exists x, a1 = (inner ++ "```") ++ x /\ post = x ++ "```php" ++ b1).
    { apply app_eq_app_le.
      - rewrite str_app_assoc. now rewrite <- Hrest', <- Hrest.
      - rewrite str_length_app. simpl. lia. }
    destruct Hx as (x & Ha1 & _). rewrite str_app_assoc in Ha1.
    rewrite hd_split by exact Hsep2.
    assert (Hcut : first_cut "```" a1 inner x).
    { split; [exact Ha1|]. intros a' b' Ha'. apply (Hmin' a' (b' ++ "```php" ++ b1)).
      rewrite Hrest, Ha'. now rewrite !str_app_assoc. }
    now rewrite (first_cut_partition _ _ _ _ Hcut).
  - rewrite hd_split by exact Hsep2.
    now rewrite (first_cut_partition _ _ _ _ Hclose).
Qed.

Lemma extract_plain_fence (r pre rest inner post : string) :
  contains "```php" r = false ->
  first_cut "```" r pre rest ->
  first_cut "```" rest inner post ->
  ContainerAPIAI.extract_fixed_code r = strip inner.
Proof.
  intros Hnophp Hopen Hclose.
  assert (Hsep : "```" <> "") by discriminate.
  unfold ContainerAPIAI.extract_fixed_code. rewrite Hnophp.
  destruct Hopen as [Hr Hmin]. assert (Hopen : first_cut "```" r pre rest) by now split.
  rewrite Hr at 1. rewrite contains_infix. f_equal.
  rewrite (split_first_cut _ _ _ _ Hsep Hopen), nth1_cons.
  rewrite (split_first_cut _ _ _ _ Hsep Hclose). simpl hd.
  rewrite hd_split by exact Hsep.
  pose proof (first_cut_head_clean _ _ _ _ Hsep Hclose) as Hclean.
  unfold partition. rewrite contains_find in Hclean.
  now destruct (find "```" inner).
Qed.

Lemma extract_no_fence (r : string) :
  contains "```" r = false -> ContainerAPIAI.extract_fixed_code r = r.
Proof.
  intros H. unfold ContainerAPIAI.extract_fixed_code. rewrite H.
  destruct (contains "```php" r) eqn:Hphp; [|reflexivity].
  apply (contains_prefix_of_sep "```" "php") in Hphp. congruence.
Qed.

Lemma absent_iff (sep s : string) : absent sep s <-> contains sep s = false.
Proof.
  split.
  - intros H. destruct (contains sep s) eqn:Hc; [|reflexivity].
    apply contains_true_cut in Hc as (a & b & Hs & _). exfalso. exact (H a b Hs).
  - intros H a b. now apply contains_false_no_cut.
Qed.

Lemma absent_longer (a b s : string) : absent a s -> absent (a ++ b) s.
Proof.
  intros H x y Hs. apply (H x (b ++ y)). rewrite Hs. now rewrite str_app_assoc.
Qed.

Lemma text_before_functional (sep s a a' : string) :
  text_before sep s a -> text_before sep s a' -> a = a'.
Proof.
  intros [[b H] | [H ->]] [[b' H'] | [H' ->]].
  - exact (proj1 (first_cut_functional _ _ _ _ _ _ H H')).
  - destruct H as [Hs _]. exfalso. exact (H' _ _ Hs).
  - destruct H' as [Hs _]. exfalso. exact (H _ _ Hs).
  - reflexivity.
Qed.

(** The first piece of a split is the text before the leftmost separator. *)
Lemma hd_split_text_before (sep s : string) :
  sep <> "" -> text_before sep s (hd "" (split sep s)).
Proof.
  intros Hsep. rewrite hd_split by exact Hsep.
  destruct (partition sep s) as [[a b]|] eqn:Hp.
  - left. exists b. now apply partition_first_cut.
  - right. split; [|reflexivity]. apply absent_iff. rewrite contains_find.
    unfold partition in Hp. now destruct (find sep s).
Qed.

Lemma hd_split_twice (sep s : string) :
  sep <> "" -> hd "" (split sep (hd "" (split sep s))) = hd "" (split sep s).
Proof.
  intros Hsep. rewrite (hd_split sep s) by exact Hsep.
  destruct (partition sep s) as [[a b]|] eqn:Hp;
    [|now rewrite hd_split, Hp by exact Hsep].
  apply partition_first_cut in Hp.
  now rewrite (split_no_sep sep a) by (exact Hsep || exact (first_cut_head_clean _ _ _ _ Hsep Hp)).
Qed.

(** Lines 293-296 compute the code the reply stands for. *)
Lemma extract_meets_spec (r : string) :
  fixed_code_of r (ContainerAPIAI.extract_fixed_code r).
Proof.
  unfold ContainerAPIAI.extract_fixed_code.
  destruct (contains "```php" r) eqn:Hphp.
  - left. apply contains_true_cut in Hphp as (pre & rest & Hcut).
    rewrite (split_first_cut "```php" r pre rest) by (discriminate || exact Hcut).
    rewrite nth1_cons.
    exists pre, rest, (hd "" (split "```php" rest)),
      (hd "" (split "```" (hd "" (split "```php" rest)))).
    split; [exact Hcut|]. split; [apply hd_split_text_before; discriminate|].
    split; [apply hd_split_text_before; discriminate | reflexivity].
  - apply absent_iff in Hphp. destruct (contains "```" r) eqn:Hfence.
    + right. left. split; [exact Hphp|].
      apply contains_true_cut in Hfence as (pre & rest & Hcut).
      rewrite (split_first_cut "```" r pre rest) by (discriminate || exact Hcut).
      rewrite nth1_cons, hd_split_twice by discriminate.
      exists pre, rest, (hd "" (split "```" rest)).
      split; [exact Hcut|]. split; [apply hd_split_text_before; discriminate | reflexivity].
    + right. right. split; [now apply absent_iff | reflexivity].
Qed.

Lemma fixed_code_functional (r x y : string) :
  fixed_code_of r x -> fixed_code_of r y -> x = y.
Proof.
  intros [(pre & rest & piece & inner & Hcut & Hpiece & Hinner & ->)
         | [(Hno & pre & rest & inner & Hcut & Hinner & ->) | (Hno & ->)]]
         [(pre' & rest' & piece' & inner' & Hcut' & Hpiece' & Hinner' & ->)
         | [(Hno' & pre' & rest' & inner' & Hcut' & Hinner' & ->) | (Hno' & ->)]].
  - destruct (first_cut_functional _ _ _ _ _ _ Hcut Hcut') as [_ <-].
    rewrite <- (text_before_functional _ _ _ _ Hpiece Hpiece') in Hinner'.
    now rewrite (text_before_functional _ _ _ _ Hinner Hinner').
  - exfalso. exact (Hno' _ _ (proj1 Hcut)).
  - exfalso. exact (absent_longer "```" "php" r Hno' _ _ (proj1 Hcut)).
  - exfalso. exact (Hno _ _ (proj1 Hcut')).
  - destruct (first_cut_functional _ _ _ _ _ _ Hcut Hcut') as [_ <-].
    now rewrite (text_before_functional _ _ _ _ Hinner Hinner').
  - exfalso. exact (Hno' _ _ (proj1 Hcut)).
  - exfalso. exact (absent_longer "```" "php" r Hno _ _ (proj1 Hcut')).
  - exfalso. exact (Hno _ _ (proj1 Hcut')).
  - reflexivity.
Qed.

(** What [do_POST] answers to an AI fix request whose model reply is the
    text [r]. *)
Lemma ai_fix_answers_extraction (E : Env) (req : Request) (st : St E) (fields : Fields)
    (f c r : string) (i : Json) (response : ModelResponse) (w1 : World E) :
  lstrip_char "/" (path req) = "ai-fix-code" ->
  body req = Return fields ->
  file fields = Some f -> issues fields = Some i -> content fields = Some c ->
  ContainerAPIAI.all_present fields = true ->
  requests_post E (ContainerAPIAI.OLLAMA_URL ++ "/api/generate")
    (ContainerAPIAI.build_prompt E i c) 60 (world st) = (Return response, w1) ->
  model_status_code response = 200%Z ->
  model_json_response response = Return (JStr r) ->
  fst (ContainerAPIAI.do_POST E req st)
  = Return (fix_answer f c (ContainerAPIAI.extract_fixed_code r)).
Proof.
  intros Hpath Hb Hf Hi Hc Hall Hpost H200 Hr.
  unfold ContainerAPIAI.do_POST. rewrite Hpath.
  cbn [ContainerAPIAI.file_operations existsb String.eqb Ascii.eqb Bool.eqb orb].
  unfold ContainerAPIAI._handle_ai_fix, post, try_except, bind, lift, ret.
  rewrite Hb, Hall, Hf, Hi, Hc. cbn [negb]. rewrite Hpost, H200, Hr. reflexivity.
Qed.

(** C4, as amended.  A 200 reply of the model whose [response] is the text
    [r] is answered with the code [r] stands for, and [r] stands for one
    code only.  With a [```php] in [r] that is the text after the leftmost
    [```php], up to the next [```php] and cut before its first [```],
    stripped: the stripped inner text of a block that a [```] closes, and the
    stripped tail after a fence that nothing closes.  Without [```php] but
    with a [```] it is the text after the leftmost [```] up to the next one,
    stripped.  Without any [```] it is [r] as it came, not stripped. *)
Theorem C4_fixed_code_extraction :
  (forall (E : Env) (req : Request) (st : St E) (fields : Fields) (f c r : string)
          (i : Json) (response : ModelResponse) (w1 : World E),
     lstrip_char "/" (path req) = "ai-fix-code" ->
     body req = Return fields ->
     file fields = Some f -> issues fields = Some i -> content fields = Some c ->
     ContainerAPIAI.all_present fields = true ->
     requests_post E (ContainerAPIAI.OLLAMA_URL ++ "/api/generate")
       (ContainerAPIAI.build_prompt E i c) 60 (world st) = (Return response, w1) ->
     model_status_code response = 200%Z ->
     model_json_response response = Return (JStr r) ->
     exists x,
       fixed_code_of r x
       /\ fst (ContainerAPIAI.do_POST E req st) = Return (fix_answer f c x))
  /\
  (forall r x y, fixed_code_of r x -> fixed_code_of r y -> x = y)
  /\
  (forall r pre rest inner post,
     first_cut "```php" r pre rest ->
     first_cut "```" rest inner post ->
     no_occurrence_before "```php" rest (String.length inner + 3) ->
     fixed_code_of r (strip inner))
  /\
  (forall r pre rest,
     first_cut "```php" r pre rest -> absent "```" rest -> fixed_code_of r (strip rest))
  /\
  (forall r pre rest inner post,
     absent "```php" r ->
     first_cut "```" r pre rest ->
     first_cut "```" rest inner post ->
     fixed_code_of r (strip inner))
  /\
  (forall r pre rest,
     absent "```php" r -> first_cut "```" r pre rest -> absent "```" rest ->
     fixed_code_of r (strip rest))
  /\
  (forall r, absent "```" r -> fixed_code_of r r).
Proof.
  split; [|split; [|split; [|split; [|split; [|split]]]]].
  - intros E req st fields f c r i response w1 Hpath Hb Hf Hi Hc Hall Hpost H200 Hr.
    exists (ContainerAPIAI.extract_fixed_code r). split; [apply extract_meets_spec|].
    eapply ai_fix_answers_extraction; eassumption.
  - exact fixed_code_functional.
  - intros r pre rest inner post H1 H2 H3.
    rewrite <- (extract_php_fence r pre rest inner post H1 H2 H3). apply extract_meets_spec.
  - intros r pre rest Hcut Hno. left. exists pre, rest, rest, rest.
    split; [exact Hcut|]. split; [right; split; [exact (absent_longer "```" "php" rest Hno) | reflexivity]|].
    split; [right; split; [exact Hno | reflexivity] | reflexivity].
  - intros r pre rest inner post Hno H1 H2. apply absent_iff in Hno.
    rewrite <- (extract_plain_fence r pre rest inner post Hno H1 H2). apply extract_meets_spec.
  - intros r pre rest Hno Hcut Hrest. right. left. split; [exact Hno|].
    exists pre, rest, rest. split; [exact Hcut|].
    split; [right; split; [exact Hrest | reflexivity] | reflexivity].
  - intros r Hno. right. right. split; [exact Hno | reflexivity].
Qed.

Lemma C4_witness :
  (exists x,
     fixed_code_of php_reply x
     /\ fst (ContainerAPIAI.do_POST (reply_env php_reply) (ai_fix_request 64 all_fields)
               (Double.start (reply_env php_reply) tt))
        = Return (fix_answer "a.php" "<?php" x))
  /\ fixed_code_of php_reply "<?php echo 1;"
  /\ fixed_code_of unclosed_reply "<?php echo 4;"
  /\ fixed_code_of plain_reply "<?php echo 2;"
  /\ fixed_code_of "<?php echo 3;" "<?php echo 3;".
Proof.
  split; [|split; [|split; [|split]]].
  - apply (proj1 C4_fixed_code_extraction (reply_env php_reply) (ai_fix_request 64 all_fields)
             (Double.start (reply_env php_reply) tt) all_fields "a.php" "<?php" php_reply
             (JList [JInt 1])
             {| model_status_code := 200; model_json_response := Return (JStr php_reply) |}
             tt); reflexivity.
  - apply (proj1 (proj2 (proj2 C4_fixed_code_extraction)) php_reply
             ("Here is the fix:" ++ newline)
             (newline ++ "<?php echo 1;" ++ newline ++ "```" ++ newline ++ "Done.")
             (newline ++ "<?php echo 1;" ++ newline)
             (newline ++ "Done.")).
    + apply partition_first_cut. reflexivity.
    + apply partition_first_cut. reflexivity.
    + apply find_no_occurrence_before. exact I.
  - apply (proj1 (proj2 (proj2 (proj2 C4_fixed_code_extraction))) unclosed_reply ""
             (newline ++ "<?php echo 4;")).
    + apply partition_first_cut. reflexivity.
    + apply absent_iff. reflexivity.
  - apply (proj1 (proj2 (proj2 (proj2 (proj2 C4_fixed_code_extraction)))) plain_reply ""
             (newline ++ "<?php echo 2;" ++ newline ++ "```")
             (newline ++ "<?php echo 2;" ++ newline) "").
    + apply absent_iff. reflexivity.
    + apply partition_first_cut. reflexivity.
    + apply partition_first_cut. reflexivity.
  - apply (proj2 (proj2 (proj2 (proj2 (proj2 (proj2 C4_fixed_code_extraction)))))
             "<?php echo 3;").
    apply absent_iff. reflexivity.
Defined.

(** C4 as stated fails on a reply without a fence that has spaces around
    the code: the answer carries it with its spaces, not the stripped reply.
    It fails as well on a reply whose fence is never closed: the reply holds
    no fenced block, and the answer is not the stripped reply but the stripped
    text after the marker. *)
Lemma C4_unfenced_reply_counterexample :
  absent "```" spaced_reply
  /\ fst (ContainerAPIAI.do_POST (reply_env spaced_reply) (ai_fix_request 64 all_fields)
            (Double.start (reply_env spaced_reply) tt))
     = Return (fix_answer "a.php" "<?php" " <?php echo 3; ")
  /\ strip spaced_reply = "<?php echo 3;"
  /\ " <?php echo 3; " <> strip spaced_reply
  /\ absent "```" (newline ++ "<?php echo 4;")
  /\ fst (ContainerAPIAI.do_POST (reply_env unclosed_reply) (ai_fix_request 64 all_fields)
            (Double.start (reply_env unclosed_reply) tt))
     = Return (fix_answer "a.php" "<?php" "<?php echo 4;")
  /\ "<?php echo 4;" <> strip unclosed_reply.
Proof.
  split; [apply absent_iff; reflexivity|].
  split; [reflexivity|]. split; [reflexivity|]. split; [discriminate|].
  split; [apply absent_iff; reflexivity|]. split; [reflexivity | discriminate].
Qed.

(** ** Exit status, post-processors and the status field (C1, C5) *)

Lemma get_set_other (k k' : string) (v : Json) (d : Dict) :
  k' <> k -> PyDict.get k (PyDict.set k' v d) = PyDict.get k d.
Proof.
  intros Hne. induction d as [|[k0 v0] d IH]; simpl.
  - apply String.eqb_neq in Hne. now rewrite Hne.
  - destruct (String.eqb_spec k0 k') as [-> | Hk]; simpl.
    + apply String.eqb_neq in Hne. now rewrite Hne.
    + destruct (String.eqb k0 k); [reflexivity | exact IH].
Qed.

Lemma get_update_other (k : string) (extra d : Dict) :
  PyDict.mem k extra = false ->
  PyDict.get k (PyDict.update d extra) = PyDict.get k d.
Proof.
  unfold PyDict.update, PyDict.mem. revert d.
  induction extra as [|[k' v'] extra IH]; intros d H; simpl in *; [reflexivity|].
  destruct (String.eqb_spec k' k) as [-> | Hne]; [discriminate|].
  rewrite IH by exact H. now apply get_set_other.
Qed.

Ltac run_monad :=
  unfold try_except, bind, run, lift, ret, utcnow_z, now_stamp in *.

Lemma phpqa_processor_ok (E : Env) :
  keeps_base_fields E (ContainerAPI.process_phpqa_result E)
  /\ never_raises E (ContainerAPI.process_phpqa_result E).
Proof.
  split; intros result st; [intros d st'|];
    unfold ContainerAPI.process_phpqa_result; run_monad;
    destruct (subprocess_run E _ _ _) as [[r|e] w];
    try destruct (json_loads E _) as [j|e'];
    try (intros [= <- _]; repeat split); try (eexists; eexists; reflexivity).
Qed.

Lemma cs_fix_processor_keeps_base (E : Env) :
  keeps_base_fields E (ContainerAPI.process_cs_fix_result E).
Proof.
  intros result st d st'. unfold ContainerAPI.process_cs_fix_result. run_monad.
  destruct (ContainerAPI.cs_fix_count (stdout result)); [|discriminate].
  intros [= <- _]. repeat split.
Qed.

Lemma test_processor_keeps_base (E : Env) :
  keeps_base_fields E (ContainerAPI.process_test_result E).
Proof.
  intros result st d st'. unfold ContainerAPI.process_test_result. run_monad.
  destruct (ContainerAPI.test_metric "Tests:" _); [|discriminate].
  destruct (ContainerAPI.test_metric "Assertions:" _); [|discriminate].
  destruct (ContainerAPI.test_metric "Failures:" _); [|discriminate].
  intros [= <- _]. repeat split.
Qed.

Lemma phpcs_processor_ok (E : Env) :
  keeps_base_fields E (AiCodeFixing.process_phpcs_result E)
  /\ never_raises E (AiCodeFixing.process_phpcs_result E).
Proof.
  split; intros result st; [intros d st'|];
    unfold AiCodeFixing.process_phpcs_result; run_monad;
    destruct (subprocess_run E _ _ _) as [[r|e] w];
    try destruct (json_loads E _) as [j|e'];
    try destruct (phpcs_issues E _) as [[[a b] c]|e''];
    try (intros [= <- _]; repeat split); try (eexists; eexists; reflexivity).
Qed.

Lemma phpcs_detailed_processor_ok (E : Env) :
  keeps_base_fields E (ContainerAPIAI.process_phpcs_detailed E)
  /\ never_raises E (ContainerAPIAI.process_phpcs_detailed E).
Proof.
  split; intros result st; [intros d st'|];
    unfold ContainerAPIAI.process_phpcs_detailed; run_monad;
    try destruct (json_loads E _) as [j|e'];
    try destruct (phpcs_issues_detailed E _) as [[[a b] c]|e''];
    try (intros [= <- _]; repeat split); try (eexists; eexists; reflexivity).
Qed.

(** The registry of the command server, written out. *)
Lemma COMMANDS_unfolded (E : Env) :
  ContainerAPI.COMMANDS E
  = (ContainerAPI.base_commands E
     ++ [("phpcs-detailed",
          {| ContainerAPI.name := "phpcs-detailed";
             ContainerAPI.command := "./vendor/bin/phpcs --report=json --standard=PSR12 lib/";
             ContainerAPI.timeout := 60;
             ContainerAPI.description :=
               "Run PHPCS and get detailed issues per file for AI fixing";
             ContainerAPI.post_processor := Some (AiCodeFixing.process_phpcs_result E) |})])%list.
Proof. reflexivity. Qed.

(** Every registered post-processor keeps clear of the base fields. *)
Lemma registered_processors_keep_base (E : Env) (asked : string)
    (cfg : ContainerAPI.CommandConfig E) (pp : ContainerAPI.PostProcessor E) :
  ContainerAPI.lookup E asked (ContainerAPI.COMMANDS E) = Some cfg ->
  ContainerAPI.post_processor E cfg = Some pp ->
  keeps_base_fields E pp.
Proof.
  rewrite COMMANDS_unfolded. unfold ContainerAPI.base_commands.
  cbn [ContainerAPI.lookup List.app].
  repeat match goal with
         | |- context [String.eqb ?a asked] => destruct (String.eqb a asked)
         end;
    intros [= <-]; cbn [ContainerAPI.post_processor]; intros [= <-];
    first [apply phpqa_processor_ok | apply cs_fix_processor_keeps_base
          | apply test_processor_keeps_base | apply phpcs_processor_ok].
Qed.

Lemma registered_is_no_file_operation (E : Env) (asked : string)
    (cfg : ContainerAPI.CommandConfig E) :
  ContainerAPI.lookup E asked (ContainerAPI.COMMANDS E) = Some cfg ->
  ContainerAPI.is_file_operation asked = false.
Proof.
  intros H. apply lookup_Some_in in H. rewrite COMMANDS_unfolded in H.
  simpl in H. unfold ContainerAPI.is_file_operation. simpl.
  repeat destruct H as [<- | H]; try reflexivity. contradiction.
Qed.

Lemma execute_command_status (E : Env) (cfg : ContainerAPI.CommandConfig E) (st : St E)
    (rc : Z) (out err : string) (w1 : World E) :
  subprocess_run E (command_script (ContainerAPI.command E cfg))
    (ContainerAPI.timeout E cfg) (world st) = (Return (Completed rc out err), w1) ->
  (forall pp, ContainerAPI.post_processor E cfg = Some pp -> keeps_base_fields E pp) ->
  answers_with_status (fst (ContainerAPI._execute_command E cfg st)) rc out.
Proof.
  intros Hrun Hpp. unfold ContainerAPI._execute_command, command_script in *. run_monad.
  rewrite Hrun. cbn [world].
  destruct (ContainerAPI.post_processor E cfg) as [pp|].
  - specialize (Hpp pp eq_refl).
    destruct (pp _ _) as [[d|e] st2] eqn:Hd; cbn [fst]; eexists; (split; [reflexivity|]).
    + destruct (Hpp _ _ _ _ Hd) as (H1 & H2 & H3).
      rewrite !get_update_other by assumption. repeat split.
    + rewrite !get_set_other by discriminate. repeat split.
  - eexists. split; [reflexivity|]. repeat split.
Qed.

Lemma ai_registered_processors_ok (E : Env) (asked : string)
    (entry : ContainerAPIAI.CommandEntry E) (pp : ContainerAPIAI.PostProcessor E) :
  ContainerAPIAI.lookup E asked (ContainerAPIAI.COMMANDS E) = Some entry ->
  ContainerAPIAI.post_processor E entry = Some pp ->
  keeps_base_fields E pp /\ never_raises E pp.
Proof.
  unfold ContainerAPIAI.COMMANDS. cbn [ContainerAPIAI.lookup].
  repeat match goal with
         | |- context [String.eqb ?a asked] => destruct (String.eqb a asked)
         end;
    intros [= <-]; cbn [ContainerAPIAI.post_processor]; intros [= <-].
  apply phpcs_detailed_processor_ok.
Qed.

Lemma ai_execute_command_status (E : Env) (asked : string)
    (entry : ContainerAPIAI.CommandEntry E) (st : St E)
    (rc : Z) (out err : string) (w1 : World E) :
  ContainerAPIAI.lookup E asked (ContainerAPIAI.COMMANDS E) = Some entry ->
  subprocess_run E (command_script (ContainerAPIAI.command E entry))
    (ContainerAPIAI.timeout E entry) (world st) = (Return (Completed rc out err), w1) ->
  answers_with_status (fst (ContainerAPIAI._execute_command E asked st)) rc out.
Proof.
  intros Hlook Hrun. unfold ContainerAPIAI._execute_command. rewrite Hlook.
  unfold command_script in Hrun. run_monad. rewrite Hrun. cbn [world].
  assert (Hpp : forall pp, ContainerAPIAI.post_processor E entry = Some pp ->
                           keeps_base_fields E pp /\ never_raises E pp)
    by (intros pp; now apply (ai_registered_processors_ok E asked)).
  destruct (ContainerAPIAI.post_processor E entry) as [pp|].
  - destruct (Hpp pp eq_refl) as [Hkeep Htotal].
    match goal with
    | |- context [pp ?r ?s] => destruct (Htotal r s) as (d & st2 & Hd); rewrite Hd
    end.
    destruct (Hkeep _ _ _ _ Hd) as (H1 & H2 & H3).
    cbn [fst]. eexists. split; [reflexivity|].
    rewrite !get_update_other by assumption. repeat split.
  - eexists. split; [reflexivity|]. repeat split.
Qed.




(** What [_execute_command] does with a post-processor that raises, for
    any command configuration. *)
Lemma execute_command_attaches_exception (E : Env) (cfg : ContainerAPI.CommandConfig E)
    (pp : ContainerAPI.PostProcessor E) (st st2 : St E) (result : CompletedProcess)
    (w1 : World E) (e : exn) :
  ContainerAPI.post_processor E cfg = Some pp ->
  subprocess_run E (command_script (ContainerAPI.command E cfg))
    (ContainerAPI.timeout E cfg) (world st) = (Return result, w1) ->
  pp result {| world := w1;
               calls := (calls st ++ [DockerExec (command_script (ContainerAPI.command E cfg))
                                                 (ContainerAPI.timeout E cfg)])%list |}
  = (Raise e, st2) ->
  fst (ContainerAPI._execute_command E cfg st)
  = Return {| status_code := 200;
              payload :=
                (ContainerAPI.base_response E cfg (utcnow_isoformat E w1 ++ "Z") result
                 ++ [("post_processor_error", JStr (exn_str e))])%list |}.
Proof.
  intros Hpp Hrun Hraise.
  unfold ContainerAPI._execute_command, command_script in *. run_monad.
  rewrite Hrun, Hpp. cbn [world]. rewrite Hraise. reflexivity.
Qed.

(** C5.  On the command server, when the post-processor of a registered
    command raises on the result of the run, the answer is still 200 and is
    the base response, exit status and output included, with the text of the
    exception added as [post_processor_error].  On the AI code fixing server
    no registered post-processor ever raises. *)
Theorem C5_post_processor_exception_is_attached :
  (forall (E : Env) (req : Request) (cfg : ContainerAPI.CommandConfig E)
          (pp : ContainerAPI.PostProcessor E) (st st2 : St E)
          (result : CompletedProcess) (w1 : World E) (e : exn),
     ContainerAPI.lookup E (lstrip_char "/" (path req)) (ContainerAPI.COMMANDS E) = Some cfg ->
     ContainerAPI.post_processor E cfg = Some pp ->
     subprocess_run E (command_script (ContainerAPI.command E cfg))
       (ContainerAPI.timeout E cfg) (world st) = (Return result, w1) ->
     pp result {| world := w1;
                  calls := (calls st
                            ++ [DockerExec (command_script (ContainerAPI.command E cfg))
                                           (ContainerAPI.timeout E cfg)])%list |}
     = (Raise e, st2) ->
     fst (ContainerAPI.do_POST E req st)
     = Return {| status_code := 200;
                 payload :=
                   (ContainerAPI.base_response E cfg (utcnow_isoformat E w1 ++ "Z") result
                    ++ [("post_processor_error", JStr (exn_str e))])%list |}
     /\ answers_with_status (fst (ContainerAPI.do_POST E req st))
          (returncode result) (stdout result))
  /\
  (forall (E : Env) (asked : string) (entry : ContainerAPIAI.CommandEntry E)
          (pp : ContainerAPIAI.PostProcessor E),
     ContainerAPIAI.lookup E asked (ContainerAPIAI.COMMANDS E) = Some entry ->
     ContainerAPIAI.post_processor E entry = Some pp ->
     never_raises E pp).
Proof.
  split.
  - intros E req cfg pp st st2 result w1 e Hlook Hpp Hrun Hraise.
    assert (H : fst (ContainerAPI.do_POST E req st)
                = Return {| status_code := 200;
                            payload :=
                              (ContainerAPI.base_response E cfg (utcnow_isoformat E w1 ++ "Z")
                                 result
                               ++ [("post_processor_error", JStr (exn_str e))])%list |}).
    { unfold ContainerAPI.do_POST.
      rewrite (registered_is_no_file_operation _ _ _ Hlook), Hlook.
      eapply execute_command_attaches_exception; eassumption. }
    split; [exact H|]. rewrite H. eexists. split; [reflexivity|]. repeat split.
  - intros E asked entry pp Hlook Hpp.
    exact (proj2 (ai_registered_processors_ok E asked entry pp Hlook Hpp)).
Qed.

Lemma C5_witness :
  (fst (ContainerAPI.do_POST huge_count_env (post_command "test-unit")
          (Double.start huge_count_env tt))
   = Return {| status_code := 200;
               payload :=
                 (ContainerAPI.base_response huge_count_env (test_unit huge_count_env)
                    "2025-01-01T00:00:00Z" (Completed 0 huge_count_output "")
                  ++ [("post_processor_error", JStr int_limit_message)])%list |}
   /\ answers_with_status
        (fst (ContainerAPI.do_POST huge_count_env (post_command "test-unit")
                (Double.start huge_count_env tt)))
        0 huge_count_output)
  /\ never_raises huge_count_env (ContainerAPIAI.process_phpcs_detailed huge_count_env).
Proof.
  split.
  - apply (proj1 C5_post_processor_exception_is_attached huge_count_env
             (post_command "test-unit") (test_unit huge_count_env)
             (ContainerAPI.process_test_result huge_count_env)
             (Double.start huge_count_env tt)
             (Double.after huge_count_env tt
                [DockerExec (command_script "composer test:unit") 180])
             (Completed 0 huge_count_output "") tt
             (Exn OtherException int_limit_message)).
    + reflexivity.
    + reflexivity.
    + reflexivity.
    + vm_compute. reflexivity.
  - apply (proj2 C5_post_processor_exception_is_attached huge_count_env "phpcs-detailed"
             {| ContainerAPIAI.command :=
                  "./vendor/bin/phpcs --report=json --standard=PSR12 lib/";
                ContainerAPIAI.timeout := 60;
                ContainerAPIAI.description := "Get detailed PHPCS issues for AI fixing";
                ContainerAPIAI.post_processor :=
                  Some (ContainerAPIAI.process_phpcs_detailed huge_count_env) |});
      reflexivity.
Defined.

(** ** Facts about the matcher *)

Module ReFacts.
Import Re.

Lemma run_exact (cls : ascii -> bool) (a b : string) :
  every cls a = true -> starts_in cls b = false -> run cls (a ++ b) = String.length a.
Proof.
  intros Ha Hb. induction a as [|c a IH]; simpl in *.
  - destruct b as [|c b]; simpl in *; [reflexivity | now rewrite Hb].
  - apply andb_true_iff in Ha as [-> Ha]. now rewrite IH.
Qed.

Lemma run_at_least (cls : ascii -> bool) (a b : string) :
  every cls a = true -> String.length a <= run cls (a ++ b).
Proof.
  intros Ha. induction a as [|c a IH]; simpl in *; [lia|].
  apply andb_true_iff in Ha as [-> Ha]. specialize (IH Ha). lia.
Qed.

Lemma run_le_length (cls : ascii -> bool) (s : string) : run cls s <= String.length s.
Proof.
  induction s as [|c s IH]; simpl; [lia|]. destruct (cls c); lia.
Qed.

Lemma every_take_run (cls : ascii -> bool) (s : string) (n : nat) :
  n <= run cls s -> every cls (take n s) = true.
Proof.
  revert n; induction s as [|c s IH]; intros [|n] H; simpl in *; try reflexivity.
  destruct (cls c); [|lia]. simpl. apply IH. lia.
Qed.

Lemma starts_in_drop_run (cls : ascii -> bool) (s : string) :
  starts_in cls (drop (run cls s) s) = false.
Proof.
  induction s as [|c s IH]; simpl; [reflexivity|].
  destruct (cls c) eqn:Hc; simpl; [exact IH | exact Hc].
Qed.

Lemma take_nonempty (n : nat) (s : string) :
  1 <= n -> n <= String.length s -> take n s <> "".
Proof. destruct n, s; simpl; intros; try lia; discriminate. Qed.

Lemma longest_first_Some {A : Type} (n : nat) (k : nat -> option A) (r : A) :
  longest_first n k = Some r -> exists m, 1 <= m <= n /\ k m = Some r.
Proof.
  induction n as [|n IH]; simpl; [discriminate|].
  destruct (k (S n)) eqn:Hk.
  - intros [= <-]. exists (S n). split; [lia | exact Hk].
  - intros H. destruct (IH H) as (m & Hm & Hkm). exists m. split; [lia | exact Hkm].
Qed.

Lemma longest_first_top {A : Type} (n : nat) (k : nat -> option A) (r : A) :
  1 <= n -> k n = Some r -> longest_first n k = Some r.
Proof. destruct n; [lia|]. intros _ H. simpl. now rewrite H. Qed.

Lemma longest_first_None {A : Type} (n : nat) (k : nat -> option A) :
  (forall m, 1 <= m <= n -> k m = None) -> longest_first n k = None.
Proof.
  induction n as [|n IH]; intros H; simpl; [reflexivity|].
  rewrite (H (S n)) by lia. apply IH. intros m Hm. apply H. lia.
Qed.

(** A repetition that takes exactly [a]: what follows [a] is outside the
    class, so the longest run is [a] itself. *)
Lemma match_plus_exact (cls : ascii -> bool) (group : bool) (pat : pattern)
    (a b : string) (gs : list string) :
  run_of cls a -> starts_in cls b = false ->
  match_here pat b = Some gs ->
  match_here (Plus cls group :: pat) (a ++ b) = Some (if group then a :: gs else gs).
Proof.
  intros [Hne Ha] Hb Hm. simpl. rewrite (run_exact _ _ _ Ha Hb).
  apply longest_first_top.
  - destruct a; [contradiction | simpl; lia].
  - now rewrite str_drop_app, str_take_app, Hm.
Qed.

Lemma match_plus_inv (cls : ascii -> bool) (group : bool) (pat : pattern)
    (s : string) (gs' : list string) :
  match_here (Plus cls group :: pat) s = Some gs' ->
  exists a b gs, s = a ++ b /\ run_of cls a /\ match_here pat b = Some gs
                 /\ gs' = if group then a :: gs else gs.
Proof.
  simpl. intros H. apply longest_first_Some in H as (m & Hm & Hk).
  destruct (match_here pat (drop m s)) as [gs|] eqn:Hmatch; [|discriminate].
  injection Hk as <-. exists (take m s), (drop m s), gs.
  pose proof (run_le_length cls s).
  repeat split; trivial.
  - symmetry. apply str_take_drop.
  - apply take_nonempty; lia.
  - apply every_take_run. lia.
Qed.

(** When what follows a repetition must start outside the class, the
    repetition fails unless the string starts with a character of it. *)
Lemma match_plus_last (cls : ascii -> bool) (s : string) :
  match_here [Plus cls true] s
  = if starts_in cls s then Some [take (run cls s) s] else None.
Proof.
  simpl. destruct s as [|c s]; simpl; [reflexivity|].
  destruct (cls c); reflexivity.
Qed.

Lemma match_lits (l : string) (pat : pattern) (s : string) :
  match_here (lits l ++ pat)%list s
  = if startswith s l then match_here pat (drop (String.length l) s) else None.
Proof.
  revert s; induction l as [|c l IH]; intros s; simpl; [reflexivity|].
  destruct s as [|a s]; [reflexivity|].
  destruct (Ascii.eqb a c); simpl; [apply IH | reflexivity].
Qed.

(** *** [search] finds the leftmost match *)

Lemma search_leftmost (pat : pattern) (s : string) (k : nat) (gs : list string) :
  k <= String.length s ->
  match_here pat (drop k s) = Some gs ->
  (forall j, j < k -> match_here pat (drop j s) = None) ->
  search pat s = Some gs.
Proof.
  revert k; induction s as [|c s IH]; intros k Hk Hm Hmin.
  - assert (k = 0) by (simpl in Hk; lia). subst k. simpl in *. now rewrite Hm.
  - destruct k as [|k].
    + simpl drop in Hm. simpl. now rewrite Hm.
    + pose proof (Hmin 0 ltac:(lia)) as H0. simpl drop in H0.
      simpl search. rewrite H0. apply (IH k).
      * simpl in Hk. lia.
      * exact Hm.
      * intros j Hj. apply (Hmin (S j)). lia.
Qed.

Lemma search_none (pat : pattern) (s : string) :
  (forall j, match_here pat (drop j s) = None) -> search pat s = None.
Proof.
  induction s as [|c s IH]; intros H.
  - pose proof (H 0) as H0. simpl drop in H0. simpl. now rewrite H0.
  - simpl search. pose proof (H 0) as H0. simpl drop in H0. rewrite H0.
    apply IH. intros j. exact (H (S j)).
Qed.

Lemma search_Some_inv (pat : pattern) (s : string) (gs : list string) :
  search pat s = Some gs -> exists k, match_here pat (drop k s) = Some gs.
Proof.
  induction s as [|c s IH]; simpl search;
    destruct (match_here pat _) eqn:H0.
  - intros [= <-]. now exists 0.
  - discriminate.
  - intros [= <-]. now exists 0.
  - intros H. destruct (IH H) as [k Hk]. now exists (S k).
Qed.

Lemma search_None_all (pat : pattern) (s : string) :
  search pat s = None -> forall k, match_here pat (drop k s) = None.
Proof.
  induction s as [|c s IH]; simpl search;
    destruct (match_here pat _) eqn:H0; try discriminate; intros Hs [|k]; simpl drop;
    trivial.
  now apply IH.
Qed.

Lemma digit_is_no_space (c : ascii) : isdigit c = true -> isspace c = false.
Proof.
  destruct c as [[] [] [] [] [] [] [] []]; vm_compute; congruence.
Qed.

Lemma space_is_no_digit (c : ascii) : isspace c = true -> isdigit c = false.
Proof.
  destruct c as [[] [] [] [] [] [] [] []]; vm_compute; congruence.
Qed.

Lemma run_of_starts (cls other : ascii -> bool) (a b : string) :
  (forall c, cls c = true -> other c = false) ->
  run_of cls a -> starts_in other (a ++ b) = false.
Proof.
  intros Hdisj [Hne Ha]. destruct a as [|c a]; [contradiction|].
  simpl in *. apply andb_true_iff in Ha as [Hc _]. now apply Hdisj.
Qed.

End ReFacts.

(** ** The textual metrics (C6) *)

Import ReFacts.

Lemma metric_match_exact (label ws ds rest : string) :
  run_of isspace ws -> run_of isdigit ds -> starts_in isdigit rest = false ->
  Re.match_here (ContainerAPI.metric_pattern label) (label ++ ws ++ ds ++ rest) = Some [ds].
Proof.
  intros Hws Hds Hrest. unfold ContainerAPI.metric_pattern.
  rewrite match_lits, startswith_app, str_drop_app.
  apply (match_plus_exact isspace false [Re.Plus isdigit true] ws (ds ++ rest) [ds] Hws).
  - apply (run_of_starts isdigit isspace); [exact digit_is_no_space | exact Hds].
  - exact (match_plus_exact isdigit true [] ds rest [] Hds Hrest eq_refl).
Qed.

Lemma metric_match_inv (label s : string) (gs : list string) :
  Re.match_here (ContainerAPI.metric_pattern label) s = Some gs -> has_metric label s.
Proof.
  unfold ContainerAPI.metric_pattern. rewrite match_lits.
  destruct (startswith s label) eqn:Hs; [|discriminate].
  apply startswith_iff in Hs as [s' ->]. rewrite str_drop_app. intros H.
  apply match_plus_inv in H as (ws & b & gs1 & -> & Hws & H & _).
  apply match_plus_inv in H as (ds & rest & gs2 & -> & Hds & _ & _).
  now exists ws, ds, rest.
Qed.

Lemma metric_match_complete (label s : string) :
  has_metric label s -> Re.match_here (ContainerAPI.metric_pattern label) s <> None.
Proof.
  intros (ws & ds & rest & -> & Hws & Hds). unfold ContainerAPI.metric_pattern.
  rewrite match_lits, startswith_app, str_drop_app.
  assert (Hstart : starts_in isdigit (ds ++ rest) = true).
  { destruct Hds as [Hne He]. destruct ds as [|c ds]; [contradiction|].
    simpl in *. now apply andb_true_iff in He as [-> _]. }
  erewrite (match_plus_exact isspace false [Re.Plus isdigit true] ws (ds ++ rest) _ Hws).
  - discriminate.
  - apply (run_of_starts isdigit isspace); [exact digit_is_no_space | exact Hds].
  - rewrite match_plus_last, Hstart. reflexivity.
Qed.

Lemma files_match_exact (ds ws rest : string) :
  run_of isdigit ds -> run_of isspace ws ->
  Re.match_here ContainerAPI.files_pattern (ds ++ ws ++ "file" ++ rest) = Some [ds].
Proof.
  intros Hds Hws. unfold ContainerAPI.files_pattern. cbn [List.app].
  apply (match_plus_exact isdigit true _ ds (ws ++ "file" ++ rest) [] Hds).
  - apply (run_of_starts isspace isdigit); [exact space_is_no_digit | exact Hws].
  - apply (match_plus_exact isspace false _ ws ("file" ++ rest) [] Hws); reflexivity.
Qed.

Lemma files_match_group (s : string) (gs : list string) :
  Re.match_here ContainerAPI.files_pattern s = Some gs ->
  exists ds ws rest,
    s = ds ++ ws ++ "file" ++ rest /\ run_of isdigit ds /\ run_of isspace ws /\ gs = [ds].
Proof.
  unfold ContainerAPI.files_pattern. cbn [List.app]. intros H.
  apply match_plus_inv in H as (ds & b & gs1 & -> & Hds & H & ->).
  apply match_plus_inv in H as (ws & b' & gs2 & -> & Hws & H & ->).
  rewrite <- (List.app_nil_r (Re.lits "file")), match_lits in H.
  destruct (startswith b' "file") eqn:Hf; [|discriminate].
  apply startswith_iff in Hf as [rest ->]. injection H as <-.
  now exists ds, ws, rest.
Qed.

Lemma files_match_inv (s : string) (gs : list string) :
  Re.match_here ContainerAPI.files_pattern s = Some gs -> has_file_count s.
Proof.
  intros H. apply files_match_group in H as (ds & ws & rest & Hs & Hds & Hws & _).
  now exists ds, ws, rest.
Qed.

Lemma files_match_complete (s : string) :
  has_file_count s -> Re.match_here ContainerAPI.files_pattern s <> None.
Proof.
  intros (ds & ws & rest & -> & Hds & Hws). rewrite files_match_exact by assumption.
  discriminate.
Qed.

Lemma py_int_small (s : string) :
  String.length s <= int_max_str_digits -> py_int s = Return (int_of_digits s).
Proof.
  intros H. unfold py_int.
  destruct (Nat.ltb_spec int_max_str_digits (String.length s)); [lia | reflexivity].
Qed.

(** The value of a test metric is that of the leftmost match. *)
Lemma test_metric_first (label output pre ws ds rest : string) :
  output = pre ++ label ++ ws ++ ds ++ rest ->
  run_of isspace ws -> run_of isdigit ds -> starts_in isdigit rest = false ->
  String.length ds <= int_max_str_digits ->
  (forall k, k < String.length pre -> ~ has_metric label (drop k output)) ->
  ContainerAPI.test_metric label output = Return (int_of_digits ds).
Proof.
  intros Hout Hws Hds Hrest Hlen Hmin. unfold ContainerAPI.test_metric.
  rewrite (search_leftmost _ output (String.length pre) [ds]).
  - now apply py_int_small.
  - rewrite Hout, str_length_app. lia.
  - rewrite Hout, str_drop_app. now apply metric_match_exact.
  - intros j Hj. destruct (Re.match_here _ (drop j output)) as [gs|] eqn:Hm; [|reflexivity].
    exfalso. exact (Hmin j Hj (metric_match_inv _ _ _ Hm)).
Qed.

Lemma test_metric_absent (label output : string) :
  (forall k, ~ has_metric label (drop k output)) ->
  ContainerAPI.test_metric label output = Return 0%Z.
Proof.
  intros Hno. unfold ContainerAPI.test_metric. rewrite search_none; [reflexivity|].
  intros j. destruct (Re.match_here _ (drop j output)) as [gs|] eqn:Hm; [|reflexivity].
  exfalso. exact (Hno j (metric_match_inv _ _ _ Hm)).
Qed.

Lemma cs_fix_step_counts (line pre ds ws rest : string) (x : Z) :
  mentions_fixed line = true ->
  line = pre ++ ds ++ ws ++ "file" ++ rest ->
  run_of isdigit ds -> run_of isspace ws ->
  String.length ds <= int_max_str_digits ->
  (forall k, k < String.length pre -> ~ has_file_count (drop k line)) ->
  ContainerAPI.cs_fix_step x line = Return (int_of_digits ds).
Proof.
  intros Hfix Hline Hds Hws Hlen Hmin. unfold ContainerAPI.cs_fix_step.
  unfold mentions_fixed in Hfix. rewrite Hfix.
  rewrite (search_leftmost _ line (String.length pre) [ds]).
  - now apply py_int_small.
  - rewrite Hline, str_length_app. lia.
  - rewrite Hline, str_drop_app. now apply files_match_exact.
  - intros j Hj.
    destruct (Re.match_here _ (drop j line)) as [gs|] eqn:Hm; [|reflexivity].
    exfalso. exact (Hmin j Hj (files_match_inv _ _ Hm)).
Qed.

Lemma cs_fix_step_silent (line : string) (x : Z) :
  silent line -> ContainerAPI.cs_fix_step x line = Return x.
Proof.
  unfold ContainerAPI.cs_fix_step. intros [Hno | Hno].
  - unfold mentions_fixed in Hno. now rewrite Hno.
  - destruct (_ || _); [|reflexivity]. rewrite search_none; [reflexivity|].
    intros j.
    destruct (Re.match_here _ (drop j line)) as [gs|] eqn:Hm; [|reflexivity].
    exfalso. exact (Hno j (files_match_inv _ _ Hm)).
Qed.

(** A line of at most 4300 characters cannot make [int] raise. *)
Lemma cs_fix_step_short (line : string) (x : Z) :
  String.length line <= int_max_str_digits ->
  exists y, ContainerAPI.cs_fix_step x line = Return y.
Proof.
  intros Hlen. unfold ContainerAPI.cs_fix_step.
  destruct (_ || _); [|now exists x].
  destruct (Re.search ContainerAPI.files_pattern line) as [gs|] eqn:Hs; [|now exists x].
  destruct (search_Some_inv _ _ _ Hs) as [k Hk].
  apply files_match_group in Hk as (ds & ws & rest & Hdrop & _ & _ & ->).
  exists (int_of_digits ds). apply py_int_small.
  assert (String.length ds <= String.length (drop k line))
    by (rewrite Hdrop, str_length_app; lia).
  rewrite str_length_drop in *. lia.
Qed.

Lemma cs_fix_loop_app (x : Z) (a b : list string) :
  ContainerAPI.cs_fix_loop x (a ++ b)%list
  = match ContainerAPI.cs_fix_loop x a with
    | Return v => ContainerAPI.cs_fix_loop v b
    | Raise e => Raise e
    end.
Proof.
  revert x; induction a as [|l a IH]; intros x; simpl; [reflexivity|].
  destruct (ContainerAPI.cs_fix_step x l); [apply IH | reflexivity].
Qed.

Lemma cs_fix_loop_silent (ls : list string) (x : Z) :
  Forall silent ls -> ContainerAPI.cs_fix_loop x ls = Return x.
Proof.
  intros H. revert x. induction H as [|l ls Hl _ IH]; intros x; simpl; [reflexivity|].
  now rewrite cs_fix_step_silent, IH.
Qed.

Lemma cs_fix_loop_short (ls : list string) (x : Z) :
  Forall (fun l => String.length l <= int_max_str_digits) ls ->
  exists y, ContainerAPI.cs_fix_loop x ls = Return y.
Proof.
  intros H. revert x. induction H as [|l ls Hl _ IH]; intros x; simpl; [now exists x|].
  destruct (cs_fix_step_short l x Hl) as [y ->]. apply IH.
Qed.

(** The count of fixed files is that of the last line that has one. *)
Lemma cs_fix_count_last (output : string) (before after : list string)
    (line pre ds ws rest : string) :
  split newline output = (before ++ line :: after)%list ->
  Forall (fun l => String.length l <= int_max_str_digits) before ->
  mentions_fixed line = true ->
  line = pre ++ ds ++ ws ++ "file" ++ rest ->
  run_of isdigit ds -> run_of isspace ws ->
  String.length ds <= int_max_str_digits ->
  (forall k, k < String.length pre -> ~ has_file_count (drop k line)) ->
  Forall silent after ->
  ContainerAPI.cs_fix_count output = Return (int_of_digits ds).
Proof.
  intros Hsplit Hbefore Hfix Hline Hds Hws Hlen Hmin Hafter.
  unfold ContainerAPI.cs_fix_count. rewrite Hsplit, cs_fix_loop_app.
  destruct (cs_fix_loop_short before 0%Z Hbefore) as [y ->]. simpl.
  rewrite (cs_fix_step_counts line pre ds ws rest) by assumption.
  now apply cs_fix_loop_silent.
Qed.

Lemma cs_fix_count_absent (output : string) :
  Forall silent (split newline output) -> ContainerAPI.cs_fix_count output = Return 0%Z.
Proof. intros H. now apply cs_fix_loop_silent. Qed.

(** Checking by computation that no match starts before offset [n]. *)
Lemma no_metric_before (label s : string) (n : nat) :
  forallb (fun k => match Re.match_here (ContainerAPI.metric_pattern label) (drop k s) with
                    | None => true
                    | Some _ => false
                    end) (seq 0 n) = true ->
  forall k, k < n -> ~ has_metric label (drop k s).
Proof.
  intros H k Hk Hhas. apply metric_match_complete in Hhas.
  rewrite forallb_forall in H. specialize (H k ltac:(apply in_seq; lia)).
  destruct (Re.match_here _ (drop k s)); [discriminate | now apply Hhas].
Qed.

Lemma no_file_count_before (s : string) (n : nat) :
  forallb (fun k => match Re.match_here ContainerAPI.files_pattern (drop k s) with
                    | None => true
                    | Some _ => false
                    end) (seq 0 n) = true ->
  forall k, k < n -> ~ has_file_count (drop k s).
Proof.
  intros H k Hk Hhas. apply files_match_complete in Hhas.
  rewrite forallb_forall in H. specialize (H k ltac:(apply in_seq; lia)).
  destruct (Re.match_here _ (drop k s)); [discriminate | now apply Hhas].
Qed.

Lemma no_file_count_anywhere (s : string) :
  Re.search ContainerAPI.files_pattern s = None -> forall k, ~ has_file_count (drop k s).
Proof.
  intros Hs k Hhas. apply files_match_complete in Hhas. apply Hhas.
  now apply search_None_all.
Qed.

Lemma no_metric_anywhere (label s : string) :
  Re.search (ContainerAPI.metric_pattern label) s = None ->
  forall k, ~ has_metric label (drop k s).
Proof.
  intros Hs k Hhas. apply metric_match_complete in Hhas. apply Hhas.
  now apply search_None_all.
Qed.




(** ** Writing, then reading (C3) *)

(** C3 at its failing inputs, on the container with a file store.  The
    here-document of [write_file_handler] ends every content with a newline:
    writing [x] succeeds and the read gives [x] and a newline back.  A line
    [EOF] in the content ends the here-document early: the file keeps the
    text before that line, the text after it is run as commands, and the
    write is reported as failed.  (The base64 transfer of [_write_file] in
    [container-api-ai.py] returns both contents unchanged, see
    [base64_write_round_trips].) *)
Theorem C3_heredoc_write_changes_content :
  AiCodeFixing.write_file_handler Double.container (write_a "x")
    (Double.start Double.container [])
  = (Return [("file", JStr "a.php"); ("bytes_written", JInt 1);
             ("lines_written", JInt 1); ("status", JStr "success")],
     Double.after Double.container [(a_php, "x" ++ newline)]
       [DockerExec ["docker"; "exec"; "master-nextcloud-1"; "bash"; "-c";
                    "cat > " ++ a_php ++ " << 'EOF'" ++ newline ++ "x" ++ newline ++ "EOF"]
                   10])
  /\
  fst (AiCodeFixing.read_file_handler Double.container (file_only (Some "a.php"))
         (Double.start Double.container [(a_php, "x" ++ newline)]))
  = Return [("file", JStr "a.php"); ("content", JStr ("x" ++ newline));
            ("size", JInt 2); ("lines", JInt 2)]
  /\
  "x" ++ newline <> "x"
  /\
  AiCodeFixing.write_file_handler Double.container (write_a marker_text)
    (Double.start Double.container [])
  = (Return [("error", JStr "Failed to write file");
             ("stderr", JStr ("bash: line 4: b: command not found" ++ newline
                              ++ "bash: line 5: EOF: command not found" ++ newline))],
     Double.after Double.container [(a_php, "a" ++ newline)]
       [DockerExec ["docker"; "exec"; "master-nextcloud-1"; "bash"; "-c";
                    "cat > " ++ a_php ++ " << 'EOF'" ++ newline ++ marker_text
                    ++ newline ++ "EOF"]
                   10]).
Proof. repeat split. discriminate. Qed.

(** The sibling [_write_file] of [container-api-ai.py] sends the content
    base64-encoded: on the same container the two contents come back as they
    were written. *)
Lemma base64_write_round_trips :
  (let (_, st) := ContainerAPIAI._write_file Double.container (Some "a.php") (Some "x")
                    (Double.start Double.container []) in
   fst (ContainerAPIAI._read_file Double.container (Some "a.php")
          (Double.start Double.container (world st))))
  = Return [("file", JStr "a.php"); ("content", JStr "x");
            ("size", JInt 1); ("lines", JInt 1)]
  /\
  (let (_, st) := ContainerAPIAI._write_file Double.container (Some "a.php") (Some marker_text)
                    (Double.start Double.container []) in
   fst (ContainerAPIAI._read_file Double.container (Some "a.php")
          (Double.start Double.container (world st))))
  = Return [("file", JStr "a.php"); ("content", JStr marker_text);
            ("size", JInt 7); ("lines", JInt 3)].
Proof. split; reflexivity. Qed.

(** * Further properties of the two servers *)

(** ** More facts about strings and dictionaries *)

Lemma str_app_neq_self (p s : string) : s <> "" -> p ++ s <> p.
Proof.
  intros Hs H. apply (f_equal String.length) in H. rewrite str_length_app in H.
  destruct s; [now apply Hs | simpl in H; lia].
Qed.

Lemma contains_in_infix (x y a b : string) :
  contains x y = true -> contains x (a ++ y ++ b) = true.
Proof.
  intros H. apply contains_true_cut in H as (y1 & y2 & -> & _).
  replace (a ++ (y1 ++ x ++ y2) ++ b) with ((a ++ y1) ++ x ++ (y2 ++ b))
    by now rewrite !str_app_assoc.
  apply contains_infix.
Qed.

Lemma infix_clean (x y a b : string) :
  contains x (a ++ y ++ b) = false -> contains x y = false.
Proof.
  intros H. destruct (contains x y) eqn:Hy; [|reflexivity].
  now rewrite (contains_in_infix _ _ a b Hy) in H.
Qed.

Lemma infix_shorter (y a b : string) : String.length y <= String.length (a ++ y ++ b).
Proof. rewrite !str_length_app. lia. Qed.

Lemma lstrip_suffix (s : string) : exists a, s = a ++ lstrip s.
Proof.
  induction s as [|c s [a IH]]; [now exists ""|]. simpl.
  destruct (isspace c); [|now exists ""].
  exists (String c a). simpl. now rewrite <- IH.
Qed.

Lemma rstrip_prefix (s : string) : exists b, s = rstrip s ++ b.
Proof.
  induction s as [|c s [b IH]]; [now exists ""|]. simpl.
  destruct (rstrip s) as [|c' r] eqn:Hr.
  - destruct (isspace c); [now exists (String c s) | exists s; reflexivity].
  - exists b. simpl. simpl in IH. now rewrite <- IH.
Qed.

Lemma strip_infix (s : string) : exists a b, s = a ++ strip s ++ b.
Proof.
  unfold strip. destruct (lstrip_suffix s) as [a Ha].
  destruct (rstrip_prefix (lstrip s)) as [b Hb].
  exists a, b. now rewrite <- Hb.
Qed.

Lemma strip_clean (x s : string) : contains x s = false -> contains x (strip s) = false.
Proof.
  intros H. destruct (strip_infix s) as (a & b & Hs). rewrite Hs in H.
  exact (infix_clean _ _ _ _ H).
Qed.

Lemma strip_shorter (s : string) : String.length (strip s) <= String.length s.
Proof.
  destruct (strip_infix s) as (a & b & Hs). rewrite Hs at 2. apply infix_shorter.
Qed.

Lemma lstrip_fixed (s : string) : starts_in isspace s = false -> lstrip s = s.
Proof. destruct s as [|c s]; [reflexivity|]. simpl. now intros ->. Qed.

Lemma lstrip_head (s : string) : starts_in isspace (lstrip s) = false.
Proof.
  induction s as [|c s IH]; [reflexivity|]. simpl.
  destruct (isspace c) eqn:Hc; [exact IH | exact Hc].
Qed.

Lemma rstrip_head (s : string) :
  starts_in isspace s = false -> starts_in isspace (rstrip s) = false.
Proof.
  destruct s as [|c s]; [reflexivity|]. simpl. intros Hc. rewrite Hc.
  destruct (rstrip s); exact Hc.
Qed.

Lemma rstrip_idempotent (s : string) : rstrip (rstrip s) = rstrip s.
Proof.
  induction s as [|c s IH]; [reflexivity|]. simpl.
  destruct (rstrip s) as [|c' r] eqn:Hr.
  - destruct (isspace c) eqn:Hc; [reflexivity|]. simpl. now rewrite Hc.
  - change (rstrip (String c (String c' r))) with
      (match rstrip (String c' r) with
       | "" => if isspace c then "" else String c ""
       | r0 => String c r0
       end).
    now rewrite IH.
Qed.

Lemma strip_idempotent (s : string) : strip (strip s) = strip s.
Proof.
  unfold strip. rewrite (lstrip_fixed (rstrip (lstrip s))).
  - apply rstrip_idempotent.
  - apply rstrip_head, lstrip_head.
Qed.

(** The first piece of a split holds no separator. *)
Lemma hd_split_clean (sep s : string) :
  sep <> "" -> contains sep (hd "" (split sep s)) = false.
Proof.
  intros Hsep. rewrite hd_split by exact Hsep.
  destruct (partition sep s) as [[a b]|] eqn:Hp.
  - apply partition_first_cut in Hp. exact (first_cut_head_clean _ _ _ _ Hsep Hp).
  - rewrite contains_find. unfold partition in Hp.
    destruct (find sep s); [discriminate | reflexivity].
Qed.

Lemma split_piece_shorter (sep s x : string) :
  sep <> "" -> In x (split sep s) -> String.length x <= String.length s.
Proof.
  intros Hsep Hin. destruct (split_piece_contained sep Hsep s x Hin) as (a & b & ->).
  apply infix_shorter.
Qed.

Lemma hd_split_shorter (sep s : string) :
  sep <> "" -> String.length (hd "" (split sep s)) <= String.length s.
Proof.
  intros Hsep. rewrite hd_split by exact Hsep.
  destruct (partition sep s) as [[a b]|] eqn:Hp; [|lia].
  apply partition_first_cut in Hp as [-> _]. rewrite str_length_app. lia.
Qed.

Lemma nth_split_shorter (sep s : string) (n : nat) :
  sep <> "" -> String.length (nth n (split sep s) "") <= String.length s.
Proof.
  intros Hsep. destruct (nth_in_or_default n (split sep s) "") as [Hin | ->].
  - now apply (split_piece_shorter sep).
  - simpl. lia.
Qed.

Lemma every_app (cls : ascii -> bool) (a b : string) :
  every cls (a ++ b) = every cls a && every cls b.
Proof. induction a as [|c a IH]; simpl; [reflexivity | now rewrite IH, andb_assoc]. Qed.

Lemma every_count_zero (cls : ascii -> bool) (c : ascii) (s : string) :
  every cls s = true -> cls c = false -> count_char c s = 0.
Proof.
  intros Hs Hc. induction s as [|a s IH]; [reflexivity|]. simpl in *.
  apply andb_true_iff in Hs as [Ha Hs]. rewrite (IH Hs).
  destruct (Ascii.eqb_spec a c) as [-> | _]; [congruence | reflexivity].
Qed.

Lemma count_zero_contains (c : ascii) (s : string) :
  count_char c s = 0 -> contains (String c "") s = false.
Proof.
  induction s as [|a s IH]; [reflexivity|]. simpl.
  destruct (Ascii.eqb a c); [discriminate|]. simpl. exact IH.
Qed.

(** A head without the first character of the separator is the head of
    the leftmost cut. *)
Lemma first_cut_clean_head (c : ascii) (sep a b : string) :
  count_char c a = 0 -> first_cut (String c sep) (a ++ String c sep ++ b) a b.
Proof.
  intros Ha. split; [reflexivity|]. intros a' b' Heq.
  destruct (Nat.le_gt_cases (String.length a) (String.length a')) as [|Hlt]; [assumption|].
  exfalso. symmetry in Heq.
  destruct (app_eq_app_le _ _ _ _ Heq ltac:(lia)) as (x & -> & Hx).
  destruct x as [|ch x].
  - rewrite str_app_nil_r in Hlt. lia.
  - simpl in Hx. injection Hx as <- _.
    rewrite count_char_app in Ha. simpl in Ha. rewrite Ascii.eqb_refl in Ha. lia.
Qed.

Lemma single_line (s : string) :
  count_char (ascii_of_nat 10) s = 0 -> split newline s = [s].
Proof.
  intros H. apply split_no_sep; [discriminate|]. now apply count_zero_contains.
Qed.

Lemma split_char_app (c : ascii) (a b : string) :
  split (String c "") (a ++ String c "" ++ b)
  = (split (String c "") a ++ split (String c "") b)%list.
Proof.
  assert (Hsep : String c "" <> "") by discriminate.
  remember (String.length a) as n eqn:Hn. revert a Hn.
  induction n as [n IH] using lt_wf_ind. intros a Hn.
  rewrite (split_eq (String c "") a) by exact Hsep.
  destruct (partition (String c "") a) as [[a1 a2]|] eqn:Hp.
  - pose proof (partition_shorter _ _ _ _ Hsep Hp) as Hlt.
    apply partition_first_cut in Hp.
    pose proof (first_cut_head_clean _ _ _ _ Hsep Hp) as Hclean.
    destruct Hp as [Ha _].
    rewrite Ha, !str_app_assoc.
    rewrite (split_first_cut (String c "") _ a1 (a2 ++ String c "" ++ b) Hsep).
    + cbn [List.app]. f_equal.
      apply (IH (String.length a2)); [subst; exact Hlt | reflexivity].
    + apply first_cut_clean_head. now apply contains_char_count.
  - assert (Hc : contains (String c "") a = false).
    { rewrite contains_find. unfold partition in Hp. now destruct (find _ a). }
    rewrite (split_first_cut (String c "") _ a b Hsep); [reflexivity|].
    apply first_cut_clean_head. now apply contains_char_count.
Qed.

Lemma split_newline_app (a b : string) :
  split newline (a ++ newline ++ b) = (split newline a ++ split newline b)%list.
Proof. exact (split_char_app (ascii_of_nat 10) a b). Qed.

Lemma unlines_split (s : string) : unlines (split newline s) = s ++ newline.
Proof.
  assert (Hsep : newline <> "") by discriminate.
  remember (String.length s) as n eqn:Hn. revert s Hn.
  induction n as [n IH] using lt_wf_ind. intros s Hn.
  rewrite split_eq by exact Hsep.
  destruct (partition newline s) as [[a b]|] eqn:Hp.
  - pose proof (partition_shorter _ _ _ _ Hsep Hp) as Hlt.
    apply partition_first_cut in Hp as [Hs _].
    cbn [unlines fold_right]. fold (unlines (split newline b)).
    rewrite (IH (String.length b)); [|subst; exact Hlt | reflexivity].
    rewrite Hs. now rewrite !str_app_assoc.
  - cbn [unlines fold_right]. now rewrite str_app_nil_r.
Qed.

Lemma split_not_nil (sep s : string) : sep <> "" -> split sep s <> [].
Proof.
  intros Hsep. rewrite split_eq by exact Hsep.
  destruct (partition sep s) as [[a b]|]; discriminate.
Qed.

Lemma last_app_not_nil {A : Type} (l1 l2 : list A) (d : A) :
  l2 <> [] -> last (l1 ++ l2) d = last l2 d.
Proof.
  intros H. induction l1 as [|x l1 IH]; [reflexivity|].
  cbn [List.app]. rewrite <- IH.
  destruct (l1 ++ l2)%list eqn:Happ; [|reflexivity].
  apply app_eq_nil in Happ as [_ ->]. contradiction.
Qed.

Lemma mem_set_other (k k' : string) (v : Json) (d : Dict) :
  k' <> k -> PyDict.mem k (PyDict.set k' v d) = PyDict.mem k d.
Proof. intros H. unfold PyDict.mem. now rewrite get_set_other. Qed.

Lemma mem_update_other (k : string) (extra d : Dict) :
  PyDict.mem k extra = false -> PyDict.mem k (PyDict.update d extra) = PyDict.mem k d.
Proof.
  intros H. pose proof (get_update_other k extra d H) as Hg.
  unfold PyDict.mem in *. now rewrite Hg.
Qed.

Lemma positive_length {A : Type} (l : list A) :
  (0 <? Z.of_nat (List.length l))%Z = nonempty l.
Proof. destruct l; [reflexivity|]. simpl. reflexivity. Qed.

(** ** Every request: answers and calls *)

Lemma adds_none {E : Env} (st : St E) (d m : nat) : adds_calls st st d m.
Proof. exists []. rewrite app_nil_r. repeat split; unfold docker_calls, model_calls; simpl; lia. Qed.

Lemma adds_one {E : Env} (st : St E) (w : World E) (args : list string) (t : Z) (d m : nat) :
  (1 <= d)%nat ->
  adds_calls st {| world := w; calls := (calls st ++ [DockerExec args t])%list |} d m.
Proof. intros H. exists [DockerExec args t]. repeat split; unfold docker_calls, model_calls; simpl; lia. Qed.

Lemma adds_post {E : Env} (st : St E) (w : World E) (url prompt : string) (t : Z)
    (d m : nat) :
  (1 <= m)%nat ->
  adds_calls st {| world := w; calls := (calls st ++ [ModelPost url prompt t])%list |} d m.
Proof. intros H. exists [ModelPost url prompt t]. repeat split; unfold docker_calls, model_calls; simpl; lia. Qed.

Lemma adds_trans {E : Env} (st1 st2 st3 : St E) (d1 m1 d2 m2 : nat) :
  adds_calls st1 st2 d1 m1 -> adds_calls st2 st3 d2 m2 ->
  adds_calls st1 st3 (d1 + d2) (m1 + m2).
Proof.
  intros (a & Ha & Hda & Hma) (b & Hb & Hdb & Hmb). exists (a ++ b)%list.
  rewrite Hb, Ha, <- app_assoc. unfold docker_calls, model_calls in *.
  rewrite !filter_app, !List.length_app. repeat split; lia.
Qed.

Lemma read_file_handler_returns (E : Env) (fields : Fields) (st : St E) :
  exists d st', AiCodeFixing.read_file_handler E fields st = (Return d, st')
                /\ adds_calls st st' 1 0.
Proof.
  unfold AiCodeFixing.read_file_handler.
  destruct (file fields) as [p|]; [|eexists _, _; split; [reflexivity | apply adds_none]].
  destruct (AiCodeFixing.path_is_unsafe p);
    [eexists _, _; split; [reflexivity | apply adds_none]|].
  run_monad. destruct (subprocess_run E _ _ _) as [[r|e] w].
  - destruct (negb _); eexists _, _; (split; [reflexivity | now apply adds_one]).
  - eexists _, _; (split; [reflexivity | now apply adds_one]).
Qed.

Lemma write_file_handler_returns (E : Env) (fields : Fields) (st : St E) :
  exists d st', AiCodeFixing.write_file_handler E fields st = (Return d, st')
                /\ adds_calls st st' 1 0.
Proof.
  unfold AiCodeFixing.write_file_handler.
  destruct (file fields) as [p|]; [|eexists _, _; split; [reflexivity | apply adds_none]].
  destruct (content fields) as [c|]; [|eexists _, _; split; [reflexivity | apply adds_none]].
  destruct (AiCodeFixing.path_is_unsafe p);
    [eexists _, _; split; [reflexivity | apply adds_none]|].
  run_monad. destruct (subprocess_run E _ _ _) as [[r|e] w].
  - destruct (negb _); eexists _, _; (split; [reflexivity | now apply adds_one]).
  - eexists _, _; (split; [reflexivity | now apply adds_one]).
Qed.

Lemma backup_file_handler_returns (E : Env) (fields : Fields) (st : St E) :
  exists d st', AiCodeFixing.backup_file_handler E fields st = (Return d, st')
                /\ adds_calls st st' 1 0.
Proof.
  unfold AiCodeFixing.backup_file_handler.
  destruct (file fields) as [p|]; [|eexists _, _; split; [reflexivity | apply adds_none]].
  destruct (AiCodeFixing.path_is_unsafe p);
    [eexists _, _; split; [reflexivity | apply adds_none]|].
  run_monad. destruct (subprocess_run E _ _ _) as [[r|e] w].
  - destruct (negb _); eexists _, _; (split; [reflexivity | now apply adds_one]).
  - eexists _, _; (split; [reflexivity | now apply adds_one]).
Qed.

(** The dispatcher of the file operations answers every request: with 200,
    400 or 500, after at most one run in the container. *)
Lemma file_operation_answers (E : Env) (operation : string) (req : Request) (st : St E) :
  exists resp st',
    ContainerAPI._handle_file_operation E operation req st = (Return resp, st')
    /\ adds_calls st st' 1 0
    /\ In (status_code resp) [200; 400; 500]%Z.
Proof.
  unfold ContainerAPI._handle_file_operation.
  unfold try_except at 1.
  destruct (content_length req =? 0)%Z.
  { eexists _, _. split; [reflexivity|]. split; [apply adds_none | simpl; tauto]. }
  unfold bind at 1, lift at 1.
  destruct (body req) as [fields|e].
  2:{ destruct (exn_is e); eexists _, _;
        (split; [reflexivity|]; split; [apply adds_none | simpl; tauto]). }
  assert (H : exists d st',
             (if String.eqb operation "read-file"
              then AiCodeFixing.read_file_handler E fields
              else if String.eqb operation "write-file"
                   then AiCodeFixing.write_file_handler E fields
                   else if String.eqb operation "backup-file"
                        then AiCodeFixing.backup_file_handler E fields
                        else ret [("error", JStr "Unknown operation")]) st = (Return d, st')
             /\ adds_calls st st' 1 0).
  { destruct (String.eqb operation "read-file"); [apply read_file_handler_returns|].
    destruct (String.eqb operation "write-file"); [apply write_file_handler_returns|].
    destruct (String.eqb operation "backup-file"); [apply backup_file_handler_returns|].
    eexists _, _. split; [reflexivity | apply adds_none]. }
  destruct H as (d & st' & Hd & Hadd). unfold bind at 1. rewrite Hd.
  run_monad. eexists _, _. split; [reflexivity|]. split; [exact Hadd|].
  cbn [status_code]. destruct (negb _); simpl; tauto.
Qed.

Lemma registered_processors_run_once (E : Env) (asked : string)
    (cfg : ContainerAPI.CommandConfig E) (pp : ContainerAPI.PostProcessor E) :
  ContainerAPI.lookup E asked (ContainerAPI.COMMANDS E) = Some cfg ->
  ContainerAPI.post_processor E cfg = Some pp ->
  one_run_at_most pp.
Proof.
  rewrite COMMANDS_unfolded. unfold ContainerAPI.base_commands.
  cbn [ContainerAPI.lookup List.app].
  repeat match goal with
         | |- context [String.eqb ?a asked] => destruct (String.eqb a asked)
         end;
    intros [= <-]; cbn [ContainerAPI.post_processor]; intros [= <-]; intros result st.
  - unfold ContainerAPI.process_phpqa_result. run_monad.
    destruct (subprocess_run E _ _ _) as [[r|e] w]; [destruct (json_loads E _)|];
      now apply adds_one.
  - unfold ContainerAPI.process_cs_fix_result. run_monad.
    destruct (ContainerAPI.cs_fix_count _); apply adds_none.
  - unfold ContainerAPI.process_test_result. run_monad.
    destruct (ContainerAPI.test_metric "Tests:" _); [|apply adds_none].
    destruct (ContainerAPI.test_metric "Assertions:" _); [|apply adds_none].
    destruct (ContainerAPI.test_metric "Failures:" _); apply adds_none.
  - unfold ContainerAPI.process_test_result. run_monad.
    destruct (ContainerAPI.test_metric "Tests:" _); [|apply adds_none].
    destruct (ContainerAPI.test_metric "Assertions:" _); [|apply adds_none].
    destruct (ContainerAPI.test_metric "Failures:" _); apply adds_none.
  - unfold AiCodeFixing.process_phpcs_result. run_monad.
    destruct (subprocess_run E _ _ _) as [[r|e] w];
      [destruct (json_loads E _); [destruct (phpcs_issues E _) as [[[? ?] ?]|]|]|];
      now apply adds_one.
Qed.

(** The key of a registered command is the name its configuration carries. *)
Lemma registered_name (E : Env) (asked : string) (cfg : ContainerAPI.CommandConfig E) :
  ContainerAPI.lookup E asked (ContainerAPI.COMMANDS E) = Some cfg ->
  ContainerAPI.name E cfg = asked.
Proof.
  rewrite COMMANDS_unfolded. unfold ContainerAPI.base_commands.
  cbn [ContainerAPI.lookup List.app].
  repeat match goal with
         | |- context [String.eqb ?a asked] =>
             destruct (String.eqb_spec a asked) as [<- | _]
         end; intros [= <-]; reflexivity.
Qed.

Lemma execute_command_answers (E : Env) (cfg : ContainerAPI.CommandConfig E) (st : St E) :
  (forall pp, ContainerAPI.post_processor E cfg = Some pp -> one_run_at_most pp) ->
  exists resp st',
    ContainerAPI._execute_command E cfg st = (Return resp, st')
    /\ adds_calls st st' 2 0
    /\ In (status_code resp) [200; 408; 500]%Z.
Proof.
  intros Hpp. unfold ContainerAPI._execute_command. run_monad.
  destruct (subprocess_run E _ _ _) as [[r|e] w].
  - destruct (ContainerAPI.post_processor E cfg) as [pp|].
    + match goal with
      | |- context [pp ?r ?s] =>
          pose proof (Hpp pp eq_refl r s) as Hadd; destruct (pp r s) as [[d|e] st2]
      end; eexists _, _; (split; [reflexivity|]);
        (split; [|simpl; tauto]);
        (eapply (adds_trans _ _ _ 1 0 1 0); [apply adds_one; lia | exact Hadd]).
    + eexists _, _. split; [reflexivity|]. split; [apply adds_one; lia | simpl; tauto].
  - destruct (exn_is e); eexists _, _; (split; [reflexivity|]);
      (split; [apply adds_one; lia | simpl; tauto]).
Qed.

(** What the command server does with any POST: it answers, with one of
    five status codes, after at most two runs in the container; 404 is the
    answer to the unknown routes and to no other. *)
Lemma command_server_answers (E : Env) (req : Request) (st : St E) :
  exists resp st',
    ContainerAPI.do_POST E req st = (Return resp, st')
    /\ adds_calls st st' 2 0
    /\ In (status_code resp) [200; 400; 404; 408; 500]%Z
    /\ (status_code resp = 404%Z <->
        ContainerAPI.is_file_operation (lstrip_char "/" (path req)) = false
        /\ ContainerAPI.lookup E (lstrip_char "/" (path req)) (ContainerAPI.COMMANDS E) = None).
Proof.
  unfold ContainerAPI.do_POST.
  destruct (ContainerAPI.is_file_operation _) eqn:Hop.
  - destruct (file_operation_answers E (lstrip_char "/" (path req)) req st)
      as (resp & st' & -> & (new & Hc & Hl & Hm) & Hin).
    exists resp, st'. split; [reflexivity|]. split; [exists new; repeat split; trivial; lia|].
    split; [simpl in *; tauto|].
    split; [intros H404; simpl in Hin; lia | intros [? _]; discriminate].
  - destruct (ContainerAPI.lookup E _ _) as [cfg|] eqn:Hlook.
    + destruct (execute_command_answers E cfg st) as (resp & st' & -> & Hadd & Hin).
      { intros pp Hpp. exact (registered_processors_run_once _ _ _ _ Hlook Hpp). }
      exists resp, st'. split; [reflexivity|]. split; [exact Hadd|].
      split; [simpl in *; tauto|].
      split; [intros H404; simpl in Hin; lia | intros [_ ?]; discriminate].
    + eexists _, _. split; [reflexivity|]. split; [apply adds_none|].
      split; [simpl; tauto|]. cbn [status_code]. tauto.
Qed.

Lemma ai_file_operation_answers (E : Env) (operation : string) (req : Request) (st : St E) :
  exists resp st',
    ContainerAPIAI._handle_file_operation E operation req st = (Return resp, st')
    /\ adds_calls st st' 1 0
    /\ In (status_code resp) [200; 500]%Z.
Proof.
  unfold ContainerAPIAI._handle_file_operation, ContainerAPIAI._read_file,
    ContainerAPIAI._write_file, ContainerAPIAI._backup_file. run_monad.
  destruct (body req) as [fields|e];
    [|eexists _, _; split; [reflexivity|]; split; [apply adds_none | simpl; tauto]].
  destruct (String.eqb operation "read-file");
    [|destruct (String.eqb operation "write-file");
      [|destruct (String.eqb operation "backup-file")]];
    try (destruct (file fields) as [p|]);
    try (destruct (ContainerAPIAI.path_is_invalid (Some p)));
    try (destruct (content fields) as [c|]);
    try (destruct (subprocess_run E _ _ _) as [[r|e] w]);
    try (destruct (negb _));
    eexists _, _; (split; [reflexivity|]);
    (split; [first [apply adds_none | apply adds_one; lia] | simpl; tauto]).
Qed.

Lemma ai_fix_answers (E : Env) (req : Request) (st : St E) :
  exists resp st',
    ContainerAPIAI._handle_ai_fix E req st = (Return resp, st')
    /\ adds_calls st st' 0 1
    /\ In (status_code resp) [200; 400; 500]%Z.
Proof.
  unfold ContainerAPIAI._handle_ai_fix, post. run_monad.
  destruct (body req) as [fields|e];
    [|eexists _, _; split; [reflexivity|]; split; [apply adds_none | simpl; tauto]].
  destruct (negb (ContainerAPIAI.all_present fields));
    [eexists _, _; split; [reflexivity|]; split; [apply adds_none | simpl; tauto]|].
  destruct (file fields) as [p|], (issues fields) as [i|], (content fields) as [c|];
    try (eexists _, _; split; [reflexivity|]; split; [apply adds_none | simpl; tauto]).
  destruct (requests_post E _ _ _ _) as [[response|e] w];
    [destruct (negb _);
       [|destruct (model_json_response response) as [a|];
         [destruct (ContainerAPIAI.extract_from_reply a)|]]|];
    eexists _, _; (split; [reflexivity|]);
    (split; [apply adds_post; lia | simpl; tauto]).
Qed.

Lemma ai_execute_command_answers (E : Env) (asked : string)
    (entry : ContainerAPIAI.CommandEntry E) (st : St E) :
  ContainerAPIAI.lookup E asked (ContainerAPIAI.COMMANDS E) = Some entry ->
  exists resp st',
    ContainerAPIAI._execute_command E asked st = (Return resp, st')
    /\ adds_calls st st' 1 0
    /\ In (status_code resp) [200; 408; 500]%Z.
Proof.
  intros Hlook. unfold ContainerAPIAI._execute_command. rewrite Hlook.
  assert (Hpp : forall pp, ContainerAPIAI.post_processor E entry = Some pp ->
                           forall r s, exists d, pp r s = (Return d, s)).
  { revert Hlook. unfold ContainerAPIAI.COMMANDS. cbn [ContainerAPIAI.lookup].
    repeat match goal with
           | |- context [String.eqb ?a asked] => destruct (String.eqb a asked)
           end;
      intros [= <-] pp; cbn [ContainerAPIAI.post_processor]; intros [= <-] r s.
    unfold ContainerAPIAI.process_phpcs_detailed. run_monad.
    destruct (json_loads E _); [destruct (phpcs_issues_detailed E _) as [[[? ?] ?]|]|];
      eexists; reflexivity. }
  run_monad. destruct (subprocess_run E _ _ _) as [[r|e] w].
  - destruct (ContainerAPIAI.post_processor E entry) as [pp|].
    + match goal with
      | |- context [pp ?r ?s] => destruct (Hpp pp eq_refl r s) as [d ->]
      end.
      eexists _, _. split; [reflexivity|]. split; [apply adds_one; lia | simpl; tauto].
    + eexists _, _. split; [reflexivity|]. split; [apply adds_one; lia | simpl; tauto].
  - destruct (exn_is e); eexists _, _; (split; [reflexivity|]);
      (split; [apply adds_one; lia | simpl; tauto]).
Qed.

Lemma ai_registered_route (E : Env) (asked : string) (entry : ContainerAPIAI.CommandEntry E) :
  ContainerAPIAI.lookup E asked (ContainerAPIAI.COMMANDS E) = Some entry ->
  existsb (String.eqb asked) ContainerAPIAI.file_operations = false
  /\ String.eqb asked "ai-fix-code" = false.
Proof.
  unfold ContainerAPIAI.COMMANDS. cbn [ContainerAPIAI.lookup].
  repeat match goal with
         | |- context [String.eqb ?a asked] =>
             destruct (String.eqb_spec a asked) as [<- | _]
         end; try discriminate; intros _; split; reflexivity.
Qed.

Lemma ai_server_answers (E : Env) (req : Request) (st : St E) :
  exists resp st',
    ContainerAPIAI.do_POST E req st = (Return resp, st')
    /\ (if String.eqb (lstrip_char "/" (path req)) "ai-fix-code"
        then adds_calls st st' 0 1 else adds_calls st st' 1 0)
    /\ In (status_code resp) [200; 400; 404; 408; 500]%Z
    /\ (status_code resp = 404%Z <->
        existsb (String.eqb (lstrip_char "/" (path req))) ContainerAPIAI.file_operations = false
        /\ String.eqb (lstrip_char "/" (path req)) "ai-fix-code" = false
        /\ ContainerAPIAI.lookup E (lstrip_char "/" (path req)) (ContainerAPIAI.COMMANDS E)
           = None).
Proof.
  unfold ContainerAPIAI.do_POST.
  destruct (existsb _ ContainerAPIAI.file_operations) eqn:Hop.
  - destruct (ai_file_operation_answers E (lstrip_char "/" (path req)) req st)
      as (resp & st' & -> & Hadd & Hin).
    exists resp, st'. split; [reflexivity|].
    split.
    { destruct (String.eqb_spec (lstrip_char "/" (path req)) "ai-fix-code") as [Heq|_];
        [rewrite Heq in Hop; discriminate | exact Hadd]. }
    split; [simpl in *; tauto|].
    split; [intros H404; simpl in Hin; lia | intros [? _]; discriminate].
  - destruct (String.eqb (lstrip_char "/" (path req)) "ai-fix-code") eqn:Hfix.
    + destruct (ai_fix_answers E req st) as (resp & st' & -> & Hadd & Hin).
      exists resp, st'. split; [reflexivity|]. split; [exact Hadd|].
      split; [simpl in *; tauto|].
      split; [intros H404; simpl in Hin; lia | intros (_ & ? & _); discriminate].
    + destruct (ContainerAPIAI.lookup E _ _) as [entry|] eqn:Hlook.
      * destruct (ai_execute_command_answers E _ entry st Hlook)
          as (resp & st' & -> & Hadd & Hin).
        exists resp, st'. split; [reflexivity|]. split; [exact Hadd|].
        split; [simpl in *; tauto|].
        split; [intros H404; simpl in Hin; lia | intros (_ & _ & ?); discriminate].
      * eexists _, _. split; [reflexivity|]. split; [apply adds_none|].
        split; [simpl; tauto|]. cbn [status_code ContainerAPIAI._send_error]. tauto.
Qed.

(** X1.  Neither server lets an exception out of [do_POST]: every POST is
    answered, with one of the status codes 200, 400, 404, 408 and 500, and
    404 is the answer to the routes the server does not know and to no
    other. *)
Theorem every_post_is_answered (E : Env) (req : Request) (st : St E) :
  (exists resp st',
     ContainerAPI.do_POST E req st = (Return resp, st')
     /\ In (status_code resp) [200; 400; 404; 408; 500]%Z
     /\ (status_code resp = 404%Z <->
         ContainerAPI.is_file_operation (lstrip_char "/" (path req)) = false
         /\ ContainerAPI.lookup E (lstrip_char "/" (path req)) (ContainerAPI.COMMANDS E)
            = None))
  /\
  (exists resp st',
     ContainerAPIAI.do_POST E req st = (Return resp, st')
     /\ In (status_code resp) [200; 400; 404; 408; 500]%Z
     /\ (status_code resp = 404%Z <->
         existsb (String.eqb (lstrip_char "/" (path req))) ContainerAPIAI.file_operations
         = false
         /\ String.eqb (lstrip_char "/" (path req)) "ai-fix-code" = false
         /\ ContainerAPIAI.lookup E (lstrip_char "/" (path req)) (ContainerAPIAI.COMMANDS E)
            = None)).
Proof.
  split.
  - destruct (command_server_answers E req st) as (resp & st' & H & _ & Hin & H404).
    now exists resp, st'.
  - destruct (ai_server_answers E req st) as (resp & st' & H & _ & Hin & H404).
    now exists resp, st'.
Qed.

(** X2.  One POST to the command server runs at most two commands in the
    container and never asks the model.  One POST to the AI code fixing
    server makes at most one call: a request to the model on the route
    [ai-fix-code], which never touches the container, and a run in the
    container on every other route. *)
Theorem calls_of_a_request_are_bounded (E : Env) (req : Request) (st : St E) :
  adds_calls st (snd (ContainerAPI.do_POST E req st)) 2 0
  /\ (if String.eqb (lstrip_char "/" (path req)) "ai-fix-code"
      then adds_calls st (snd (ContainerAPIAI.do_POST E req st)) 0 1
      else adds_calls st (snd (ContainerAPIAI.do_POST E req st)) 1 0).
Proof.
  split.
  - destruct (command_server_answers E req st) as (resp & st' & -> & H & _). exact H.
  - destruct (ai_server_answers E req st) as (resp & st' & -> & H & _). exact H.
Qed.

Lemma only_none {E : Env} (st : St E) : adds_only_expected st st.
Proof. exists []. rewrite app_nil_r. split; [reflexivity | constructor]. Qed.

Lemma only_docker {E : Env} (st : St E) (w : World E) (script : string) (t : Z) :
  (10 <= t <= 3600)%Z ->
  adds_only_expected st
    {| world := w;
       calls := (calls st ++ [DockerExec ["docker"; "exec"; "master-nextcloud-1"; "bash";
                                          "-c"; script] t])%list |}.
Proof.
  intros H. eexists. split; [reflexivity|]. constructor; [|constructor].
  split; [now exists script | exact H].
Qed.

Lemma only_post {E : Env} (st : St E) (w : World E) (prompt : string) :
  adds_only_expected st
    {| world := w;
       calls := (calls st ++ [ModelPost "http://localhost:11434/api/generate" prompt 60])%list |}.
Proof.
  eexists. split; [reflexivity|]. constructor; [|constructor]. split; reflexivity.
Qed.

Lemma only_trans {E : Env} (st1 st2 st3 : St E) :
  adds_only_expected st1 st2 -> adds_only_expected st2 st3 -> adds_only_expected st1 st3.
Proof.
  intros (a & Ha & HPa) (b & Hb & HPb). exists (a ++ b)%list.
  rewrite Hb, Ha, <- app_assoc. split; [reflexivity | now apply Forall_app].
Qed.

Ltac only_step := first [apply only_none | apply only_docker; lia | apply only_post].

Lemma file_handlers_call_as_expected (E : Env) (fields : Fields) (st : St E) :
  adds_only_expected st (snd (AiCodeFixing.read_file_handler E fields st))
  /\ adds_only_expected st (snd (AiCodeFixing.write_file_handler E fields st))
  /\ adds_only_expected st (snd (AiCodeFixing.backup_file_handler E fields st)).
Proof.
  unfold AiCodeFixing.read_file_handler, AiCodeFixing.write_file_handler,
    AiCodeFixing.backup_file_handler.
  destruct (file fields) as [p|], (content fields) as [c|];
    try destruct (AiCodeFixing.path_is_unsafe p); run_monad; repeat split;
    try (destruct (subprocess_run E _ _ _) as [[r|e] w]; [destruct (negb _)|]);
    only_step.
Qed.

Lemma registered_timeout (E : Env) (asked : string) (cfg : ContainerAPI.CommandConfig E) :
  ContainerAPI.lookup E asked (ContainerAPI.COMMANDS E) = Some cfg ->
  (10 <= ContainerAPI.timeout E cfg <= 3600)%Z.
Proof.
  rewrite COMMANDS_unfolded. unfold ContainerAPI.base_commands.
  cbn [ContainerAPI.lookup List.app].
  repeat match goal with
         | |- context [String.eqb ?a asked] => destruct (String.eqb a asked)
         end; intros [= <-]; cbn [ContainerAPI.timeout]; lia.
Qed.

Lemma registered_processors_call_as_expected (E : Env) (asked : string)
    (cfg : ContainerAPI.CommandConfig E) (pp : ContainerAPI.PostProcessor E) :
  ContainerAPI.lookup E asked (ContainerAPI.COMMANDS E) = Some cfg ->
  ContainerAPI.post_processor E cfg = Some pp ->
  forall result st, adds_only_expected st (snd (pp result st)).
Proof.
  rewrite COMMANDS_unfolded. unfold ContainerAPI.base_commands.
  cbn [ContainerAPI.lookup List.app].
  repeat match goal with
         | |- context [String.eqb ?a asked] => destruct (String.eqb a asked)
         end;
    intros [= <-]; cbn [ContainerAPI.post_processor]; intros [= <-]; intros result st.
  - unfold ContainerAPI.process_phpqa_result. run_monad.
    destruct (subprocess_run E _ _ _) as [[r|e] w]; [destruct (json_loads E _)|];
      only_step.
  - unfold ContainerAPI.process_cs_fix_result. run_monad.
    destruct (ContainerAPI.cs_fix_count _); only_step.
  - unfold ContainerAPI.process_test_result. run_monad.
    destruct (ContainerAPI.test_metric "Tests:" _); [|only_step].
    destruct (ContainerAPI.test_metric "Assertions:" _); [|only_step].
    destruct (ContainerAPI.test_metric "Failures:" _); only_step.
  - unfold ContainerAPI.process_test_result. run_monad.
    destruct (ContainerAPI.test_metric "Tests:" _); [|only_step].
    destruct (ContainerAPI.test_metric "Assertions:" _); [|only_step].
    destruct (ContainerAPI.test_metric "Failures:" _); only_step.
  - unfold AiCodeFixing.process_phpcs_result. run_monad.
    destruct (subprocess_run E _ _ _) as [[r|e] w];
      [destruct (json_loads E _); [destruct (phpcs_issues E _) as [[[? ?] ?]|]|]|];
      only_step.
Qed.

Lemma command_server_calls_as_expected (E : Env) (req : Request) (st : St E) :
  adds_only_expected st (snd (ContainerAPI.do_POST E req st)).
Proof.
  unfold ContainerAPI.do_POST.
  destruct (ContainerAPI.is_file_operation _).
  - unfold ContainerAPI._handle_file_operation.
    destruct (file_handlers_call_as_expected E
                (match body req with Return f => f | Raise _ => file_only None end) st)
      as (Hr & Hw & Hb).
    run_monad.
    destruct (content_length req =? 0)%Z; [only_step|].
    destruct (body req) as [fields|e]; [|destruct (exn_is e); only_step].
    destruct (String.eqb _ "read-file");
      [|destruct (String.eqb _ "write-file"); [|destruct (String.eqb _ "backup-file")]].
    + destruct (AiCodeFixing.read_file_handler E fields st) as [[d|e] st'];
        [|destruct (exn_is e)]; exact Hr.
    + destruct (AiCodeFixing.write_file_handler E fields st) as [[d|e] st'];
        [|destruct (exn_is e)]; exact Hw.
    + destruct (AiCodeFixing.backup_file_handler E fields st) as [[d|e] st'];
        [|destruct (exn_is e)]; exact Hb.
    + only_step.
  - destruct (ContainerAPI.lookup E _ _) as [cfg|] eqn:Hlook; [|only_step].
    pose proof (registered_timeout _ _ _ Hlook) as Ht.
    pose proof (fun pp => registered_processors_call_as_expected _ _ _ pp Hlook) as Hpp.
    unfold ContainerAPI._execute_command. run_monad.
    destruct (subprocess_run E _ _ _) as [[r|e] w].
    + destruct (ContainerAPI.post_processor E cfg) as [pp|].
      * match goal with
        | |- context [pp ?r ?s] =>
            pose proof (Hpp pp eq_refl r s) as Hadd; destruct (pp r s) as [[d|e] st2]
        end; (eapply only_trans; [apply only_docker; exact Ht | exact Hadd]).
      * apply only_docker; exact Ht.
    + destruct (exn_is e); apply only_docker; exact Ht.
Qed.

Lemma ai_server_calls_as_expected (E : Env) (req : Request) (st : St E) :
  adds_only_expected st (snd (ContainerAPIAI.do_POST E req st)).
Proof.
  unfold ContainerAPIAI.do_POST.
  destruct (existsb _ ContainerAPIAI.file_operations).
  - unfold ContainerAPIAI._handle_file_operation, ContainerAPIAI._read_file,
      ContainerAPIAI._write_file, ContainerAPIAI._backup_file. run_monad.
    destruct (body req) as [fields|e]; [|only_step].
    destruct (String.eqb _ "read-file");
      [|destruct (String.eqb _ "write-file");
        [|destruct (String.eqb _ "backup-file")]];
      try (destruct (file fields) as [p|]);
      try (destruct (ContainerAPIAI.path_is_invalid (Some p)));
      try (destruct (content fields) as [c|]);
      try (destruct (subprocess_run E _ _ _) as [[r|e] w]);
      try (destruct (negb _));
      only_step.
  - destruct (String.eqb _ "ai-fix-code").
    + unfold ContainerAPIAI._handle_ai_fix, post. run_monad.
      destruct (body req) as [fields|e]; [|only_step].
      destruct (negb (ContainerAPIAI.all_present fields)); [only_step|].
      destruct (file fields) as [p|], (issues fields) as [i|], (content fields) as [c|];
        try only_step.
      destruct (requests_post E _ _ _ _) as [[response|e] w];
        [destruct (negb _);
           [|destruct (model_json_response response) as [a|];
             [destruct (ContainerAPIAI.extract_from_reply a)|]]|];
        apply only_post.
    + destruct (ContainerAPIAI.lookup E _ _) as [entry|] eqn:Hlook; [|only_step].
      unfold ContainerAPIAI._execute_command. rewrite Hlook.
      assert (Ht : (10 <= ContainerAPIAI.timeout E entry <= 3600)%Z
                   /\ forall pp, ContainerAPIAI.post_processor E entry = Some pp ->
                                 forall r s, exists d, pp r s = (d, s)).
      { revert Hlook. unfold ContainerAPIAI.COMMANDS. cbn [ContainerAPIAI.lookup].
        repeat match goal with
               | |- context [String.eqb ?a ?b] => destruct (String.eqb a b)
               end;
          intros [= <-]; (split; [cbn [ContainerAPIAI.timeout]; lia|]);
          intros pp; cbn [ContainerAPIAI.post_processor]; intros [= <-] r s.
        unfold ContainerAPIAI.process_phpcs_detailed. run_monad.
        destruct (json_loads E _); [destruct (phpcs_issues_detailed E _) as [[[? ?] ?]|]|];
          eexists; reflexivity. }
      destruct Ht as [Ht Hpp]. run_monad.
      destruct (subprocess_run E _ _ _) as [[r|e] w].
      * destruct (ContainerAPIAI.post_processor E entry) as [pp|].
        -- match goal with
           | |- context [pp ?r ?s] => destruct (Hpp pp eq_refl r s) as [[d|e] ->]
           end; [|destruct (exn_is e)]; apply only_docker; exact Ht.
        -- apply only_docker; exact Ht.
      * destruct (exn_is e); apply only_docker; exact Ht.
Qed.

(** X3.  Whatever the request, all that leaves either server is
    [docker exec master-nextcloud-1 bash -c script] with a timeout between
    10 and 3600 seconds, and requests to the model service at
    [http://localhost:11434/api/generate] with a timeout of 60 seconds. *)
Theorem only_expected_calls_leave (E : Env) (req : Request) (st : St E) :
  adds_only_expected st (snd (ContainerAPI.do_POST E req st))
  /\ adds_only_expected st (snd (ContainerAPIAI.do_POST E req st)).
Proof.
  split; [apply command_server_calls_as_expected | apply ai_server_calls_as_expected].
Qed.

(** ** Routes: the 404 answer and [GET /] *)

Lemma lookup_in_iff (E : Env) (n : string) (cmds : list (string * ContainerAPI.CommandConfig E)) :
  In n (map fst cmds) <-> exists cfg, ContainerAPI.lookup E n cmds = Some cfg.
Proof.
  split.
  - intros Hin. destruct (ContainerAPI.lookup E n cmds) as [cfg|] eqn:Hl; [now exists cfg|].
    exfalso. exact (lookup_None_not_in _ _ _ Hl Hin).
  - intros [cfg Hl]. exact (lookup_Some_in _ _ _ _ Hl).
Qed.

Lemma available_commands_distinct (E : Env) :
  NoDup (map fst (ContainerAPI.COMMANDS E) ++ ContainerAPI.file_operations)%list.
Proof.
  rewrite COMMANDS_unfolded. cbn [map fst List.app ContainerAPI.base_commands
                                  ContainerAPI.file_operations].
  unfold ContainerAPI.file_operations.
  repeat (constructor; [cbn [In]; intuition discriminate|]). constructor.
Qed.

(** X4.  The 404 answer of the command server names the route that was
    asked for and lists the available commands: the list has no name twice
    and holds exactly the routes the server serves, which are the registered
    commands and the three file operations. *)
Theorem not_found_lists_the_served_routes (E : Env) (req : Request) (st : St E) :
  ContainerAPI.is_file_operation (lstrip_char "/" (path req)) = false ->
  ContainerAPI.lookup E (lstrip_char "/" (path req)) (ContainerAPI.COMMANDS E) = None ->
  exists available,
    ContainerAPI.do_POST E req st
    = (Return {| status_code := 404;
                 payload := [("error", JStr ("Unknown command: "
                                             ++ lstrip_char "/" (path req)));
                             ("available_commands", JList (map JStr available))] |}, st)
    /\ NoDup available
    /\ (forall n,
          In n available <->
          ContainerAPI.is_file_operation n = true
          \/ exists cfg, ContainerAPI.lookup E n (ContainerAPI.COMMANDS E) = Some cfg).
Proof.
  intros Hop Hlook.
  exists (map fst (ContainerAPI.COMMANDS E) ++ ContainerAPI.file_operations)%list.
  split; [|split].
  - unfold ContainerAPI.do_POST. rewrite Hop, Hlook. reflexivity.
  - apply available_commands_distinct.
  - intros n. rewrite in_app_iff, lookup_in_iff. unfold ContainerAPI.is_file_operation.
    rewrite existsb_exists. split.
    + intros [H | H]; [now right | left]. exists n. split; [exact H | apply String.eqb_refl].
    + intros [(x & Hx & Heq) | H]; [right | now left].
      apply String.eqb_eq in Heq. now subst x.
Qed.

Lemma not_found_witness :
  exists available,
    ContainerAPI.do_POST phpstan_env (post_command "phpunit") (Double.start phpstan_env tt)
    = (Return {| status_code := 404;
                 payload := [("error", JStr "Unknown command: phpunit");
                             ("available_commands", JList (map JStr available))] |},
       Double.start phpstan_env tt)
    /\ NoDup available
    /\ (forall n,
          In n available <->
          ContainerAPI.is_file_operation n = true
          \/ exists cfg,
               ContainerAPI.lookup phpstan_env n (ContainerAPI.COMMANDS phpstan_env)
               = Some cfg).
Proof.
  apply (not_found_lists_the_served_routes phpstan_env (post_command "phpunit")
           (Double.start phpstan_env tt)); reflexivity.
Defined.

Lemma get_endpoints_main (E : Env) (cmds : list (string * ContainerAPI.CommandConfig E))
    (name : string) :
  PyDict.mem ("POST /" ++ name)
    (map (fun kv => ("POST /" ++ fst kv, JStr (ContainerAPI.description E (snd kv)))) cmds)
  = match ContainerAPI.lookup E name cmds with Some _ => true | None => false end.
Proof.
  unfold PyDict.mem. induction cmds as [|[k c] cmds IH]; [reflexivity|].
  cbn [map fst snd PyDict.get ContainerAPI.lookup].
  change (String.eqb ("POST /" ++ k) ("POST /" ++ name)) with (String.eqb k name).
  destruct (String.eqb k name); [reflexivity | exact IH].
Qed.

Lemma get_endpoints_ai (E : Env) (cmds : list (string * ContainerAPIAI.CommandEntry E))
    (rest : Dict) (name : string) :
  PyDict.mem ("POST /" ++ name)
    (List.app
       (map (fun kv => ("POST /" ++ fst kv, JStr (ContainerAPIAI.description E (snd kv)))) cmds)
       rest)
  = match ContainerAPIAI.lookup E name cmds with
    | Some _ => true
    | None => PyDict.mem ("POST /" ++ name) rest
    end.
Proof.
  unfold PyDict.mem. induction cmds as [|[k c] cmds IH]; [reflexivity|].
  cbn [map fst snd PyDict.get ContainerAPIAI.lookup List.app].
  change (String.eqb ("POST /" ++ k) ("POST /" ++ name)) with (String.eqb k name).
  destruct (String.eqb k name); [reflexivity | exact IH].
Qed.

Lemma advertised_main (E : Env) (name : string) :
  advertised (get_payload (ContainerAPI.do_GET E "/")) name
  = match ContainerAPI.lookup E name (ContainerAPI.COMMANDS E) with
    | Some _ => true
    | None => false
    end.
Proof.
  rewrite <- get_endpoints_main. reflexivity.
Qed.

Lemma advertised_ai (E : Env) (name : string) :
  advertised (Some (payload (ContainerAPIAI.do_GET E "/"))) name
  = match ContainerAPIAI.lookup E name (ContainerAPIAI.COMMANDS E) with
    | Some _ => true
    | None => existsb (String.eqb name) ContainerAPIAI.file_operations
              || String.eqb name "ai-fix-code"
    end.
Proof.
  transitivity
    (PyDict.mem ("POST /" ++ name)
       (List.app
          (map (fun kv => ("POST /" ++ fst kv, JStr (ContainerAPIAI.description E (snd kv))))
               (ContainerAPIAI.COMMANDS E))
          [("POST /read-file", JStr "Read a file (body: {file: 'path'})");
           ("POST /write-file", JStr "Write a file (body: {file: 'path', content: '...'})");
           ("POST /backup-file", JStr "Backup a file (body: {file: 'path'})");
           ("POST /ai-fix-code", JStr "Fix code with AI (body: {file, issues, content})")]));
    [reflexivity|].
  rewrite get_endpoints_ai. destruct (ContainerAPIAI.lookup E name _); [reflexivity|].
  unfold PyDict.mem. cbn [PyDict.get ContainerAPIAI.file_operations existsb].
  change (String.eqb "POST /read-file" ("POST /" ++ name)) with (String.eqb "read-file" name).
  change (String.eqb "POST /write-file" ("POST /" ++ name)) with (String.eqb "write-file" name).
  change (String.eqb "POST /backup-file" ("POST /" ++ name)) with (String.eqb "backup-file" name).
  change (String.eqb "POST /ai-fix-code" ("POST /" ++ name)) with (String.eqb "ai-fix-code" name).
  rewrite !(String.eqb_sym name).
  destruct (String.eqb "read-file" name), (String.eqb "write-file" name),
    (String.eqb "backup-file" name), (String.eqb "ai-fix-code" name); reflexivity.
Qed.

(** X5.  What [GET /] advertises is served.  On the command server a POST
    to an advertised route is never answered 404, while the three file
    operations are served without being advertised; on the AI code fixing
    server a route is advertised exactly when a POST to it is not answered
    404.  A GET of any other path is answered 404, by the command server
    without a body. *)
Theorem advertised_endpoints_are_served (E : Env) (req : Request) (st : St E) :
  (advertised (get_payload (ContainerAPI.do_GET E "/")) (lstrip_char "/" (path req)) = true ->
   code_of (fst (ContainerAPI.do_POST E req st)) <> Some 404%Z)
  /\ (ContainerAPI.is_file_operation (lstrip_char "/" (path req)) = true ->
      advertised (get_payload (ContainerAPI.do_GET E "/")) (lstrip_char "/" (path req)) = false
      /\ code_of (fst (ContainerAPI.do_POST E req st)) <> Some 404%Z)
  /\ (advertised (Some (payload (ContainerAPIAI.do_GET E "/"))) (lstrip_char "/" (path req))
      = true
      <-> code_of (fst (ContainerAPIAI.do_POST E req st)) <> Some 404%Z)
  /\ (forall p, p <> "/" ->
      ContainerAPI.do_GET E p = {| get_status_code := 404; get_payload := None |}
      /\ ContainerAPIAI.do_GET E p
         = {| status_code := 404; payload := [("error", JStr "Not found")] |}).
Proof.
  destruct (command_server_answers E req st) as (resp & st' & Hpost & _ & _ & H404).
  destruct (ai_server_answers E req st) as (resp' & st'' & Hpost' & _ & _ & H404').
  rewrite Hpost, Hpost'. cbn [fst code_of]. rewrite advertised_main, advertised_ai.
  split; [|split; [|split]].
  - destruct (ContainerAPI.lookup E _ _) eqn:Hl; [|discriminate].
    intros _ [= H]. apply H404 in H as [_ H]. discriminate.
  - intros Hop. split.
    + destruct (ContainerAPI.lookup E _ _) eqn:Hl; [|reflexivity].
      rewrite (registered_is_no_file_operation _ _ _ Hl) in Hop. discriminate.
    + intros [= H]. apply H404 in H as [H _]. congruence.
  - split.
    + intros Hadv [= H]. apply H404' in H as (H1 & H2 & H3).
      rewrite H3, H1, H2 in Hadv. discriminate.
    + intros Hcode. destruct (ContainerAPIAI.lookup E _ _) eqn:Hl; [reflexivity|].
      destruct (existsb _ _) eqn:H1; [reflexivity|].
      destruct (String.eqb _ "ai-fix-code") eqn:H2; [reflexivity|].
      exfalso. apply Hcode. f_equal. apply H404'. auto.
  - intros p Hp. apply String.eqb_neq in Hp.
    unfold ContainerAPI.do_GET, ContainerAPIAI.do_GET. rewrite Hp. split; reflexivity.
Qed.

Lemma advertised_endpoints_witness :
  advertised (get_payload (ContainerAPI.do_GET phpstan_env "/")) "phpstan" = true
  /\ code_of (fst (ContainerAPI.do_POST phpstan_env (post_command "phpstan")
                     (Double.start phpstan_env tt))) <> Some 404%Z.
Proof.
  split; [reflexivity|].
  apply (proj1 (advertised_endpoints_are_served phpstan_env (post_command "phpstan")
                  (Double.start phpstan_env tt))).
  reflexivity.
Defined.

(** ** Commands: failed runs and post-processors *)

(** X6.  When the run of a registered command raises, no post-processor
    runs and the exception is reported: a timeout as 408, on the command
    server with the registered timeout in the text, any other exception as
    500 with its text; the command server adds the name of the command. *)
Theorem failed_run_is_reported (E : Env) (req : Request) (st : St E) (e : exn)
    (w1 : World E) :
  (forall cfg,
     ContainerAPI.lookup E (lstrip_char "/" (path req)) (ContainerAPI.COMMANDS E) = Some cfg ->
     subprocess_run E (command_script (ContainerAPI.command E cfg))
       (ContainerAPI.timeout E cfg) (world st) = (Raise e, w1) ->
     ContainerAPI.do_POST E req st
     = (Return
          match exn_is e with
          | TimeoutExpired =>
              {| status_code := 408;
                 payload :=
                   [("error", JStr ("Request timeout after "
                                    ++ str_of_int (ContainerAPI.timeout E cfg) ++ " seconds"));
                    ("command", JStr (lstrip_char "/" (path req)))] |}
          | _ =>
              {| status_code := 500;
                 payload := [("error", JStr (exn_str e));
                             ("command", JStr (lstrip_char "/" (path req)))] |}
          end,
        {| world := w1;
           calls := (calls st ++ [DockerExec (command_script (ContainerAPI.command E cfg))
                                             (ContainerAPI.timeout E cfg)])%list |}))
  /\
  (forall entry,
     ContainerAPIAI.lookup E (lstrip_char "/" (path req)) (ContainerAPIAI.COMMANDS E)
     = Some entry ->
     subprocess_run E (command_script (ContainerAPIAI.command E entry))
       (ContainerAPIAI.timeout E entry) (world st) = (Raise e, w1) ->
     ContainerAPIAI.do_POST E req st
     = (Return
          match exn_is e with
          | TimeoutExpired => {| status_code := 408; payload := [("error", JStr "Timeout")] |}
          | _ => {| status_code := 500; payload := [("error", JStr (exn_str e))] |}
          end,
        {| world := w1;
           calls := (calls st ++ [DockerExec (command_script (ContainerAPIAI.command E entry))
                                             (ContainerAPIAI.timeout E entry)])%list |})).
Proof.
  split.
  - intros cfg Hlook Hrun. unfold ContainerAPI.do_POST.
    rewrite (registered_is_no_file_operation _ _ _ Hlook), Hlook.
    unfold ContainerAPI._execute_command, command_script in *. run_monad.
    rewrite Hrun, (registered_name _ _ _ Hlook). destruct (exn_is e); reflexivity.
  - intros entry Hlook Hrun. unfold ContainerAPIAI.do_POST.
    destruct (ai_registered_route _ _ _ Hlook) as [-> ->]. rewrite Hlook.
    unfold ContainerAPIAI._execute_command, command_script in *. rewrite Hlook. run_monad.
    rewrite Hrun. destruct (exn_is e); reflexivity.
Qed.

Lemma failed_run_witness :
  ContainerAPI.do_POST timeout_env (post_command "phpqa") (Double.start timeout_env tt)
  = (Return {| status_code := 408;
               payload := [("error", JStr "Request timeout after 300 seconds");
                           ("command", JStr "phpqa")] |},
     Double.after timeout_env tt [DockerExec (command_script "composer phpqa") 300])
  /\ ContainerAPIAI.do_POST timeout_env (post_command "phpqa") (Double.start timeout_env tt)
     = (Return {| status_code := 408; payload := [("error", JStr "Timeout")] |},
        Double.after timeout_env tt [DockerExec (command_script "composer phpqa") 300]).
Proof.
  split.
  - apply (proj1 (failed_run_is_reported timeout_env (post_command "phpqa")
                    (Double.start timeout_env tt)
                    (Exn TimeoutExpired "Command timed out after 300 seconds") tt)
             {| ContainerAPI.name := "phpqa"; ContainerAPI.command := "composer phpqa";
                ContainerAPI.timeout := 300;
                ContainerAPI.description :=
                  "Run full PHPQA analysis suite (PHPCS, PHPMD, PHPStan, Psalm, PHPMetrics)";
                ContainerAPI.post_processor :=
                  Some (ContainerAPI.process_phpqa_result timeout_env) |});
      reflexivity.
  - apply (proj2 (failed_run_is_reported timeout_env (post_command "phpqa")
                    (Double.start timeout_env tt)
                    (Exn TimeoutExpired "Command timed out after 300 seconds") tt)
             {| ContainerAPIAI.command := "composer phpqa"; ContainerAPIAI.timeout := 300;
                ContainerAPIAI.description := "Run full PHPQA suite";
                ContainerAPIAI.post_processor := None |});
      reflexivity.
Defined.

(** The post-processors that catch every exception themselves. *)
Lemma catching_processors (E : Env) (asked : string) (cfg : ContainerAPI.CommandConfig E)
    (pp : ContainerAPI.PostProcessor E) :
  ContainerAPI.lookup E asked (ContainerAPI.COMMANDS E) = Some cfg ->
  asked <> "cs-fix" -> asked <> "test-unit" -> asked <> "test-integration" ->
  ContainerAPI.post_processor E cfg = Some pp ->
  forall result st, exists d st',
    pp result st = (Return d, st') /\ PyDict.mem "post_processor_error" d = false.
Proof.
  rewrite COMMANDS_unfolded. unfold ContainerAPI.base_commands.
  cbn [ContainerAPI.lookup List.app].
  repeat match goal with
         | |- context [String.eqb ?a asked] =>
             destruct (String.eqb_spec a asked) as [<- | _]
         end;
    intros [= <-] H1 H2 H3; try congruence;
    cbn [ContainerAPI.post_processor]; intros [= <-] result st.
  - unfold ContainerAPI.process_phpqa_result. run_monad.
    destruct (subprocess_run E _ _ _) as [[r|e] w]; [destruct (json_loads E _)|];
      eexists _, _; split; reflexivity.
  - unfold AiCodeFixing.process_phpcs_result. run_monad.
    destruct (subprocess_run E _ _ _) as [[r|e] w];
      [destruct (json_loads E _); [destruct (phpcs_issues E _) as [[[? ?] ?]|]|]|];
      eexists _, _; split; reflexivity.
Qed.

(** X7.  The field [post_processor_error] can only come with [cs-fix],
    [test-unit] and [test-integration]: no answer of the command server to
    another registered command has it. *)
Theorem post_processor_error_is_textual_only (E : Env) (req : Request) (st : St E)
    (cfg : ContainerAPI.CommandConfig E) (resp : HttpResponse) :
  ContainerAPI.lookup E (lstrip_char "/" (path req)) (ContainerAPI.COMMANDS E) = Some cfg ->
  lstrip_char "/" (path req) <> "cs-fix" ->
  lstrip_char "/" (path req) <> "test-unit" ->
  lstrip_char "/" (path req) <> "test-integration" ->
  fst (ContainerAPI.do_POST E req st) = Return resp ->
  PyDict.mem "post_processor_error" (payload resp) = false.
Proof.
  intros Hlook H1 H2 H3. unfold ContainerAPI.do_POST.
  rewrite (registered_is_no_file_operation _ _ _ Hlook), Hlook.
  pose proof (fun pp => catching_processors E _ cfg pp Hlook H1 H2 H3) as Hpp.
  unfold ContainerAPI._execute_command. run_monad.
  destruct (subprocess_run E _ _ _) as [[r|e] w].
  - destruct (ContainerAPI.post_processor E cfg) as [pp|].
    + match goal with
      | |- context [pp ?r ?s] => destruct (Hpp pp eq_refl r s) as (d & st' & -> & Hd)
      end.
      cbn [fst]. intros [= <-]. cbn [payload]. now rewrite mem_update_other.
    + cbn [fst]. intros [= <-]. reflexivity.
  - destruct (exn_is e); cbn [fst]; intros [= <-]; reflexivity.
Qed.

Lemma post_processor_error_witness :
  PyDict.mem "post_processor_error"
    [("timestamp", JStr "2025-01-01T00:00:00Z");
     ("command", JStr "phpcs-detailed");
     ("full_command", JStr "./vendor/bin/phpcs --report=json --standard=PSR12 lib/");
     ("status", JStr "success");
     ("exit_code", JInt 0);
     ("output", JStr "");
     ("container", JStr "master-nextcloud-1");
     ("phpcs_issues", JList []);
     ("error", JStr ("Failed to parse PHPCS output: "
                     ++ "Expecting value: line 1 column 1 (char 0)"))] = false.
Proof.
  apply (post_processor_error_is_textual_only silent_phpcs_env (post_command "phpcs-detailed")
           (Double.start silent_phpcs_env tt)
           {| ContainerAPI.name := "phpcs-detailed";
              ContainerAPI.command := "./vendor/bin/phpcs --report=json --standard=PSR12 lib/";
              ContainerAPI.timeout := 60;
              ContainerAPI.description :=
                "Run PHPCS and get detailed issues per file for AI fixing";
              ContainerAPI.post_processor :=
                Some (AiCodeFixing.process_phpcs_result silent_phpcs_env) |}
           {| status_code := 200;
              payload :=
                [("timestamp", JStr "2025-01-01T00:00:00Z");
                 ("command", JStr "phpcs-detailed");
                 ("full_command",
                  JStr "./vendor/bin/phpcs --report=json --standard=PSR12 lib/");
                 ("status", JStr "success");
                 ("exit_code", JInt 0);
                 ("output", JStr "");
                 ("container", JStr "master-nextcloud-1");
                 ("phpcs_issues", JList []);
                 ("error",
                  JStr ("Failed to parse PHPCS output: "
                        ++ "Expecting value: line 1 column 1 (char 0)"))] |});
    try reflexivity; discriminate.
Defined.



Lemma digit_value_nonneg (c : ascii) : isdigit c = true -> (0 <= digit_value c)%Z.
Proof.
  unfold isdigit, digit_value. intros H. apply andb_true_iff in H as [H _].
  apply Nat.leb_le in H. lia.
Qed.

Lemma int_of_digits_from_nonneg (s : string) (acc : Z) :
  every isdigit s = true -> (0 <= acc)%Z -> (0 <= int_of_digits_from acc s)%Z.
Proof.
  revert acc. induction s as [|c s IH]; intros acc Hs Hacc; [exact Hacc|].
  cbn [every int_of_digits_from] in *. apply andb_true_iff in Hs as [Hc Hs].
  apply IH; [exact Hs|]. pose proof (digit_value_nonneg c Hc). lia.
Qed.

Lemma py_int_nonneg (ds : string) (n : Z) :
  every isdigit ds = true -> py_int ds = Return n -> (0 <= n)%Z.
Proof.
  unfold py_int. destruct (_ <? _)%nat; [discriminate|]. intros Hds [= <-].
  apply int_of_digits_from_nonneg; [exact Hds | lia].
Qed.

Lemma metric_match_group (label s : string) (gs : list string) :
  Re.match_here (ContainerAPI.metric_pattern label) s = Some gs ->
  exists ds, gs = [ds] /\ run_of isdigit ds.
Proof.
  unfold ContainerAPI.metric_pattern. rewrite match_lits.
  destruct (startswith s label); [|discriminate]. intros H.
  apply match_plus_inv in H as (ws & b & gs1 & _ & _ & H & ->).
  apply match_plus_inv in H as (ds & rest & gs2 & _ & Hds & H & ->).
  simpl in H. injection H as <-. now exists ds.
Qed.

Lemma test_metric_nonneg (label output : string) (n : Z) :
  ContainerAPI.test_metric label output = Return n -> (0 <= n)%Z.
Proof.
  unfold ContainerAPI.test_metric.
  destruct (Re.search _ output) as [gs|] eqn:Hs; [|intros [= <-]; lia].
  apply search_Some_inv in Hs as [k Hk].
  apply metric_match_group in Hk as (ds & -> & _ & Hds). simpl.
  now apply py_int_nonneg.
Qed.

Lemma cs_fix_step_nonneg (x y : Z) (line : string) :
  (0 <= x)%Z -> ContainerAPI.cs_fix_step x line = Return y -> (0 <= y)%Z.
Proof.
  intros Hx. unfold ContainerAPI.cs_fix_step.
  destruct (_ || _); [|intros [= <-]; exact Hx].
  destruct (Re.search _ line) as [gs|] eqn:Hs; [|intros [= <-]; exact Hx].
  apply search_Some_inv in Hs as [k Hk].
  apply files_match_group in Hk as (ds & ws & rest & _ & [_ Hds] & _ & ->).
  now apply py_int_nonneg.
Qed.

Lemma cs_fix_loop_nonneg (ls : list string) (x y : Z) :
  (0 <= x)%Z -> ContainerAPI.cs_fix_loop x ls = Return y -> (0 <= y)%Z.
Proof.
  revert x. induction ls as [|l ls IH]; intros x Hx; simpl; [intros [= <-]; exact Hx|].
  destruct (ContainerAPI.cs_fix_step x l) as [v|e] eqn:Hv; [|discriminate].
  apply IH. exact (cs_fix_step_nonneg _ _ _ Hx Hv).
Qed.

(** X9.  The counts of the two textual post-processors are never
    negative, and neither of them touches the container or the model:
    [process_cs_fix_result] says [No files needed fixing] exactly when
    [files_fixed] is 0, and [process_test_result] reports as [success]
    whether the exit status is 0. *)
Theorem textual_counts_are_not_negative (E : Env) (result : CompletedProcess)
    (st st' : St E) (d : Dict) :
  (ContainerAPI.process_cs_fix_result E result st = (Return d, st') ->
   st' = st
   /\ exists n, (0 <= n)%Z
        /\ d = [("files_fixed", JInt n);
                ("message", JStr (if (n =? 0)%Z then "No files needed fixing"
                                  else "Fixed " ++ str_of_int n ++ " file(s)"))])
  /\
  (ContainerAPI.process_test_result E result st = (Return d, st') ->
   st' = st
   /\ exists tests assertions failures,
        (0 <= tests)%Z /\ (0 <= assertions)%Z /\ (0 <= failures)%Z
        /\ d = [("tests_run", JInt tests); ("assertions", JInt assertions);
                ("failures", JInt failures);
                ("success", JBool (returncode result =? 0)%Z)]).
Proof.
  split.
  - unfold ContainerAPI.process_cs_fix_result. run_monad.
    destruct (ContainerAPI.cs_fix_count (stdout result)) as [n|e] eqn:Hn; [|discriminate].
    intros [= <- <-]. split; [reflexivity|]. exists n.
    assert (H : (0 <= n)%Z) by (apply (cs_fix_loop_nonneg _ 0 n) in Hn; [exact Hn | lia]).
    split; [exact H|].
    destruct (Z.eqb_spec n 0) as [-> | Hne]; [reflexivity|].
    destruct (Z.ltb_spec 0 n); [reflexivity | lia].
  - unfold ContainerAPI.process_test_result. run_monad.
    destruct (ContainerAPI.test_metric "Tests:" _) as [t|] eqn:Ht; [|discriminate].
    destruct (ContainerAPI.test_metric "Assertions:" _) as [a|] eqn:Ha; [|discriminate].
    destruct (ContainerAPI.test_metric "Failures:" _) as [f|] eqn:Hf; [|discriminate].
    intros [= <- <-]. split; [reflexivity|]. exists t, a, f.
    apply test_metric_nonneg in Ht, Ha, Hf. auto.
Qed.

Lemma textual_counts_witness :
  (Double.start cs_fix_env tt = Double.start cs_fix_env tt
   /\ exists n, (0 <= n)%Z
        /\ [("files_fixed", JInt 0); ("message", JStr "No files needed fixing")]
           = [("files_fixed", JInt n);
              ("message", JStr (if (n =? 0)%Z then "No files needed fixing"
                                else "Fixed " ++ str_of_int n ++ " file(s)"))])
  /\ (Double.start cs_fix_env tt = Double.start cs_fix_env tt
      /\ exists tests assertions failures,
           (0 <= tests)%Z /\ (0 <= assertions)%Z /\ (0 <= failures)%Z
           /\ [("tests_run", JInt 12); ("assertions", JInt 30); ("failures", JInt 2);
               ("success", JBool false)]
              = [("tests_run", JInt tests); ("assertions", JInt assertions);
                 ("failures", JInt failures); ("success", JBool (1 =? 0)%Z)]).
Proof.
  split.
  - apply (proj1 (textual_counts_are_not_negative cs_fix_env
                    (Completed 0 "Fixed 0 files" "") (Double.start cs_fix_env tt)
                    (Double.start cs_fix_env tt)
                    [("files_fixed", JInt 0); ("message", JStr "No files needed fixing")])).
    reflexivity.
  - apply (proj2 (textual_counts_are_not_negative cs_fix_env
                    (Completed 1 phpunit_output "") (Double.start cs_fix_env tt)
                    (Double.start cs_fix_env tt)
                    [("tests_run", JInt 12); ("assertions", JInt 30); ("failures", JInt 2);
                     ("success", JBool false)])).
    reflexivity.
Defined.

(** ** File operations: bodies, paths and failures *)

Lemma is_file_operation_cases (asked : string) :
  ContainerAPI.is_file_operation asked = true ->
  asked = "read-file" \/ asked = "write-file" \/ asked = "backup-file".
Proof.
  unfold ContainerAPI.is_file_operation, ContainerAPI.file_operations. simpl.
  destruct (String.eqb_spec asked "read-file"); [tauto|].
  destruct (String.eqb_spec asked "write-file"); [tauto|].
  destruct (String.eqb_spec asked "backup-file"); [tauto|]. discriminate.
Qed.

(** X10.  On the command server a file operation whose Content-Length is
    0 is answered 400 [Request body required], and one whose body is not
    JSON 400 [Invalid JSON in request body]; on the AI code fixing server a
    body that cannot be decoded gives 500 with the text of the exception.
    None of them reaches the container. *)
Theorem file_operation_without_body (E : Env) (req : Request) (st : St E) :
  ContainerAPI.is_file_operation (lstrip_char "/" (path req)) = true ->
  (content_length req = 0%Z ->
   ContainerAPI.do_POST E req st
   = (Return {| status_code := 400;
                payload := [("error", JStr "Request body required")] |}, st))
  /\ (forall e, content_length req <> 0%Z -> body req = Raise e ->
      exn_is e = JSONDecodeError ->
      ContainerAPI.do_POST E req st
      = (Return {| status_code := 400;
                   payload := [("error", JStr "Invalid JSON in request body")] |}, st))
  /\ (forall e, body req = Raise e ->
      ContainerAPIAI.do_POST E req st
      = (Return {| status_code := 500; payload := [("error", JStr (exn_str e))] |}, st)).
Proof.
  intros Hop. unfold ContainerAPI.do_POST, ContainerAPIAI.do_POST. rewrite Hop.
  change (existsb (String.eqb (lstrip_char "/" (path req))) ContainerAPIAI.file_operations)
    with (ContainerAPI.is_file_operation (lstrip_char "/" (path req))).
  rewrite Hop.
  unfold ContainerAPI._handle_file_operation, ContainerAPIAI._handle_file_operation.
  run_monad. repeat split.
  - intros ->. reflexivity.
  - intros e Hn Hb He. apply Z.eqb_neq in Hn. rewrite Hn, Hb, He. reflexivity.
  - intros e Hb. rewrite Hb. reflexivity.
Qed.

Lemma file_operation_without_body_witness :
  ContainerAPI.do_POST fix_env (write_request 0 (Return (write_a "x"))) (Double.start fix_env tt)
  = (Return {| status_code := 400;
               payload := [("error", JStr "Request body required")] |},
     Double.start fix_env tt)
  /\ ContainerAPI.do_POST fix_env (write_request 9 (Raise not_json)) (Double.start fix_env tt)
     = (Return {| status_code := 400;
                  payload := [("error", JStr "Invalid JSON in request body")] |},
        Double.start fix_env tt)
  /\ ContainerAPIAI.do_POST fix_env (write_request 9 (Raise not_json)) (Double.start fix_env tt)
     = (Return {| status_code := 500;
                  payload := [("error", JStr "Expecting value: line 1 column 1 (char 0)")] |},
        Double.start fix_env tt).
Proof.
  split; [|split].
  - apply (proj1 (file_operation_without_body fix_env (write_request 0 (Return (write_a "x")))
                    (Double.start fix_env tt) eq_refl)); reflexivity.
  - apply (proj1 (proj2 (file_operation_without_body fix_env (write_request 9 (Raise not_json))
                           (Double.start fix_env tt) eq_refl)) not_json);
      [discriminate | reflexivity | reflexivity].
  - apply (proj2 (proj2 (file_operation_without_body fix_env (write_request 9 (Raise not_json))
                           (Double.start fix_env tt) eq_refl)) not_json); reflexivity.
Defined.

(** X11.  Through [do_POST] of the command server, each of the three file
    operations on a path with a [..] segment or a leading [/] is answered
    400, with the envelope around one [error], and the state of the request
    is left as it was: nothing is run in the container. *)
Theorem traversal_never_reaches_container (E : Env) (req : Request) (st : St E)
    (fields : Fields) (p : string) :
  ContainerAPI.is_file_operation (lstrip_char "/" (path req)) = true ->
  content_length req <> 0%Z ->
  body req = Return fields ->
  file fields = Some p ->
  In ".." (split "/" p) \/ startswith p "/" = true ->
  exists message,
    ContainerAPI.do_POST E req st
    = (Return {| status_code := 400;
                 payload := error_envelope (utcnow_isoformat E (world st) ++ "Z")
                              (lstrip_char "/" (path req)) message |}, st)
    /\ (message = "Invalid file path"
        \/ (content fields = None /\ message = "Missing 'file' or 'content' parameter")).
Proof.
  intros Hop Hn Hb Hfile Hbad.
  assert (Hunsafe : AiCodeFixing.path_is_unsafe p = true).
  { unfold AiCodeFixing.path_is_unsafe. apply orb_true_iff.
    destruct Hbad as [H | H]; [left; now apply dotdot_segment_contains | now right]. }
  unfold ContainerAPI.do_POST. rewrite Hop.
  unfold ContainerAPI._handle_file_operation. apply Z.eqb_neq in Hn.
  unfold AiCodeFixing.read_file_handler, AiCodeFixing.write_file_handler,
    AiCodeFixing.backup_file_handler.
  run_monad. rewrite Hn, Hb, Hfile, Hunsafe.
  destruct (is_file_operation_cases _ Hop) as [-> | [-> | ->]]; cbn [String.eqb Ascii.eqb Bool.eqb].
  - eexists. split; [reflexivity | now left].
  - destruct (content fields); eexists; (split; [reflexivity | tauto]).
  - eexists. split; [reflexivity | now left].
Qed.

Lemma traversal_witness :
  exists message,
    ContainerAPI.do_POST fix_env (write_request 70 (Return traversal_fields))
      (Double.start fix_env tt)
    = (Return {| status_code := 400;
                 payload := error_envelope "2025-01-01T00:00:00Z" "write-file" message |},
       Double.start fix_env tt)
    /\ (message = "Invalid file path"
        \/ (content traversal_fields = None
            /\ message = "Missing 'file' or 'content' parameter")).
Proof.
  apply (traversal_never_reaches_container fix_env (write_request 70 (Return traversal_fields))
           (Double.start fix_env tt) traversal_fields "lib/../../config/config.php").
  - reflexivity.
  - discriminate.
  - reflexivity.
  - reflexivity.
  - left. vm_compute. tauto.
Defined.

(** X12.  When [subprocess.run] raises, a timeout included, a file
    operation on a valid path that gets as far as a run is answered 400 with
    the text of the exception by the command server, whose handlers catch
    it, and 500 by the AI code fixing server; neither answers 408, and each
    has tried one run.  A read and a backup need the field [file] only.  A
    write whose body has no [content] tries no run: the command server
    answers 400 [Missing 'file' or 'content' parameter], the AI code fixing
    server 500 with the text of the AttributeError. *)
Theorem unreachable_container_in_file_operation (E : Env) (req : Request) (st : St E)
    (fields : Fields) (p : string) (e : exn) :
  ContainerAPI.is_file_operation (lstrip_char "/" (path req)) = true ->
  content_length req <> 0%Z ->
  body req = Return fields ->
  file fields = Some p ->
  p <> "" ->
  contains ".." p = false ->
  startswith p "/" = false ->
  (forall args t, fst (subprocess_run E args t (world st)) = Raise e) ->
  ((lstrip_char "/" (path req) = "write-file" -> content fields <> None) ->
   (exists st',
      ContainerAPI.do_POST E req st
      = (Return {| status_code := 400;
                   payload := error_envelope (utcnow_isoformat E (world st') ++ "Z")
                                (lstrip_char "/" (path req)) (exn_str e) |}, st')
      /\ docker_calls (calls st') = docker_calls (calls st) + 1)
   /\ (exists st',
         ContainerAPIAI.do_POST E req st
         = (Return {| status_code := 500; payload := [("error", JStr (exn_str e))] |}, st')
         /\ docker_calls (calls st') = docker_calls (calls st) + 1))
  /\
  (lstrip_char "/" (path req) = "write-file" -> content fields = None ->
   (exists st',
      ContainerAPI.do_POST E req st
      = (Return {| status_code := 400;
                   payload := error_envelope (utcnow_isoformat E (world st') ++ "Z")
                                "write-file" "Missing 'file' or 'content' parameter" |}, st')
      /\ calls st' = calls st)
   /\ ContainerAPIAI.do_POST E req st
      = (Return {| status_code := 500;
                   payload := [("error",
                                JStr "'NoneType' object has no attribute 'encode'")] |}, st)).
Proof.
  intros Hop Hn Hb Hfile Hne Hdots Hslash Hrun.
  assert (Hunsafe : AiCodeFixing.path_is_unsafe p = false).
  { unfold AiCodeFixing.path_is_unsafe. now rewrite Hdots, Hslash. }
  assert (Hinvalid : ContainerAPIAI.path_is_invalid (Some p) = false).
  { unfold ContainerAPIAI.path_is_invalid. rewrite Hdots.
    apply String.eqb_neq in Hne. now rewrite Hne. }
  apply Z.eqb_neq in Hn.
  unfold ContainerAPI.do_POST, ContainerAPIAI.do_POST.
  change (existsb (String.eqb (lstrip_char "/" (path req))) ContainerAPIAI.file_operations)
    with (ContainerAPI.is_file_operation (lstrip_char "/" (path req))).
  rewrite Hop.
  unfold ContainerAPI._handle_file_operation, ContainerAPIAI._handle_file_operation,
    AiCodeFixing.read_file_handler, AiCodeFixing.write_file_handler,
    AiCodeFixing.backup_file_handler, ContainerAPIAI._read_file,
    ContainerAPIAI._write_file, ContainerAPIAI._backup_file.
  run_monad. rewrite Hn, Hb, Hfile, Hunsafe, Hinvalid.
  split.
  - intros Hcontent.
    destruct (is_file_operation_cases _ Hop) as [Hp | [Hp | Hp]]; rewrite Hp in *;
      cbn [String.eqb Ascii.eqb Bool.eqb];
      try (destruct (content fields) as [c|]; [|exfalso; now apply Hcontent]);
      split;
      match goal with
      | |- context [subprocess_run E ?a ?t ?w] =>
          pose proof (Hrun a t) as Hr; destruct (subprocess_run E a t w) as [r w1];
          cbn [fst] in Hr; subst r
      end;
      (eexists; split; [reflexivity | cbn [calls]; apply docker_calls_snoc]).
  - intros -> ->. cbn [String.eqb Ascii.eqb Bool.eqb]. split; [|reflexivity].
    eexists. split; reflexivity.
Qed.

Lemma unreachable_container_witness :
  ((exists st',
      ContainerAPI.do_POST (unreachable_env no_docker)
        (file_request "read-file" (file_only (Some "lib/a.php")))
        (Double.start (unreachable_env no_docker) tt)
      = (Return {| status_code := 400;
                   payload := error_envelope
                                (utcnow_isoformat (unreachable_env no_docker) (world st') ++ "Z")
                                "read-file" "[Errno 2] No such file or directory: 'docker'" |},
         st')
      /\ docker_calls (calls st') = 1)
   /\ (exists st',
         ContainerAPIAI.do_POST (unreachable_env no_docker)
           (file_request "read-file" (file_only (Some "lib/a.php")))
           (Double.start (unreachable_env no_docker) tt)
         = (Return {| status_code := 500;
                      payload := [("error",
                                   JStr "[Errno 2] No such file or directory: 'docker'")] |},
            st')
         /\ docker_calls (calls st') = 1))
  /\
  ((exists st',
      ContainerAPI.do_POST (unreachable_env no_docker)
        (file_request "write-file" (file_only (Some "lib/a.php")))
        (Double.start (unreachable_env no_docker) tt)
      = (Return {| status_code := 400;
                   payload := error_envelope
                                (utcnow_isoformat (unreachable_env no_docker) (world st') ++ "Z")
                                "write-file" "Missing 'file' or 'content' parameter" |},
         st')
      /\ calls st' = [])
   /\ ContainerAPIAI.do_POST (unreachable_env no_docker)
        (file_request "write-file" (file_only (Some "lib/a.php")))
        (Double.start (unreachable_env no_docker) tt)
      = (Return {| status_code := 500;
                   payload := [("error",
                                JStr "'NoneType' object has no attribute 'encode'")] |},
         Double.start (unreachable_env no_docker) tt)).
Proof.
  split.
  - apply (proj1 (unreachable_container_in_file_operation (unreachable_env no_docker)
                    (file_request "read-file" (file_only (Some "lib/a.php")))
                    (Double.start (unreachable_env no_docker) tt)
                    (file_only (Some "lib/a.php")) "lib/a.php" no_docker
                    eq_refl ltac:(discriminate) eq_refl eq_refl ltac:(discriminate)
                    eq_refl eq_refl (fun _ _ => eq_refl))).
    discriminate.
  - apply (proj2 (unreachable_container_in_file_operation (unreachable_env no_docker)
                    (file_request "write-file" (file_only (Some "lib/a.php")))
                    (Double.start (unreachable_env no_docker) tt)
                    (file_only (Some "lib/a.php")) "lib/a.php" no_docker
                    eq_refl ltac:(discriminate) eq_refl eq_refl ltac:(discriminate)
                    eq_refl eq_refl (fun _ _ => eq_refl))); reflexivity.
Defined.

(** X13.  The AI code fixing server sends the result of a file operation
    with status 200 also when it is an error: a missing or empty path and a
    path with a [..] segment give 200 with [Invalid file path] and no run in
    the container, and a read that fails in the container gives 200 with
    [File not found]. *)
Theorem ai_server_answers_errors_with_200 (E : Env) (req : Request) (st : St E)
    (fields : Fields) :
  existsb (String.eqb (lstrip_char "/" (path req))) ContainerAPIAI.file_operations = true ->
  body req = Return fields ->
  ((file fields = None \/ file fields = Some ""
    \/ exists p, file fields = Some p /\ In ".." (split "/" p)) ->
   ContainerAPIAI.do_POST E req st
   = (Return {| status_code := 200; payload := [("error", JStr "Invalid file path")] |}, st))
  /\
  (forall p r w1,
     lstrip_char "/" (path req) = "read-file" ->
     file fields = Some p ->
     ContainerAPIAI.path_is_invalid (Some p) = false ->
     subprocess_run E (docker_bash ("cat " ++ APP_PATH ++ "/" ++ p)) 10 (world st)
     = (Return r, w1) ->
     returncode r <> 0%Z ->
     fst (ContainerAPIAI.do_POST E req st)
     = Return {| status_code := 200; payload := [("error", JStr "File not found")] |}).
Proof.
  intros Hop Hb. unfold ContainerAPIAI.do_POST. rewrite Hop.
  unfold ContainerAPIAI._handle_file_operation, ContainerAPIAI._read_file,
    ContainerAPIAI._write_file, ContainerAPIAI._backup_file.
  run_monad. rewrite Hb. split.
  - intros Hbad.
    assert (Hinv : ContainerAPIAI.path_is_invalid (file fields) = true).
    { destruct Hbad as [-> | [-> | (p & -> & Hin)]]; try reflexivity.
      unfold ContainerAPIAI.path_is_invalid.
      rewrite (dotdot_segment_contains _ Hin). apply orb_true_r. }
    destruct (is_file_operation_cases _ Hop) as [-> | [-> | ->]];
      cbn [String.eqb Ascii.eqb Bool.eqb];
      (destruct (file fields) as [p|]; [rewrite Hinv|]); reflexivity.
  - intros p r w1 -> Hfile Hvalid Hrun Hrc. cbn [String.eqb Ascii.eqb Bool.eqb].
    rewrite Hfile, Hvalid, Hrun. apply Z.eqb_neq in Hrc. rewrite Hrc. reflexivity.
Qed.

Lemma ai_server_200_witness :
  ContainerAPIAI.do_POST missing_txt_env (file_request "backup-file" traversal_fields)
    (Double.start missing_txt_env tt)
  = (Return {| status_code := 200; payload := [("error", JStr "Invalid file path")] |},
     Double.start missing_txt_env tt)
  /\ fst (ContainerAPIAI.do_POST missing_txt_env
            (file_request "read-file" (file_only (Some "missing.txt")))
            (Double.start missing_txt_env tt))
     = Return {| status_code := 200; payload := [("error", JStr "File not found")] |}.
Proof.
  split.
  - apply (proj1 (ai_server_answers_errors_with_200 missing_txt_env
                    (file_request "backup-file" traversal_fields)
                    (Double.start missing_txt_env tt) traversal_fields eq_refl eq_refl)).
    right. right. exists "lib/../../config/config.php". split; [reflexivity|].
    vm_compute. tauto.
  - apply (proj2 (ai_server_answers_errors_with_200 missing_txt_env
                    (file_request "read-file" (file_only (Some "missing.txt")))
                    (Double.start missing_txt_env tt) (file_only (Some "missing.txt"))
                    eq_refl eq_refl)
             "missing.txt" (Completed 1 "" "cat: missing.txt: No such file or directory") tt);
      try reflexivity. discriminate.
Defined.

(** X14.  A successful backup of [p] copies it to [p.backup_<stamp>], a
    name other than [p], where the stamp is the clock reading in the format
    [%Y%m%d_%H%M%S].  On the command server the [timestamp] of the result
    takes the place of the ISO timestamp of the envelope; the AI code fixing
    server names the fields [original] and [backup]. *)
Theorem backup_is_named_after_the_clock (E : Env) (req : Request) (st : St E)
    (fields : Fields) (p : string) (r : CompletedProcess) (w1 : World E) :
  lstrip_char "/" (path req) = "backup-file" ->
  content_length req <> 0%Z ->
  body req = Return fields ->
  file fields = Some p ->
  p <> "" ->
  contains ".." p = false ->
  startswith p "/" = false ->
  subprocess_run E (backup_script p (now_strftime E (world st))) 10 (world st)
  = (Return r, w1) ->
  returncode r = 0%Z ->
  fst (ContainerAPI.do_POST E req st)
  = Return {| status_code := 200;
              payload :=
                [("timestamp", JStr (now_strftime E (world st)));
                 ("operation", JStr "backup-file");
                 ("container", JStr CONTAINER_NAME);
                 ("original_file", JStr p);
                 ("backup_file", JStr (p ++ ".backup_" ++ now_strftime E (world st)));
                 ("status", JStr "success")] |}
  /\ fst (ContainerAPIAI.do_POST E req st)
     = Return {| status_code := 200;
                 payload :=
                   [("original", JStr p);
                    ("backup", JStr (p ++ ".backup_" ++ now_strftime E (world st)));
                    ("timestamp", JStr (now_strftime E (world st)))] |}
  /\ p ++ ".backup_" ++ now_strftime E (world st) <> p.
Proof.
  intros Hpath Hn Hb Hfile Hne Hdots Hslash Hrun Hrc.
  assert (Hunsafe : AiCodeFixing.path_is_unsafe p = false).
  { unfold AiCodeFixing.path_is_unsafe. now rewrite Hdots, Hslash. }
  assert (Hinvalid : ContainerAPIAI.path_is_invalid (Some p) = false).
  { unfold ContainerAPIAI.path_is_invalid. rewrite Hdots.
    apply String.eqb_neq in Hne. now rewrite Hne. }
  apply Z.eqb_neq in Hn. unfold backup_script in Hrun.
  split; [|split].
  - unfold ContainerAPI.do_POST. rewrite Hpath. cbn [ContainerAPI.is_file_operation
      ContainerAPI.file_operations existsb String.eqb Ascii.eqb Bool.eqb orb].
    unfold ContainerAPI._handle_file_operation, AiCodeFixing.backup_file_handler.
    run_monad. rewrite Hn, Hb, Hfile, Hunsafe. cbn [String.eqb Ascii.eqb Bool.eqb].
    cbn [world]. change (subprocess_run E _ 10 (world st))
      with (subprocess_run E (docker_bash ("cp " ++ APP_PATH ++ "/" ++ p ++ " "
               ++ APP_PATH ++ "/" ++ p ++ ".backup_" ++ now_strftime E (world st)))
              10 (world st)).
    rewrite Hrun, Hrc. reflexivity.
  - unfold ContainerAPIAI.do_POST. rewrite Hpath. cbn [ContainerAPIAI.file_operations
      existsb String.eqb Ascii.eqb Bool.eqb orb].
    unfold ContainerAPIAI._handle_file_operation, ContainerAPIAI._backup_file.
    run_monad. rewrite Hb, Hfile, Hinvalid. cbn [String.eqb Ascii.eqb Bool.eqb world].
    rewrite Hrun, Hrc. reflexivity.
  - apply str_app_neq_self. discriminate.
Qed.

Lemma backup_witness :
  fst (ContainerAPI.do_POST backup_env (file_request "backup-file" lib_a_php)
         (Double.start backup_env tt))
  = Return {| status_code := 200;
              payload :=
                [("timestamp", JStr "20250101_000000");
                 ("operation", JStr "backup-file");
                 ("container", JStr CONTAINER_NAME);
                 ("original_file", JStr "lib/a.php");
                 ("backup_file", JStr "lib/a.php.backup_20250101_000000");
                 ("status", JStr "success")] |}
  /\ fst (ContainerAPIAI.do_POST backup_env (file_request "backup-file" lib_a_php)
            (Double.start backup_env tt))
     = Return {| status_code := 200;
                 payload :=
                   [("original", JStr "lib/a.php");
                    ("backup", JStr "lib/a.php.backup_20250101_000000");
                    ("timestamp", JStr "20250101_000000")] |}
  /\ "lib/a.php.backup_20250101_000000" <> "lib/a.php".
Proof.
  apply (backup_is_named_after_the_clock backup_env (file_request "backup-file" lib_a_php)
           (Double.start backup_env tt) lib_a_php "lib/a.php" (Completed 0 "" "") tt);
    try reflexivity; discriminate.
Defined.

(** ** Written content: Base64 *)

Ltac div_lia := zify; Z.to_euclidean_division_equations; lia.

Lemma sextet_spec (n : nat) :
  n < 64 ->
  exists c, Base64.sextet n = String c ""
            /\ Double.sextet_of c = n
            /\ Ascii.eqb c "=" = false
            /\ is_base64_char c = true.
Proof.
  intros H.
  do 64 (destruct n as [|n]; [eexists; repeat split; reflexivity|]). lia.
Qed.

Lemma sextet_chars (n : nat) : every is_base64_char (Base64.sextet n) = true.
Proof.
  destruct (Nat.lt_ge_cases n 64) as [H | H].
  - destruct (sextet_spec n H) as (c & -> & _ & _ & Hc). simpl. now rewrite Hc.
  - unfold Base64.sextet.
    replace n with (64 + (n - 64)) by lia. generalize (n - 64). intros k.
    reflexivity.
Qed.

Lemma three_step_induction (P : list nat -> Prop) :
  P [] -> (forall a, P [a]) -> (forall a b, P [a; b]) ->
  (forall a b c rest, P rest -> P (a :: b :: c :: rest)) ->
  forall bs, P bs.
Proof.
  intros H0 H1 H2 H3.
  fix IH 1. intros [|a [|b [|c rest]]]; [exact H0 | apply H1 | apply H2 | apply H3, IH].
Qed.

Lemma b64encode_chars (bs : list nat) : every is_base64_char (Base64.b64encode bs) = true.
Proof.
  induction bs as [|a|a b|a b c rest IH] using three_step_induction.
  - reflexivity.
  - cbn [Base64.b64encode]. now rewrite !every_app, !sextet_chars.
  - cbn [Base64.b64encode]. now rewrite !every_app, !sextet_chars.
  - cbn [Base64.b64encode]. now rewrite !every_app, !sextet_chars, IH.
Qed.

Lemma utf8_bytes (s : string) : Forall (fun b => b < 256) (Base64.utf8 s).
Proof.
  induction s as [|c s IH]; [constructor|]. cbn [Base64.utf8].
  pose proof (nat_ascii_bounded c) as Hc. generalize dependent (nat_of_ascii c). intros n Hn.
  destruct (Nat.ltb_spec n 128).
  - constructor; [lia | exact IH].
  - constructor; [div_lia|constructor; [div_lia|exact IH]].
Qed.

Lemma utf8_length (s : string) :
  List.length (Base64.utf8 s) = String.length s + two_byte_chars s.
Proof.
  induction s as [|c s IH]; [reflexivity|]. cbn [Base64.utf8 two_byte_chars String.length].
  destruct (nat_of_ascii c <? 128)%nat; cbn [List.length]; rewrite IH; lia.
Qed.

Lemma utf8_round_trip (s : string) : Double.utf8_decode (Base64.utf8 s) = s.
Proof.
  induction s as [|c s IH]; [reflexivity|]. cbn [Base64.utf8].
  pose proof (nat_ascii_bounded c) as Hc. pose proof (ascii_nat_embedding c) as Hemb.
  generalize dependent (nat_of_ascii c). intros n Hn Hemb.
  destruct (Nat.ltb_spec n 128) as [Hlt | Hge]; cbn [Double.utf8_decode].
  - destruct (Nat.ltb_spec n 128); [|lia]. now rewrite Hemb, IH.
  - destruct (Nat.ltb_spec (192 + n / 64) 128); [lia|].
    replace ((192 + n / 64 - 192) * 64 + (128 + n mod 64 - 128)) with n by div_lia.
    now rewrite Hemb, IH.
Qed.

Lemma b64_round_trip (bs : list nat) :
  Forall (fun b => b < 256) bs -> Double.b64decode (Base64.b64encode bs) = bs.
Proof.
  induction bs as [|a|a b|a b c rest IH] using three_step_induction; intros Hbs.
  - reflexivity.
  - inversion Hbs as [|? ? Ha _]; subst. cbn [Base64.b64encode].
    destruct (sextet_spec (a / 4) ltac:(div_lia)) as (c1 & -> & H1 & _).
    destruct (sextet_spec (a mod 4 * 16) ltac:(div_lia)) as (c2 & -> & H2 & _).
    cbn [String.append Double.b64decode Ascii.eqb Bool.eqb]. rewrite H1, H2.
    f_equal. div_lia.
  - inversion Hbs as [|? ? Ha Hbs']; subst. inversion Hbs' as [|? ? Hb _]; subst.
    cbn [Base64.b64encode].
    destruct (sextet_spec (a / 4) ltac:(div_lia)) as (c1 & -> & H1 & _).
    destruct (sextet_spec (a mod 4 * 16 + b / 16) ltac:(div_lia)) as (c2 & -> & H2 & _).
    destruct (sextet_spec (b mod 16 * 4) ltac:(div_lia)) as (c3 & -> & H3 & E3 & _).
    cbn [String.append Double.b64decode]. rewrite E3. cbn [Ascii.eqb Bool.eqb].
    rewrite H1, H2, H3. f_equal; [div_lia|]. f_equal. div_lia.
  - inversion Hbs as [|? ? Ha Hbs']; subst. inversion Hbs' as [|? ? Hb Hbs'']; subst.
    inversion Hbs'' as [|? ? Hc Hrest]; subst.
    cbn [Base64.b64encode].
    destruct (sextet_spec (a / 4) ltac:(div_lia)) as (c1 & -> & H1 & _).
    destruct (sextet_spec (a mod 4 * 16 + b / 16) ltac:(div_lia)) as (c2 & -> & H2 & _).
    destruct (sextet_spec (b mod 16 * 4 + c / 64) ltac:(div_lia)) as (c3 & -> & H3 & E3 & _).
    destruct (sextet_spec (c mod 64) ltac:(div_lia)) as (c4 & -> & H4 & E4 & _).
    cbn [String.append Double.b64decode]. rewrite E3, E4, H1, H2, H3, H4, (IH Hrest).
    f_equal; [div_lia|]. f_equal; [div_lia|]. f_equal. div_lia.
Qed.

Lemma b64encode_length (bs : list nat) :
  Forall (fun b => b < 256) bs ->
  String.length (Base64.b64encode bs) = 4 * ((List.length bs + 2) / 3).
Proof.
  induction bs as [|a|a b|a b c rest IH] using three_step_induction; intros Hbs.
  - reflexivity.
  - inversion Hbs as [|? ? Ha _]; subst. cbn [Base64.b64encode].
    destruct (sextet_spec (a / 4) ltac:(div_lia)) as (c1 & -> & _).
    destruct (sextet_spec (a mod 4 * 16) ltac:(div_lia)) as (c2 & -> & _). reflexivity.
  - inversion Hbs as [|? ? Ha Hbs']; subst. inversion Hbs' as [|? ? Hb _]; subst.
    cbn [Base64.b64encode].
    destruct (sextet_spec (a / 4) ltac:(div_lia)) as (c1 & -> & _).
    destruct (sextet_spec (a mod 4 * 16 + b / 16) ltac:(div_lia)) as (c2 & -> & _).
    destruct (sextet_spec (b mod 16 * 4) ltac:(div_lia)) as (c3 & -> & _). reflexivity.
  - inversion Hbs as [|? ? Ha Hbs']; subst. inversion Hbs' as [|? ? Hb Hbs'']; subst.
    inversion Hbs'' as [|? ? Hc Hrest]; subst.
    cbn [Base64.b64encode].
    destruct (sextet_spec (a / 4) ltac:(div_lia)) as (c1 & -> & _).
    destruct (sextet_spec (a mod 4 * 16 + b / 16) ltac:(div_lia)) as (c2 & -> & _).
    destruct (sextet_spec (b mod 16 * 4 + c / 64) ltac:(div_lia)) as (c3 & -> & _).
    destruct (sextet_spec (c mod 64) ltac:(div_lia)) as (c4 & -> & _).
    cbn [String.append String.length List.length]. rewrite (IH Hrest). div_lia.
Qed.

(** The content that [_write_file] sends is what [base64 -d] and the
    decoding of UTF-8 give back. *)
Lemma transfer_round_trip (content : string) :
  Double.utf8_decode (Double.b64decode (Base64.b64encode (Base64.utf8 content))) = content.
Proof. rewrite b64_round_trip by apply utf8_bytes. apply utf8_round_trip. Qed.

(** X16.  [_write_file] hands the content to the shell in Base64 only:
    the text between the quotes of the script is made of letters, digits,
    [+], [/] and [=], and decoding it as [base64 -d] does, then as UTF-8,
    gives the content back.  For a content of code points below 256, which
    is all a string of this development holds, it has four characters for
    every three bytes of the UTF-8 encoding (one byte for a code point below
    128, two from 128 up).  A successful write reports the number of
    characters as [bytes_written]. *)
Theorem write_sends_base64_only (E : Env) (req : Request) (st : St E) (fields : Fields)
    (p c : string) :
  lstrip_char "/" (path req) = "write-file" ->
  body req = Return fields ->
  file fields = Some p ->
  content fields = Some c ->
  p <> "" ->
  contains ".." p = false ->
  exists encoded,
    calls (snd (ContainerAPIAI.do_POST E req st))
    = (calls st ++ [DockerExec (base64_write_script encoded p) 10])%list
    /\ every is_base64_char encoded = true
    /\ String.length encoded = 4 * ((String.length c + two_byte_chars c + 2) / 3)
    /\ Double.utf8_decode (Double.b64decode encoded) = c
    /\ (forall resp, fst (ContainerAPIAI.do_POST E req st) = Return resp ->
        PyDict.mem "error" (payload resp) = false ->
        resp = {| status_code := 200;
                  payload := [("file", JStr p);
                              ("bytes_written", JInt (Z.of_nat (String.length c)));
                              ("status", JStr "success")] |}).
Proof.
  intros Hpath Hb Hfile Hcontent Hne Hdots.
  assert (Hinvalid : ContainerAPIAI.path_is_invalid (Some p) = false).
  { unfold ContainerAPIAI.path_is_invalid. rewrite Hdots.
    apply String.eqb_neq in Hne. now rewrite Hne. }
  exists (Base64.b64encode (Base64.utf8 c)).
  unfold ContainerAPIAI.do_POST. rewrite Hpath.
  cbn [ContainerAPIAI.file_operations existsb String.eqb Ascii.eqb Bool.eqb orb].
  unfold ContainerAPIAI._handle_file_operation, ContainerAPIAI._write_file.
  run_monad. rewrite Hb, Hfile, Hcontent, Hinvalid.
  cbn [String.eqb Ascii.eqb Bool.eqb]. unfold base64_write_script.
  destruct (subprocess_run E _ _ _) as [[r|e] w]; [destruct (negb _)|];
    (split; [reflexivity|]); (split; [apply b64encode_chars|]);
    (split; [rewrite b64encode_length by apply utf8_bytes; now rewrite utf8_length|]);
    (split; [apply transfer_round_trip|]);
    cbn [fst]; intros resp [= <-]; cbn [payload ContainerAPIAI._send_json
      ContainerAPIAI._send_error]; try discriminate.
  intros _. reflexivity.
Qed.

Lemma write_sends_base64_witness :
  exists encoded,
    calls (snd (ContainerAPIAI.do_POST Double.container
                  (file_request "write-file" (write_fields "lib/a.php" "x"))
                  (Double.start Double.container [])))
    = [DockerExec (base64_write_script encoded "lib/a.php") 10]
    /\ every is_base64_char encoded = true
    /\ String.length encoded = 4
    /\ Double.utf8_decode (Double.b64decode encoded) = "x"
    /\ (forall resp,
          fst (ContainerAPIAI.do_POST Double.container
                 (file_request "write-file" (write_fields "lib/a.php" "x"))
                 (Double.start Double.container [])) = Return resp ->
          PyDict.mem "error" (payload resp) = false ->
          resp = {| status_code := 200;
                    payload := [("file", JStr "lib/a.php");
                                ("bytes_written", JInt 1);
                                ("status", JStr "success")] |}).
Proof.
  apply (write_sends_base64_only Double.container
           (file_request "write-file" (write_fields "lib/a.php" "x"))
           (Double.start Double.container []) (write_fields "lib/a.php" "x") "lib/a.php" "x");
    try reflexivity. discriminate.
Defined.

(** ** Written content: the scripts on the container double *)

(** Below the application directory a path names a directory when it does
    on its own. *)
Lemma names_directory_target (p : string) :
  Double.names_directory ("/var/www/html/apps-extra/openregister/" ++ p)
  = Double.names_directory p.
Proof.
  unfold Double.names_directory.
  change ("/var/www/html/apps-extra/openregister/" ++ p)
    with ("/var/www/html/apps-extra/openregister" ++ "/" ++ p).
  rewrite (split_char_app "/" "/var/www/html/apps-extra/openregister" p).
  rewrite last_app_not_nil by (apply split_not_nil; discriminate). reflexivity.
Qed.

Lemma two_byte_chars_app (a b : string) :
  two_byte_chars (a ++ b) = two_byte_chars a + two_byte_chars b.
Proof. induction a as [|x a IH]; simpl; [reflexivity | rewrite IH; lia]. Qed.

Lemma plain_path_char_ascii (ch : ascii) :
  plain_path_char ch = true -> (nat_of_ascii ch <? 128)%nat = true.
Proof.
  unfold plain_path_char. pose proof (nat_ascii_bounded ch) as Hb.
  generalize dependent (nat_of_ascii ch). intros n _ H.
  apply Nat.ltb_lt.
  repeat (apply orb_true_iff in H as [H | H]);
    try (apply andb_true_iff in H as [_ H]; apply Nat.leb_le in H; lia);
    apply Nat.eqb_eq in H; lia.
Qed.

Lemma base64_char_ascii (ch : ascii) :
  is_base64_char ch = true -> (nat_of_ascii ch <? 128)%nat = true.
Proof.
  unfold is_base64_char. pose proof (nat_ascii_bounded ch) as Hb.
  generalize dependent (nat_of_ascii ch). intros n _ H.
  apply Nat.ltb_lt.
  repeat (apply orb_true_iff in H as [H | H]);
    try (apply andb_true_iff in H as [_ H]; apply Nat.leb_le in H; lia);
    apply Nat.eqb_eq in H; lia.
Qed.

Lemma every_ascii (cls : ascii -> bool) (s : string) :
  (forall ch, cls ch = true -> (nat_of_ascii ch <? 128)%nat = true) ->
  every cls s = true -> two_byte_chars s = 0.
Proof.
  intros Hcls. induction s as [|a s IH]; [reflexivity|].
  cbn [every two_byte_chars]. intros H. apply andb_true_iff in H as [Ha Hs].
  rewrite (Hcls a Ha), (IH Hs). reflexivity.
Qed.

Lemma too_long_bound (s : string) :
  (Z.of_nat (String.length s + two_byte_chars s) < 131072)%Z -> Double.too_long s = false.
Proof.
  intros H. unfold Double.too_long. rewrite utf8_length. apply Z.leb_gt. exact H.
Qed.

Lemma has_nul_count (s : string) :
  Double.has_nul s = false <-> count_char (ascii_of_nat 0) s = 0.
Proof.
  unfold Double.has_nul. split; [apply contains_char_count | apply count_zero_contains].
Qed.

(** What [subprocess.run] does on the double with a script it accepts. *)
Lemma container_runs (script : string) (t : Z) (files : list (string * string)) :
  Double.has_nul script = false ->
  Double.too_long script = false ->
  subprocess_run Double.container
    ["docker"; "exec"; "master-nextcloud-1"; "bash"; "-c"; script] t files
  = Double.bash_c script files.
Proof.
  intros Hnul Hlong. cbn [subprocess_run Double.container existsb].
  change (Double.has_nul "docker") with false. change (Double.has_nul "exec") with false.
  change (Double.has_nul "master-nextcloud-1") with false.
  change (Double.has_nul "bash") with false. change (Double.has_nul "-c") with false.
  rewrite Hnul. cbn [orb].
  change (Double.too_long "docker") with false. change (Double.too_long "exec") with false.
  change (Double.too_long "master-nextcloud-1") with false.
  change (Double.too_long "bash") with false. change (Double.too_long "-c") with false.
  rewrite Hlong. reflexivity.
Qed.

Lemma script_lines_single (s : string) :
  count_char (ascii_of_nat 10) s = 0 -> s <> "" -> Double.script_lines s = [s].
Proof.
  intros Hnl Hne. unfold Double.script_lines. rewrite (single_line s Hnl). cbn [last].
  apply String.eqb_neq in Hne. now rewrite Hne.
Qed.

Lemma exec_heredoc (n at_line : nat) (ls rest : list string) (target acc : string)
    (sh : Double.Shell) :
  ~ In "EOF" ls ->
  Double.exec n (ls ++ rest)%list (Double.HereDoc at_line target acc) sh
  = Double.exec (List.length ls + n) rest
      (Double.HereDoc at_line target (acc ++ unlines ls)) sh.
Proof.
  revert n acc. induction ls as [|l ls IH]; intros n acc Hno.
  - cbn [List.app unlines fold_right List.length Nat.add]. now rewrite str_app_nil_r.
  - cbn [List.app Double.exec].
    destruct (String.eqb_spec l "EOF") as [-> | _]; [exfalso; apply Hno; now left|].
    rewrite IH by (intros H; apply Hno; now right).
    cbn [unlines fold_right List.length]. fold (unlines ls).
    rewrite !str_app_assoc. f_equal. lia.
Qed.

Lemma universal_newlines_plain (s : string) :
  count_char CR s = 0 -> Double.universal_newlines s = s.
Proof.
  induction s as [|a s IH]; [reflexivity|]. cbn [count_char Double.universal_newlines].
  change (ascii_of_nat 13) with CR.
  destruct (Ascii.eqb a CR); [discriminate|]. intros H. now rewrite IH.
Qed.

(** The script of [write_file_handler] on the double. *)
Lemma heredoc_runs (p c : string) (files : list (string * string)) :
  every plain_path_char p = true ->
  Double.names_directory p = false ->
  ~ In "EOF" (split newline c) ->
  Double.bash_c ("cat > /var/www/html/apps-extra/openregister/" ++ p ++ " << 'EOF'"
                 ++ newline ++ c ++ newline ++ "EOF") files
  = (Return (Completed 0 "" ""),
     ("/var/www/html/apps-extra/openregister/" ++ p, c ++ newline) :: files).
Proof.
  intros Hplain Hdir Hno.
  assert (Hp : forall ch, plain_path_char ch = false -> count_char ch p = 0)
    by (intros ch; now apply every_count_zero).
  pose (target := "/var/www/html/apps-extra/openregister/" ++ p).
  pose (head := "cat > " ++ target ++ " << 'EOF'").
  assert (Hsplit : split newline ("cat > /var/www/html/apps-extra/openregister/" ++ p
                                  ++ " << 'EOF'" ++ newline ++ c ++ newline ++ "EOF")
                   = ((head :: split newline c) ++ ["EOF"])%list).
  { replace ("cat > /var/www/html/apps-extra/openregister/" ++ p ++ " << 'EOF'"
             ++ newline ++ c ++ newline ++ "EOF")
      with (head ++ newline ++ (c ++ newline ++ "EOF"))
      by (unfold head, target; rewrite !str_app_assoc; reflexivity).
    rewrite (split_first_cut newline _ head (c ++ newline ++ "EOF")); [|discriminate|].
    - now rewrite (split_newline_app c "EOF").
    - apply (first_cut_clean_head (ascii_of_nat 10) "").
      change head with ("cat > /var/www/html/apps-extra/openregister/" ++ p ++ " << 'EOF'").
      rewrite !count_char_app, (Hp (ascii_of_nat 10) eq_refl). reflexivity. }
  unfold Double.bash_c, Double.script_lines. rewrite Hsplit, last_last.
  cbn [String.eqb Ascii.eqb Bool.eqb List.app Double.exec].
  unfold Double.step_command.
  change (String.eqb head "") with false.
  change (startswith head ("echo " ++ dq)) with false.
  change (startswith head "cat > ") with true.
  change (drop 6 head) with (target ++ " << 'EOF'" ++ "").
  rewrite (first_cut_partition " << 'EOF'" _ target "").
  2:{ apply (first_cut_clean_head " " "<< 'EOF'"). unfold target.
      rewrite count_char_app, (Hp " "%char eq_refl). reflexivity. }
  rewrite exec_heredoc by exact Hno.
  cbn [Double.exec String.eqb Ascii.eqb Bool.eqb]. unfold Double.write.
  unfold target. rewrite names_directory_target, Hdir.
  cbn [Double.fs Double.out Double.err Double.status Double.universal_newlines String.append].
  now rewrite unlines_split.
Qed.

(** The script of [_write_file] on the double. *)
Lemma base64_runs (p c : string) (files : list (string * string)) :
  every plain_path_char p = true ->
  Double.names_directory p = false ->
  Double.bash_c ("echo " ++ dq ++ Base64.b64encode (Base64.utf8 c) ++ dq
                 ++ " | base64 -d > " ++ APP_PATH ++ "/" ++ p) files
  = (Return (Completed 0 "" ""),
     ("/var/www/html/apps-extra/openregister/" ++ p, c) :: files).
Proof.
  intros Hplain Hdir.
  assert (Hp : count_char (ascii_of_nat 10) p = 0)
    by (apply (every_count_zero plain_path_char); [exact Hplain | reflexivity]).
  pose (encoded := Base64.b64encode (Base64.utf8 c)).
  assert (Henc : forall ch, is_base64_char ch = false -> count_char ch encoded = 0)
    by (intros ch; apply every_count_zero, b64encode_chars).
  pose (target := "/var/www/html/apps-extra/openregister/" ++ p).
  pose (line := "echo " ++ dq ++ encoded ++ dq ++ " | base64 -d > " ++ target).
  change ("echo " ++ dq ++ Base64.b64encode (Base64.utf8 c) ++ dq
          ++ " | base64 -d > " ++ APP_PATH ++ "/" ++ p) with line.
  unfold Double.bash_c. rewrite (script_lines_single line).
  2:{ change line
        with (("echo " ++ dq) ++ encoded ++ (dq ++ " | base64 -d > " ++ APP_PATH ++ "/") ++ p).
      rewrite !count_char_app, Hp, (Henc (ascii_of_nat 10) eq_refl). reflexivity. }
  2:{ discriminate. }
  cbn [Double.exec]. unfold Double.step_command.
  change (String.eqb line "") with false.
  change (startswith line ("echo " ++ dq)) with true.
  change (drop 6 line) with (encoded ++ (dq ++ " | base64 -d > ") ++ target).
  rewrite (first_cut_partition _ _ encoded target)
    by (apply first_cut_clean_head, Henc; reflexivity).
  unfold Double.write, target. rewrite names_directory_target, Hdir.
  unfold encoded. rewrite transfer_round_trip. reflexivity.
Qed.

(** The script of the two read handlers on the double, for a file of the
    store. *)
Lemma cat_runs (p c : string) (files : list (string * string)) :
  every plain_path_char p = true ->
  Double.bash_c ("cat /var/www/html/apps-extra/openregister/" ++ p)
    (("/var/www/html/apps-extra/openregister/" ++ p, c) :: files)
  = (Return (Completed 0 (Double.universal_newlines c) ""),
     ("/var/www/html/apps-extra/openregister/" ++ p, c) :: files).
Proof.
  intros Hplain.
  assert (Hp : count_char (ascii_of_nat 10) p = 0)
    by (apply (every_count_zero plain_path_char); [exact Hplain | reflexivity]).
  pose (target := "/var/www/html/apps-extra/openregister/" ++ p).
  unfold Double.bash_c. rewrite script_lines_single.
  2:{ rewrite count_char_app, Hp. reflexivity. }
  2:{ discriminate. }
  cbn [Double.exec]. unfold Double.step_command.
  change (String.eqb ("cat /var/www/html/apps-extra/openregister/" ++ p) "") with false.
  change (startswith ("cat /var/www/html/apps-extra/openregister/" ++ p) ("echo " ++ dq))
    with false.
  change (startswith ("cat /var/www/html/apps-extra/openregister/" ++ p) "cat > ") with false.
  change (startswith ("cat /var/www/html/apps-extra/openregister/" ++ p) "cat ") with true.
  change (drop 4 ("cat /var/www/html/apps-extra/openregister/" ++ p)) with target.
  cbn [Double.fs Double.answer]. unfold target. rewrite String.eqb_refl. reflexivity.
Qed.

(** The scripts of the handlers are within what [subprocess.run] takes. *)
Lemma read_script_accepted (p : string) :
  every plain_path_char p = true ->
  String.length p <= 255 ->
  Double.has_nul ("cat /var/www/html/apps-extra/openregister/" ++ p) = false
  /\ Double.too_long ("cat /var/www/html/apps-extra/openregister/" ++ p) = false.
Proof.
  intros Hplain Hlen. split.
  - apply has_nul_count. rewrite count_char_app.
    rewrite (every_count_zero plain_path_char (ascii_of_nat 0) p Hplain eq_refl). reflexivity.
  - apply too_long_bound. rewrite str_length_app, two_byte_chars_app.
    rewrite (every_ascii plain_path_char p plain_path_char_ascii Hplain).
    change (String.length "cat /var/www/html/apps-extra/openregister/") with 42.
    change (two_byte_chars "cat /var/www/html/apps-extra/openregister/") with 0. lia.
Qed.

Lemma heredoc_script_accepted (p c : string) :
  every plain_path_char p = true ->
  String.length p <= 255 ->
  Double.has_nul c = false ->
  (Z.of_nat (String.length c + two_byte_chars c) <= 130000)%Z ->
  Double.has_nul ("cat > /var/www/html/apps-extra/openregister/" ++ p ++ " << 'EOF'"
                  ++ newline ++ c ++ newline ++ "EOF") = false
  /\ Double.too_long ("cat > /var/www/html/apps-extra/openregister/" ++ p ++ " << 'EOF'"
                      ++ newline ++ c ++ newline ++ "EOF") = false.
Proof.
  intros Hplain Hlen Hnul Hsize. apply has_nul_count in Hnul. split.
  - apply has_nul_count. rewrite !count_char_app, Hnul.
    rewrite (every_count_zero plain_path_char (ascii_of_nat 0) p Hplain eq_refl). reflexivity.
  - apply too_long_bound. rewrite !str_length_app, !two_byte_chars_app.
    rewrite (every_ascii plain_path_char p plain_path_char_ascii Hplain).
    change (String.length "cat > /var/www/html/apps-extra/openregister/") with 44.
    change (two_byte_chars "cat > /var/www/html/apps-extra/openregister/") with 0.
    change (String.length " << 'EOF'") with 9. change (two_byte_chars " << 'EOF'") with 0.
    change (String.length newline) with 1. change (two_byte_chars newline) with 0.
    change (String.length "EOF") with 3. change (two_byte_chars "EOF") with 0. lia.
Qed.

Lemma base64_script_accepted (p c : string) :
  every plain_path_char p = true ->
  String.length p <= 255 ->
  (Z.of_nat (String.length c + two_byte_chars c) <= 98000)%Z ->
  Double.has_nul ("echo " ++ dq ++ Base64.b64encode (Base64.utf8 c) ++ dq
                  ++ " | base64 -d > " ++ APP_PATH ++ "/" ++ p) = false
  /\ Double.too_long ("echo " ++ dq ++ Base64.b64encode (Base64.utf8 c) ++ dq
                      ++ " | base64 -d > " ++ APP_PATH ++ "/" ++ p) = false.
Proof.
  intros Hplain Hlen Hsize.
  pose proof (b64encode_chars (Base64.utf8 c)) as Henc.
  pose proof (b64encode_length (Base64.utf8 c) (utf8_bytes c)) as Hlength.
  rewrite utf8_length in Hlength.
  generalize dependent (Base64.b64encode (Base64.utf8 c)). intros encoded Henc Hlength.
  change ("echo " ++ dq ++ encoded ++ dq ++ " | base64 -d > " ++ APP_PATH ++ "/" ++ p)
    with (("echo " ++ dq) ++ encoded
          ++ (dq ++ " | base64 -d > /var/www/html/apps-extra/openregister/") ++ p).
  split.
  - apply has_nul_count. rewrite !count_char_app.
    rewrite (every_count_zero plain_path_char (ascii_of_nat 0) p Hplain eq_refl).
    rewrite (every_count_zero is_base64_char (ascii_of_nat 0) encoded Henc eq_refl). reflexivity.
  - apply too_long_bound. rewrite !str_length_app, !two_byte_chars_app.
    rewrite (every_ascii plain_path_char p plain_path_char_ascii Hplain).
    rewrite (every_ascii is_base64_char encoded base64_char_ascii Henc).
    change (String.length "echo ") with 5. change (two_byte_chars "echo ") with 0.
    change (String.length dq) with 1. change (two_byte_chars dq) with 0.
    change (String.length " | base64 -d > /var/www/html/apps-extra/openregister/") with 53.
    change (two_byte_chars " | base64 -d > /var/www/html/apps-extra/openregister/") with 0.
    rewrite Hlength. clear Hlength Henc.
    generalize dependent (String.length c + two_byte_chars c). intros n Hn.
    generalize dependent (String.length p). intros lp Hlp.
    zify. Z.to_euclidean_division_equations. lia.
Qed.





(** ** The AI fix route *)

Lemma extract_has_no_fence (r : string) :
  contains "```" (ContainerAPIAI.extract_fixed_code r) = false.
Proof.
  unfold ContainerAPIAI.extract_fixed_code.
  destruct (contains "```php" r).
  - apply strip_clean, hd_split_clean. discriminate.
  - destruct (contains "```" r) eqn:H; [|exact H].
    apply strip_clean, hd_split_clean. discriminate.
Qed.

Lemma extract_shorter (r : string) :
  String.length (ContainerAPIAI.extract_fixed_code r) <= String.length r.
Proof.
  unfold ContainerAPIAI.extract_fixed_code.
  destruct (contains "```php" r); [|destruct (contains "```" r); [|lia]];
    (etransitivity; [apply strip_shorter|]);
    (etransitivity; [apply hd_split_shorter; discriminate|]);
    apply nth_split_shorter; discriminate.
Qed.

(** X18.  The code that [_handle_ai_fix] extracts from a reply of the
    model never holds a fence, is left as it is by a second extraction, is
    no longer than the reply and, when the reply has a fence, has no
    whitespace at either end. *)
Theorem extracted_code_has_no_fence (r : string) :
  contains "```" (ContainerAPIAI.extract_fixed_code r) = false
  /\ ContainerAPIAI.extract_fixed_code (ContainerAPIAI.extract_fixed_code r)
     = ContainerAPIAI.extract_fixed_code r
  /\ String.length (ContainerAPIAI.extract_fixed_code r) <= String.length r
  /\ (contains "```" r = true ->
      strip (ContainerAPIAI.extract_fixed_code r) = ContainerAPIAI.extract_fixed_code r).
Proof.
  split; [apply extract_has_no_fence|].
  split; [apply extract_no_fence, extract_has_no_fence|].
  split; [apply extract_shorter|].
  intros H. unfold ContainerAPIAI.extract_fixed_code. rewrite H.
  destruct (contains "```php" r); apply strip_idempotent.
Qed.

(** X19.  An AI fix request with its three fields makes one call, to the
    model service, and its prompt is the fixed text around the issues, as
    [json.dumps(issues, indent=2)] prints them, and the submitted code inside
    a [php] fence.  When the call raises, the answer is 500 with the text of
    the exception; a model status other than 200 gives 500
    [Ollama API error].  On status 200 with a string in [response] the
    answer is 200 with the code extracted from that string as [fixed_code]
    and its length as [fixed_size]; a [response] that is null gives 500 with
    the text of the TypeError, and a reply that cannot be read gives 500 with
    the text of its exception. *)
Theorem ai_fix_asks_the_model_once (E : Env) (req : Request) (st : St E) (fields : Fields)
    (f c : string) (i : Json) :
  lstrip_char "/" (path req) = "ai-fix-code" ->
  body req = Return fields ->
  file fields = Some f ->
  issues fields = Some i ->
  content fields = Some c ->
  ContainerAPIAI.all_present fields = true ->
  exists prompt,
    prompt = "Fix this PHP code according to PSR-12 standards." ++ newline ++ newline
             ++ "Issues found:" ++ newline ++ json_dumps_indent2 E i ++ newline ++ newline
             ++ "Current code:" ++ newline ++ fenced c ++ newline ++ newline
             ++ "Provide ONLY the fixed PHP code, no explanations."
    /\ calls (snd (ContainerAPIAI.do_POST E req st))
       = (calls st ++ [ModelPost "http://localhost:11434/api/generate" prompt 60])%list
    /\ (forall e w1,
          requests_post E "http://localhost:11434/api/generate" prompt 60 (world st)
          = (Raise e, w1) ->
          fst (ContainerAPIAI.do_POST E req st)
          = Return {| status_code := 500; payload := [("error", JStr (exn_str e))] |})
    /\ (forall response w1,
          requests_post E "http://localhost:11434/api/generate" prompt 60 (world st)
          = (Return response, w1) ->
          (model_status_code response <> 200%Z ->
           fst (ContainerAPIAI.do_POST E req st)
           = Return {| status_code := 500; payload := [("error", JStr "Ollama API error")] |})
          /\
          (model_status_code response = 200%Z ->
           (forall r,
              model_json_response response = Return (JStr r) ->
              fst (ContainerAPIAI.do_POST E req st)
              = Return (fix_answer f c (ContainerAPIAI.extract_fixed_code r)))
           /\
           (model_json_response response = Return JNull ->
            fst (ContainerAPIAI.do_POST E req st)
            = Return {| status_code := 500;
                        payload := [("error",
                                     JStr "argument of type 'NoneType' is not iterable")] |})
           /\
           (forall e,
              model_json_response response = Raise e ->
              fst (ContainerAPIAI.do_POST E req st)
              = Return {| status_code := 500; payload := [("error", JStr (exn_str e))] |}))).
Proof.
  intros Hpath Hb Hf Hi Hc Hall.
  exists (ContainerAPIAI.build_prompt E i c).
  split; [unfold ContainerAPIAI.build_prompt, fenced; now rewrite !str_app_assoc|].
  unfold ContainerAPIAI.do_POST. rewrite Hpath.
  cbn [ContainerAPIAI.file_operations existsb String.eqb Ascii.eqb Bool.eqb orb].
  unfold ContainerAPIAI._handle_ai_fix, post. run_monad.
  rewrite Hb, Hall, Hf, Hi, Hc. cbn [negb].
  change (ContainerAPIAI.OLLAMA_URL ++ "/api/generate")
    with "http://localhost:11434/api/generate".
  destruct (requests_post E _ _ _ _) as [[response|e] w] eqn:Hpost.
  - split.
    { destruct (negb _);
        [|destruct (model_json_response response) as [a|];
          [destruct (ContainerAPIAI.extract_from_reply a)|]]; reflexivity. }
    split; [intros e w1 [=]|].
    intros response' w1 [= <- _]. split.
    + intros Hne. apply Z.eqb_neq in Hne. rewrite Hne. reflexivity.
    + intros H200. rewrite H200. cbn [Z.eqb Pos.eqb negb]. split; [|split].
      * intros r ->. reflexivity.
      * intros ->. reflexivity.
      * intros e ->. reflexivity.
  - split; [reflexivity|]. split; [intros e' w1 [= <- _]; reflexivity|].
    intros response' w1 [=].
Qed.

Lemma ai_fix_witness :
  exists prompt,
    prompt = "Fix this PHP code according to PSR-12 standards." ++ newline ++ newline
             ++ "Issues found:" ++ newline
             ++ ("[" ++ newline ++ "  1" ++ newline ++ "]") ++ newline ++ newline
             ++ "Current code:" ++ newline ++ fenced "<?php" ++ newline ++ newline
             ++ "Provide ONLY the fixed PHP code, no explanations."
    /\ calls (snd (ContainerAPIAI.do_POST (reply_env php_reply) (ai_fix_request 64 all_fields)
                     (Double.start (reply_env php_reply) tt)))
       = [ModelPost "http://localhost:11434/api/generate" prompt 60]
    /\ (forall e w1,
          requests_post (reply_env php_reply) "http://localhost:11434/api/generate" prompt 60 tt
          = (Raise e, w1) ->
          fst (ContainerAPIAI.do_POST (reply_env php_reply) (ai_fix_request 64 all_fields)
                 (Double.start (reply_env php_reply) tt))
          = Return {| status_code := 500; payload := [("error", JStr (exn_str e))] |})
    /\ (forall response w1,
          requests_post (reply_env php_reply) "http://localhost:11434/api/generate" prompt 60 tt
          = (Return response, w1) ->
          (model_status_code response <> 200%Z ->
           fst (ContainerAPIAI.do_POST (reply_env php_reply) (ai_fix_request 64 all_fields)
                  (Double.start (reply_env php_reply) tt))
           = Return {| status_code := 500; payload := [("error", JStr "Ollama API error")] |})
          /\
          (model_status_code response = 200%Z ->
           (forall r,
              model_json_response response = Return (JStr r) ->
              fst (ContainerAPIAI.do_POST (reply_env php_reply) (ai_fix_request 64 all_fields)
                     (Double.start (reply_env php_reply) tt))
              = Return (fix_answer "a.php" "<?php" (ContainerAPIAI.extract_fixed_code r)))
           /\
           (model_json_response response = Return JNull ->
            fst (ContainerAPIAI.do_POST (reply_env php_reply) (ai_fix_request 64 all_fields)
                   (Double.start (reply_env php_reply) tt))
            = Return {| status_code := 500;
                        payload := [("error",
                                     JStr "argument of type 'NoneType' is not iterable")] |})
           /\
           (forall e,
              model_json_response response = Raise e ->
              fst (ContainerAPIAI.do_POST (reply_env php_reply) (ai_fix_request 64 all_fields)
                     (Double.start (reply_env php_reply) tt))
              = Return {| status_code := 500; payload := [("error", JStr (exn_str e))] |}))).
Proof.
  apply (ai_fix_asks_the_model_once (reply_env php_reply) (ai_fix_request 64 all_fields)
           (Double.start (reply_env php_reply) tt) all_fields "a.php" "<?php"
           (JList [JInt 1]));
    reflexivity.
Defined.
